(** * FabFlow Studio backend: a shallow embedding of the pipeline core

    This development embeds the parts of the FabFlow Studio backend
    (src/backend/app) that carry its non-trivial logic and proves their
    documented properties:
    - [video_compositor.py]: the xfade timing arithmetic of
      [build_ffmpeg_command];
    - [fibo_client.py]: the retry wrapper [with_retry];
    - [parameter_modification.py]: [apply_parameter_modification];
    - [fibo_translator.py]: the structured prompt round trip;
    - [frame_generator.py]: [generate_all_frames];
    - [main.py]: the job status writes of the video pipeline and of the
      parameter modification endpoint.

    Python floats (scene durations, delays) are modelled by exact
    rationals [Q]; Python ints by [Z]; strings by [String.string]. *)

From Stdlib Require Import Ascii String List ZArith QArith Qminmax Bool Lia.
From Stdlib Require Import Sorting.Sorted Sorting.Permutation.
Import ListNotations.
Open Scope string_scope.

(** ** Part 1: definitions *)

(** *** [video_compositor.py] *)
Module VideoCompositor.

(** The fields of a v1 [Scene] that the compositor reads. *)
Record Scene := mkScene {
  scene_number : Z;
  duration : Q;
  transition : string
}.

(** [GeneratedFrame] of [frame_generator.py]. *)
Record GeneratedFrame := mkFrame {
  frame_scene_number : Z;
  frame_index : Z;
  image_url : string;
  local_path : string
}.

(** Stream labels of the filter graph: [[v{i}]], [[xf{i}]] and [[outv]]. *)
Inductive label := LV (i : nat) | LXF (i : nat) | LOutv.

(** One [xfade] filter of the graph:
    [{in1}{in2}xfade=transition={name}:duration={d}:offset={off}{out}].
    The offset is kept as the value the code computes; the command text
    prints it with two decimals. *)
Record Xfade := mkXfade {
  xf_in1 : label;
  xf_in2 : label;
  xf_name : string;
  xf_duration : Q;
  xf_offset : Q;
  xf_out : label
}.

(** The part of the filter graph after the per-input scaling chains. *)
Inductive FilterTail :=
| Xfades (parts : list Xfade)
| Concat (n : nat).

(** The filter graph: one scaling chain [(i, scene.duration)] per
    [zip(frames, storyboard.scenes)] pair, then the transition chain or
    the concatenation. *)
Record FilterGraph := mkGraph {
  scale_parts : list (nat * Q);
  filter_tail : FilterTail
}.

Definition get_xfade_transition (transition_type : string) : string :=
  if String.eqb transition_type "fade" then "fade"
  else if String.eqb transition_type "dissolve" then "dissolve"
  else if String.eqb transition_type "cross-dissolve" then "dissolve"
  else if String.eqb transition_type "cut" then "fade"
  else if String.eqb transition_type "slide" then "slideleft"
  else "fade".

Definition get_transition_duration (transition_type : string) : Q :=
  if String.eqb transition_type "cut" then 1 # 10 else 1 # 2.

(** Python's [max(a, b)]: [b] replaces [a] only when [b > a]. *)
Definition py_max (a b : Q) : Q := if Qlt_le_dec a b then b else a.

(** [for i, (frame, scene) in enumerate(zip(frames, storyboard.scenes))] *)
Fixpoint scale_loop (i : nat) (frames : list GeneratedFrame)
    (scenes : list Scene) : list (nat * Q) :=
  match frames, scenes with
  | _ :: frames', sc :: scenes' => (i, duration sc) :: scale_loop (S i) frames' scenes'
  | _, _ => []
  end.

(** The body of [for i in range(len(frames) - 1)], run [fuel] times from
    index [i]; [n] is [len(frames)], [cur] is [current_input] and [cum]
    is [cumulative_duration]. [storyboard.scenes[i]] out of range raises
    [IndexError], modelled by [None]. *)
Fixpoint xfade_loop (fuel i n : nat) (cur : label) (cum : Q)
    (scenes : list Scene) : option (list Xfade) :=
  match fuel with
  | O => Some []
  | S fuel' =>
      match nth_error scenes i, nth_error scenes (S i) with
      | Some scene, Some next_scene =>
          let transition_type := transition scene in
          let xfade_name := get_xfade_transition transition_type in
          let transition_duration := get_transition_duration transition_type in
          let offset := py_max 0 (cum - transition_duration) in
          let output_label := if Nat.ltb i (n - 2) then LXF i else LOutv in
          match xfade_loop fuel' (S i) n (LXF i) (offset + duration next_scene) scenes with
          | Some rest =>
              Some (mkXfade cur (LV (S i)) xfade_name transition_duration offset
                      output_label :: rest)
          | None => None
          end
      | _, _ => None
      end
  end.

(** The filter graph built by [build_ffmpeg_command]. *)
Definition build_filter_graph (frames : list GeneratedFrame) (scenes : list Scene)
    (enable_transitions : bool) : option FilterGraph :=
  let filter_parts := scale_loop 0 frames scenes in
  if enable_transitions && Nat.ltb 1 (length frames) then
    match scenes with
    | [] => None
    | scene0 :: _ =>
        match xfade_loop (length frames - 1) 0 (length frames) (LV 0)
                (duration scene0) scenes with
        | Some xfade_parts => Some (mkGraph filter_parts (Xfades xfade_parts))
        | None => None
        end
    end
  else Some (mkGraph filter_parts (Concat (length frames))).

(** The offsets as the spec words them: [cumulative_1] is the first
    scene's duration, [offset_i = max(0, cumulative_i - td_i)] and
    [cumulative_(i+1) = offset_i + duration_(i+1)] (indices from 0 here). *)
Definition default_scene : Scene := mkScene 0 0 "".

Definition dur_at (scenes : list Scene) (i : nat) : Q :=
  duration (nth i scenes default_scene).

Definition td_at (scenes : list Scene) (i : nat) : Q :=
  get_transition_duration (transition (nth i scenes default_scene)).

Fixpoint spec_offset (scenes : list Scene) (i : nat) : Q :=
  match i with
  | O => Qmax 0 (dur_at scenes 0 - td_at scenes 0)
  | S j => Qmax 0 ((spec_offset scenes j + dur_at scenes (S j)) - td_at scenes (S j))
  end.

Definition spec_cumulative (scenes : list Scene) (i : nat) : Q :=
  match i with
  | O => dur_at scenes 0
  | S j => spec_offset scenes j + dur_at scenes (S j)
  end.

End VideoCompositor.

(** *** [fibo_client.py]: the retry wrapper *)
Module Retry.

(** The exceptions the wrapper distinguishes. [FIBOError] carries its
    [message], [code] and [retryable] flag ([FIBOTimeoutError] and
    [FIBOAPIError] are [FIBOError]s with their own code and flag);
    [FIBORetryExhaustedError] is the [FIBOError] subclass with
    [retryable=False] and a [last_error]; [HttpxError] stands for
    [httpx.TimeoutException] and [httpx.RequestError]; [OtherError] for
    every other exception, which the wrapper does not catch. *)
#[warnings="-register-all"]
Inductive Exn :=
| FIBOError (message code : string) (retryable : bool)
| FIBORetryExhaustedError (message : string) (last_error : option Exn)
| HttpxError (message : string)
| OtherError (message : string).

(** [e.message] for FIBO errors, [str(e)] for the others. *)
Definition exn_message (e : Exn) : string :=
  match e with
  | FIBOError m _ _ | FIBORetryExhaustedError m _ | HttpxError m | OtherError m => m
  end.

(** [except FIBOError as e]: [Some e.retryable] when [e] is a FIBO error. *)
Definition fibo_retryable (e : Exn) : option bool :=
  match e with
  | FIBOError _ _ r => Some r
  | FIBORetryExhaustedError _ _ => Some false
  | _ => None
  end.

(** [except (httpx.TimeoutException, httpx.RequestError)] *)
Definition is_httpx (e : Exn) : bool :=
  match e with HttpxError _ => true | _ => false end.

(** What one call of the wrapped coroutine does. *)
Inductive Outcome (A : Type) :=
| Ok (v : A)
| Raise (e : Exn).
Arguments Ok {A} v.
Arguments Raise {A} e.

(** The observable effects of the wrapper: a call of the wrapped
    coroutine at a zero-based attempt number, and an [asyncio.sleep]. *)
Inductive Event := Attempt (k : nat) | Sleep (d : Q).

(** Decimal rendering of a Python int in an f-string. *)
Fixpoint digits_of (fuel : nat) (n : N) (acc : string) : string :=
  match fuel with
  | O => acc
  | S fuel' =>
      let acc' := String (Ascii.ascii_of_N (48 + N.modulo n 10)) acc in
      if N.ltb n 10 then acc' else digits_of fuel' (N.div n 10) acc'
  end.

Definition str_of_Z (z : Z) : string :=
  match z with
  | Z.neg p => "-" ++ digits_of (S (N.size_nat (Npos p))) (Npos p) ""
  | _ => digits_of (S (N.size_nat (Z.to_N z))) (Z.to_N z) ""
  end.

(** Python's [min(a, b)]: [b] replaces [a] only when [b < a]. *)
Definition py_min (a b : Q) : Q := if Qlt_le_dec b a then b else a.

Section WithRetry.
Context {A : Type}.
Variables (max_retries : Z) (base_delay max_delay : Q).
(** [func k] is the outcome of the wrapped call at attempt [k]. *)
Variable func : nat -> Outcome A.

(** [delay = min(base_delay * (2 ** attempt), max_delay)] *)
Definition backoff_delay (attempt : nat) : Q :=
  py_min (base_delay * inject_Z (2 ^ Z.of_nat attempt)) max_delay.

(** [base_delay] is a float: [base_delay * (2 ** attempt)] converts the
    int [2 ** attempt] to a float, which raises [OverflowError] from
    [2 ** 1024] on. The error is raised inside the [except] handler, so it
    leaves the wrapper. *)
Definition delay_overflow : Exn := OtherError "int too large to convert to float".

Definition exhausted (e : Exn) : Exn :=
  FIBORetryExhaustedError
    ("Failed after " ++ str_of_Z max_retries ++ " retries: " ++ exn_message e) (Some e).

(** The handler shared by the two retrying [except] branches: give up
    after the last attempt, otherwise compute the delay (which overflows
    from attempt 1024 on), sleep and go on. *)
Definition retry_or_give_up (attempt : nat) (e : Exn)
    (k : unit -> list Event * Outcome A) : list Event * Outcome A :=
  if Z.geb (Z.of_nat attempt) max_retries then ([Attempt attempt], Raise (exhausted e))
  else if Nat.ltb attempt 1024 then
    let '(evs, r) := k tt in (Attempt attempt :: Sleep (backoff_delay attempt) :: evs, r)
  else ([Attempt attempt], Raise delay_overflow).

(** [for attempt in range(...)] from [attempt], with [fuel] iterations
    left and [last_error] so far. *)
Fixpoint retry_loop (fuel attempt : nat) (last_error : option Exn)
    : list Event * Outcome A :=
  match fuel with
  | O =>
      ([], Raise (FIBORetryExhaustedError
                    ("Failed after " ++ str_of_Z max_retries ++ " retries") last_error))
  | S fuel' =>
      match func attempt with
      | Ok v => ([Attempt attempt], Ok v)
      | Raise e =>
          match fibo_retryable e with
          | Some retryable =>
              if negb retryable then ([Attempt attempt], Raise e)
              else retry_or_give_up attempt e
                     (fun _ => retry_loop fuel' (S attempt) (Some e))
          | None =>
              if is_httpx e then
                retry_or_give_up attempt e (fun _ => retry_loop fuel' (S attempt) (Some e))
              else ([Attempt attempt], Raise e)
          end
      end
  end.

(** The decorated coroutine: [range(max_retries + 1)] from attempt 0. *)
Definition with_retry : list Event * Outcome A :=
  retry_loop (Z.to_nat (max_retries + 1)) 0 None.

End WithRetry.

(** A failure the wrapper retries: a FIBO error flagged retryable or a
    transport error. *)
Definition retryable_failure {A} (o : Outcome A) : bool :=
  match o with
  | Ok _ => false
  | Raise e =>
      match fibo_retryable e with
      | Some r => r
      | None => is_httpx e
      end
  end.

Definition non_retryable_failure {A} (o : Outcome A) : bool :=
  match o with
  | Raise e => match fibo_retryable e with Some r => negb r | None => false end
  | Ok _ => false
  end.

Fixpoint count_attempts (evs : list Event) : nat :=
  match evs with
  | [] => O
  | Attempt _ :: evs' => S (count_attempts evs')
  | Sleep _ :: evs' => count_attempts evs'
  end.

(** The events of attempts [0 .. k-1] when each failed and was retried. *)
Definition backoff_prefix (base_delay max_delay : Q) (k : nat) : list Event :=
  flat_map (fun j => [Attempt j; Sleep (backoff_delay base_delay max_delay j)]) (seq 0 k).

End Retry.

(** *** Python values and the pydantic models of [models.py] *)
Module PyModel.

(** Runtime Python values as the modification code sees them: pydantic
    model instances are [PObj] with their class name and fields in
    declaration order; [PDict] is a dict with string keys. *)
#[warnings="-register-all"]
Inductive pyval :=
| PNone
| PBool (b : bool)
| PInt (z : Z)
| PFloat (q : Q)
| PStr (s : string)
| PList (xs : list pyval)
| PDict (kvs : list (string * pyval))
| PObj (cls : string) (fields : list (string * pyval)).

(** The exceptions the modification code can meet: a [KeyError] with
    its argument, and any other exception with its [str()]. *)
Inductive PyErr :=
| KeyError (arg : string)
| OtherError (msg : string).

Fixpoint assoc_get {V : Type} (k : string) (l : list (string * V)) : option V :=
  match l with
  | [] => None
  | (k', v) :: l' => if String.eqb k k' then Some v else assoc_get k l'
  end.

(** [d[k] = v] on a dict or a field: the first entry with key [k] is
    replaced in place, a new key is appended. *)
Fixpoint assoc_put {V : Type} (k : string) (v : V) (l : list (string * V))
    : list (string * V) :=
  match l with
  | [] => [(k, v)]
  | (k', v') :: l' => if String.eqb k k' then (k', v) :: l' else (k', v') :: assoc_put k v l'
  end.

Definition type_name (v : pyval) : string :=
  match v with
  | PNone => "NoneType" | PBool _ => "bool" | PInt _ => "int" | PFloat _ => "float"
  | PStr _ => "str" | PList _ => "list" | PDict _ => "dict" | PObj c _ => c
  end.

Definition dq : Ascii.ascii := Ascii.ascii_of_nat 34.
Definition sq : Ascii.ascii := Ascii.ascii_of_nat 39.

Fixpoint has_char (c : Ascii.ascii) (s : string) : bool :=
  match s with
  | EmptyString => false
  | String c' s' => Ascii.eqb c c' || has_char c s'
  end.

(** [repr] of a string: double quotes when it holds a single quote and
    no double quote, single quotes otherwise (escapes are not modelled). *)
Definition py_repr_str (s : string) : string :=
  if has_char sq s && negb (has_char dq s)
  then String dq (s ++ String dq EmptyString)
  else String sq (s ++ String sq EmptyString).

(** [str(e)]: a [KeyError] prints the [repr] of its argument. *)
Definition py_str_err (e : PyErr) : string :=
  match e with
  | KeyError arg => py_repr_str arg
  | OtherError msg => msg
  end.

(** [path.split(".")] *)
Fixpoint split_dot_aux (s : string) (cur : string) : list string :=
  match s with
  | EmptyString => [cur]
  | String c s' =>
      if Ascii.eqb c "."%char then cur :: split_dot_aux s' ""
      else split_dot_aux s' (cur ++ String c EmptyString)
  end.

Definition split_dot (s : string) : list string := split_dot_aux s "".

(** [getattr(obj, name)] on a model instance: [__dict__] (a data
    descriptor of the class, found first) is the instance dict itself, a
    field is its entry. The other attributes Python finds on a value
    (methods and properties of its class, other dunders, pydantic's
    [model_*] API) are left out of the model: the names that can reach
    them are the ones [plain_name] below rules out. *)
Definition py_getattr (v : pyval) (name : string) : PyErr + pyval :=
  match v with
  | PObj _ fs =>
      if String.eqb name "__dict__" then inr (PDict fs)
      else
        match assoc_get name fs with
        | Some x => inr x
        | None => inl (OtherError ("'" ++ type_name v ++ "' object has no attribute '" ++ name ++ "'"))
        end
  | _ => inl (OtherError ("'" ++ type_name v ++ "' object has no attribute '" ++ name ++ "'"))
  end.

Fixpoint py_getattr_path (v : pyval) (names : list string) : PyErr + pyval :=
  match names with
  | [] => inr v
  | n :: names' =>
      match py_getattr v n with
      | inl e => inl e
      | inr x => py_getattr_path x names'
      end
  end.

(** [hasattr(obj, name)] *)
Definition py_hasattr (v : pyval) (name : string) : bool :=
  match v with
  | PObj _ fs =>
      String.eqb name "__dict__" ||
      match assoc_get name fs with Some _ => true | None => false end
  | _ => false
  end.

(** [setattr(obj, name, value)] on a model instance: pydantic hands a
    name starting with an underscore to [object.__setattr__], which
    replaces the instance dict for [__dict__] (a dict is required); a
    field is replaced; any other name is refused with a [ValueError]. *)
Definition py_setattr (v : pyval) (name : string) (x : pyval) : PyErr + pyval :=
  match v with
  | PObj c fs =>
      if String.eqb name "__dict__" then
        match x with
        | PDict kvs => inr (PObj c kvs)
        | _ => inl (OtherError ("__dict__ must be set to a dictionary, not a '"
                                ++ type_name x ++ "'"))
        end
      else
        match assoc_get name fs with
        | Some _ => inr (PObj c (assoc_put name x fs))
        | None => inl (OtherError (String dq (c ++ String dq EmptyString) ++ " object has no field "
                                   ++ String dq (name ++ String dq EmptyString)))
        end
  | _ => inl (OtherError ("'" ++ type_name v ++ "' object has no attribute '" ++ name ++ "'"))
  end.

(** The attribute names without a leading underscore that Python finds
    on the values of the program besides model fields: pydantic's
    [BaseModel] methods kept from v1, the validators of the app's models,
    and the methods and properties of [str], [int], [bool], [float] and
    [list]. *)
Definition builtin_attrs : list string :=
  [(* BaseModel, v1 API *)
   "copy"; "dict"; "json"; "parse_obj"; "parse_raw"; "parse_file"; "from_orm";
   "construct"; "schema"; "schema_json"; "validate"; "update_forward_refs";
   (* validators of models.py *)
   "validate_duration"; "validate_scenes";
   (* str *)
   "capitalize"; "casefold"; "center"; "count"; "encode"; "endswith"; "expandtabs";
   "find"; "format"; "format_map"; "index"; "isalnum"; "isalpha"; "isascii";
   "isdecimal"; "isdigit"; "isidentifier"; "islower"; "isnumeric"; "isprintable";
   "isspace"; "istitle"; "isupper"; "join"; "ljust"; "lower"; "lstrip"; "maketrans";
   "partition"; "removeprefix"; "removesuffix"; "replace"; "rfind"; "rindex"; "rjust";
   "rpartition"; "rsplit"; "rstrip"; "split"; "splitlines"; "startswith"; "strip";
   "swapcase"; "title"; "translate"; "upper"; "zfill";
   (* int, bool, float *)
   "as_integer_ratio"; "bit_count"; "bit_length"; "conjugate"; "denominator";
   "from_bytes"; "imag"; "is_integer"; "numerator"; "real"; "to_bytes"; "fromhex"; "hex";
   (* list *)
   "append"; "clear"; "extend"; "insert"; "pop"; "remove"; "reverse"; "sort"].

(** A name that is an attribute of a value of the program only as a model
    field: no leading underscore (dunders, private names), no [model_]
    prefix (pydantic's API), not in [builtin_attrs]. On such names
    [py_hasattr], [py_getattr] and [py_setattr] are Python's. *)
Definition plain_name (name : string) : bool :=
  negb (String.prefix "_" name) && negb (String.prefix "model_" name)
  && negb (existsb (String.eqb name) builtin_attrs).

(** Dict keys: Python hashes [True], [1] and [1.0] alike and compares
    them equal; lists, dicts and (non-frozen) pydantic models are
    unhashable. *)
Inductive PyKey := KNum (q : Q) | KStr (s : string) | KNone.

Definition py_key (v : pyval) : PyErr + PyKey :=
  match v with
  | PNone => inr KNone
  | PBool b => inr (KNum (inject_Z (Z.b2z b)))
  | PInt z => inr (KNum (inject_Z z))
  | PFloat q => inr (KNum q)
  | PStr s => inr (KStr s)
  | _ => inl (OtherError ("unhashable type: '" ++ type_name v ++ "'"))
  end.

Definition key_eqb (a b : PyKey) : bool :=
  match a, b with
  | KNum x, KNum y => Qeq_bool x y
  | KStr x, KStr y => String.eqb x y
  | KNone, KNone => true
  | _, _ => false
  end.

(** [d[k] = v] on a dict with arbitrary hashable keys: an equal key keeps
    its place and first key object, a new key is appended. *)
Fixpoint pydict_put {V : Type} (k : pyval) (kk : PyKey) (v : V) (d : list (pyval * V))
    : list (pyval * V) :=
  match d with
  | [] => [(k, v)]
  | (k', v') :: d' =>
      match py_key k' with
      | inr kk' => if key_eqb kk kk' then (k', v) :: d' else (k', v') :: pydict_put k kk v d'
      | inl _ => (k', v') :: pydict_put k kk v d'
      end
  end.

Definition pydict_set {V : Type} (k : pyval) (v : V) (d : list (pyval * V))
    : PyErr + list (pyval * V) :=
  match py_key k with
  | inl e => inl e
  | inr kk => inr (pydict_put k kk v d)
  end.

Fixpoint pydict_get {V : Type} (kk : PyKey) (d : list (pyval * V)) : option V :=
  match d with
  | [] => None
  | (k', v') :: d' =>
      match py_key k' with
      | inr kk' => if key_eqb kk kk' then Some v' else pydict_get kk d'
      | inl _ => pydict_get kk d'
      end
  end.

End PyModel.

(** *** [models.py]: validated v2 models and their runtime objects *)
Module Models.
Import PyModel.

Record CameraParams := mkCamera { angle : string; shot_type : string }.
Record LightingParams := mkLighting { l_style : string; direction : string; intensity : string }.
Record CompositionParams := mkComposition {
  subject_position : string; background : string; depth_of_field : string }.
Record StyleParams := mkStyle {
  color_palette : list string; material : option string; mood : string; aesthetic : string }.

Record SceneParameters := mkSceneParameters {
  sp_scene_number : Z;
  sp_duration : Q;
  scene_description : string;
  camera : CameraParams;
  lighting : LightingParams;
  composition : CompositionParams;
  style : StyleParams;
  sp_transition : string
}.

Record EnhancedStoryboard := mkEnhancedStoryboard {
  brand_name : string;
  product_name : string;
  total_duration : Z;
  aspect_ratio : string;
  scenes : list SceneParameters;
  global_material : option string;
  global_color_palette : option (list string)
}.

Definition opt_str (o : option string) : pyval :=
  match o with Some s => PStr s | None => PNone end.

Definition str_list (l : list string) : pyval := PList (map PStr l).

(** The model instance pydantic builds for a validated [SceneParameters]. *)
Definition scene_to_py (p : SceneParameters) : pyval :=
  PObj "SceneParameters" [
    ("scene_number", PInt (sp_scene_number p));
    ("duration", PFloat (sp_duration p));
    ("scene_description", PStr (scene_description p));
    ("camera", PObj "CameraParams" [
       ("angle", PStr (angle (camera p))); ("shot_type", PStr (shot_type (camera p)))]);
    ("lighting", PObj "LightingParams" [
       ("style", PStr (l_style (lighting p))); ("direction", PStr (direction (lighting p)));
       ("intensity", PStr (intensity (lighting p)))]);
    ("composition", PObj "CompositionParams" [
       ("subject_position", PStr (subject_position (composition p)));
       ("background", PStr (background (composition p)));
       ("depth_of_field", PStr (depth_of_field (composition p)))]);
    ("style", PObj "StyleParams" [
       ("color_palette", str_list (color_palette (style p)));
       ("material", opt_str (material (style p)));
       ("mood", PStr (mood (style p))); ("aesthetic", PStr (aesthetic (style p)))]);
    ("transition", PStr (sp_transition p))].

(** The runtime [EnhancedStoryboard] object: its scenes may hold any
    values once modified, since assignment is not validated. *)
Record StoryboardObj := mkStoryboardObj {
  o_brand_name : string;
  o_product_name : string;
  o_total_duration : Z;
  o_aspect_ratio : string;
  o_scenes : list pyval;
  o_global_material : pyval;
  o_global_color_palette : pyval
}.

Definition storyboard_to_py (sb : EnhancedStoryboard) : StoryboardObj :=
  mkStoryboardObj (brand_name sb) (product_name sb) (total_duration sb) (aspect_ratio sb)
    (map scene_to_py (scenes sb)) (opt_str (global_material sb))
    (match global_color_palette sb with Some l => str_list l | None => PNone end).

End Models.

(** *** [parameter_modification.py] *)
Module ParameterModification.
Import PyModel Models.

Record ParameterModificationReq := mkModification {
  parameter_path : string;
  new_value : pyval;
  apply_to_scenes : list Z
}.

Record ModificationResult := mkResult {
  success : bool;
  modified_scenes : list pyval;
  frames_to_regenerate : list pyval;
  preserved_parameters : list (pyval * list (string * pyval));
  error : option string
}.

Definition failure (msg : string) : ModificationResult := mkResult false [] [] [] (Some msg).

Definition path_msg (path part : string) : string :=
  "Path '" ++ path ++ "' not found: '" ++ part ++ "' doesn't exist".

(** One step of the navigation loop of [_set_nested_value]. *)
Definition get_step (path part : string) (cur : pyval) : PyErr + pyval :=
  match cur with
  | PDict kvs =>
      match assoc_get part kvs with Some v => inr v | None => inl (KeyError part) end
  | _ =>
      if py_hasattr cur part then py_getattr cur part
      else inl (KeyError (path_msg path part))
  end.

(** The final assignment of [_set_nested_value]. *)
Definition set_final (path final_key : string) (cur value : pyval) : PyErr + pyval :=
  match cur with
  | PDict kvs => inr (PDict (assoc_put final_key value kvs))
  | _ =>
      if py_hasattr cur final_key then py_setattr cur final_key value
      else inl (KeyError (path_msg path final_key))
  end.

(** The parent keeps the (mutated) child it was navigated through; the
    dict reached through [__dict__] is the instance dict itself. *)
Definition put_back (part : string) (cur child : pyval) : pyval :=
  match cur with
  | PDict kvs => PDict (assoc_put part child kvs)
  | PObj c fs =>
      if String.eqb part "__dict__" then
        match child with PDict kvs => PObj c kvs | _ => cur end
      else PObj c (assoc_put part child fs)
  | _ => cur
  end.

(** Navigate [parts[:-1]], then set [parts[-1]]; the object is mutated in
    place, which on a tree of objects is the rebuilt value. *)
Fixpoint set_in (path : string) (cur : pyval) (parts : list string) (value : pyval)
    : PyErr + pyval :=
  match parts with
  | [] => inl (OtherError "list index out of range")
  | [final_key] => set_final path final_key cur value
  | part :: rest =>
      match get_step path part cur with
      | inl e => inl e
      | inr child =>
          match set_in path child rest value with
          | inl e => inl e
          | inr child' => inr (put_back part cur child')
          end
      end
  end.

Definition _set_nested_value (obj : pyval) (path : string) (value : pyval) : PyErr + pyval :=
  set_in path obj (split_dot path) value.

Definition param_paths : list (string * list string) :=
  [("camera.angle", ["camera"; "angle"]);
   ("camera.shot_type", ["camera"; "shot_type"]);
   ("lighting.style", ["lighting"; "style"]);
   ("lighting.direction", ["lighting"; "direction"]);
   ("lighting.intensity", ["lighting"; "intensity"]);
   ("composition.subject_position", ["composition"; "subject_position"]);
   ("composition.background", ["composition"; "background"]);
   ("composition.depth_of_field", ["composition"; "depth_of_field"]);
   ("style.color_palette", ["style"; "color_palette"]);
   ("style.material", ["style"; "material"]);
   ("style.mood", ["style"; "mood"]);
   ("style.aesthetic", ["style"; "aesthetic"]);
   ("scene_description", ["scene_description"]);
   ("duration", ["duration"]);
   ("transition", ["transition"])].

(** The list literal [param_paths] is evaluated first (each attribute
    read may raise), then filtered into the dict. *)
Fixpoint eval_paths (scene : pyval) (ps : list (string * list string))
    : PyErr + list (string * pyval) :=
  match ps with
  | [] => inr []
  | (path, names) :: ps' =>
      match py_getattr_path scene names with
      | inl e => inl e
      | inr v =>
          match eval_paths scene ps' with
          | inl e => inl e
          | inr rest => inr ((path, v) :: rest)
          end
      end
  end.

Definition _extract_preserved_parameters (scene : pyval) (modified_path : string)
    : PyErr + list (string * pyval) :=
  match eval_paths scene param_paths with
  | inl e => inl e
  | inr pvs =>
      inr (fold_left (fun preserved '(path, value) =>
                        if negb (String.eqb path modified_path)
                        then assoc_put path value preserved else preserved) pvs [])
  end.

(** [target_scenes]: [apply_to_scenes] when non-empty, else the scene
    numbers of all scenes; [scene.scene_number in target_scenes] then
    holds for every scene (Python's [in] tests identity first). *)
Inductive Targets := AllScenes | Numbers (l : list Z).

(** [num in target_scenes] for a list of ints. *)
Definition in_targets (t : Targets) (num : pyval) : bool :=
  match t with
  | AllScenes => true
  | Numbers l =>
      match num with
      | PInt n => existsb (Z.eqb n) l
      | PBool b => existsb (Z.eqb (Z.b2z b)) l
      | PFloat q => existsb (fun z => Qeq_bool q (inject_Z z)) l
      | _ => false
      end
  end.

Record LoopState := mkLoopState {
  done_rev : list pyval;
  mods : list pyval;
  regen : list pyval;
  preserved : list (pyval * list (string * pyval))
}.

Definition init_state : LoopState := mkLoopState [] [] [] [].

(** [for scene in modified_storyboard.scenes: if scene.scene_number in
    target_scenes: ...]: snapshot, modify with [step], record. Returns the
    exception raised (if any), the state reached and the scenes not yet
    visited. *)
Fixpoint mod_loop (step : pyval -> PyErr + pyval) (extract_path : string) (t : Targets)
    (scs : list pyval) (st : LoopState) : option PyErr * LoopState * list pyval :=
  match scs with
  | [] => (None, st, [])
  | scene :: rest =>
      match py_getattr scene "scene_number" with
      | inl e => (Some e, st, scs)
      | inr num =>
          if in_targets t num then
            match _extract_preserved_parameters scene extract_path with
            | inl e => (Some e, st, scs)
            | inr snap =>
                match pydict_set num snap (preserved st) with
                | inl e => (Some e, st, scs)
                | inr pres =>
                    match step scene with
                    | inl e => (Some e, st, scs)
                    | inr scene' =>
                        match py_getattr scene' "scene_number" with
                        | inl e => (Some e, mkLoopState (scene' :: done_rev st) (mods st)
                                              (regen st) pres, rest)
                        | inr num' =>
                            mod_loop step extract_path t rest
                              (mkLoopState (scene' :: done_rev st) (mods st ++ [num'])
                                 (regen st ++ [num']) pres)
                        end
                    end
                end
            end
          else mod_loop step extract_path t rest
                 (mkLoopState (scene :: done_rev st) (mods st) (regen st) (preserved st))
      end
  end.

(** [scene.style.<attr> = value] *)
Definition style_step (attr : string) (value : pyval) (scene : pyval) : PyErr + pyval :=
  match py_getattr scene "style" with
  | inl e => inl e
  | inr st =>
      match py_setattr st attr value with
      | inl e => inl e
      | inr st' => inr (put_back "style" scene st')
      end
  end.

Definition with_scenes (sb : StoryboardObj) (scs : list pyval) : StoryboardObj :=
  mkStoryboardObj (o_brand_name sb) (o_product_name sb) (o_total_duration sb)
    (o_aspect_ratio sb) scs (o_global_material sb) (o_global_color_palette sb).

Definition with_global_material (sb : StoryboardObj) (v : pyval) : StoryboardObj :=
  mkStoryboardObj (o_brand_name sb) (o_product_name sb) (o_total_duration sb)
    (o_aspect_ratio sb) (o_scenes sb) v (o_global_color_palette sb).

Definition with_global_color_palette (sb : StoryboardObj) (v : pyval) : StoryboardObj :=
  mkStoryboardObj (o_brand_name sb) (o_product_name sb) (o_total_duration sb)
    (o_aspect_ratio sb) (o_scenes sb) (o_global_material sb) v.

(** The end of the [try]: the result record, or the [except KeyError] and
    [except Exception] handlers. *)
Definition finish (sb : StoryboardObj) (r : option PyErr * LoopState * list pyval)
    : StoryboardObj * ModificationResult :=
  let '(err, st, rest) := r in
  let sb' := with_scenes sb (rev (done_rev st) ++ rest) in
  match err with
  | None => (sb', mkResult true (mods st) (regen st) (preserved st) None)
  | Some (KeyError arg) => (sb', failure (py_repr_str arg))
  | Some (OtherError msg) => (sb', failure ("Failed to apply modification: " ++ msg))
  end.

(** The body of [apply_parameter_modification] on the copy [sb]. *)
Definition modify_copy (sb : StoryboardObj) (m : ParameterModificationReq)
    : StoryboardObj * ModificationResult :=
  let t := match apply_to_scenes m with [] => AllScenes | l => Numbers l end in
  let path := parameter_path m in
  let value := new_value m in
  if String.prefix "global_" path then
    if String.eqb path "global_material" then
      let sb1 := with_global_material sb value in
      finish sb1 (mod_loop (style_step "material" value) "style.material" t
                    (o_scenes sb1) init_state)
    else if String.eqb path "global_color_palette" then
      let sb1 := with_global_color_palette sb value in
      finish sb1 (mod_loop (style_step "color_palette" value) "style.color_palette" t
                    (o_scenes sb1) init_state)
    else (sb, failure ("Unknown global parameter: " ++ path))
  else
    finish sb (mod_loop (fun scene => _set_nested_value scene path value) path t
                 (o_scenes sb) init_state).

(** The object store: storyboard objects by identity. *)
Definition Store := list StoryboardObj.

Fixpoint store_write (st : Store) (i : nat) (x : StoryboardObj) : Store :=
  match st, i with
  | [], _ => []
  | _ :: st', O => x :: st'
  | y :: st', S i' => y :: store_write st' i' x
  end.

(** [apply_parameter_modification(storyboard, modification)] on the
    object [sb_id] of the store: [storyboard.model_copy(deep=True)]
    allocates a fresh object sharing nothing with the original, all
    assignments go to that copy, and the copy is returned with the
    result. *)
Definition apply_parameter_modification (store : Store) (sb_id : nat)
    (m : ParameterModificationReq) : option (Store * nat * ModificationResult) :=
  match nth_error store sb_id with
  | None => None
  | Some sb =>
      let copy_id := length store in
      let store1 := (store ++ [sb])%list in
      let '(sb', res) := modify_copy sb m in
      Some (store_write store1 copy_id sb', copy_id, res)
  end.

End ParameterModification.

(** Notions the claims about [apply_parameter_modification] are stated
    with. *)
Module ParameterModificationSpec.
Import PyModel Models ParameterModification.

(** A scene with its [style.material] replaced, every other field kept. *)
Definition set_material (p : SceneParameters) (m : option string) : SceneParameters :=
  mkSceneParameters (sp_scene_number p) (sp_duration p) (scene_description p)
    (camera p) (lighting p) (composition p)
    (mkStyle (color_palette (style p)) m (mood (style p)) (aesthetic (style p)))
    (sp_transition p).

(** Every scene parameter other than [style.material], with its value. *)
Definition other_parameters_than_material (p : SceneParameters) : list (string * pyval) :=
  [("camera.angle", PStr (angle (camera p)));
   ("camera.shot_type", PStr (shot_type (camera p)));
   ("lighting.style", PStr (l_style (lighting p)));
   ("lighting.direction", PStr (direction (lighting p)));
   ("lighting.intensity", PStr (intensity (lighting p)));
   ("composition.subject_position", PStr (subject_position (composition p)));
   ("composition.background", PStr (background (composition p)));
   ("composition.depth_of_field", PStr (depth_of_field (composition p)));
   ("style.color_palette", str_list (color_palette (style p)));
   ("style.mood", PStr (mood (style p)));
   ("style.aesthetic", PStr (aesthetic (style p)));
   ("scene_description", PStr (scene_description p));
   ("duration", PFloat (sp_duration p));
   ("transition", PStr (sp_transition p))].

(** Every segment of a dot path names an attribute of the object reached
    so far. *)
Fixpoint path_exists (v : pyval) (parts : list string) : bool :=
  match parts with
  | [] => true
  | part :: rest =>
      if py_hasattr v part then
        match py_getattr v part with
        | inr x => path_exists x rest
        | inl _ => false
        end
      else false
  end.


(** The snapshot of the last scene numbered [k], if any. *)
Fixpoint last_numbered (k : Z) (l : list SceneParameters) : option SceneParameters :=
  match l with
  | [] => None
  | p :: l' =>
      match last_numbered k l' with
      | Some q => Some q
      | None => if Z.eqb (sp_scene_number p) k then Some p else None
      end
  end.

Definition modify_scene (k : Z) (v : string) (p : SceneParameters) : SceneParameters :=
  if Z.eqb (sp_scene_number p) k then set_material p (Some v) else p.

End ParameterModificationSpec.

(** *** [fibo_translator.py] *)
Module FiboTranslator.
Import PyModel Models.

(** [s.replace(old, new)] for one-character [old] and [new]: every
    occurrence is replaced. *)
Fixpoint py_str_replace_char (old new : Ascii.ascii) (s : string) : string :=
  match s with
  | EmptyString => EmptyString
  | String c s' =>
      String (if Ascii.eqb c old then new else c) (py_str_replace_char old new s')
  end.

Definition replace_hyphen (s : string) : string :=
  py_str_replace_char "-"%char "_"%char s.

(** A dict with string keys, as built by the literals of the module. *)
Definition PyDict := list (string * pyval).

Record FIBOStructuredPromptV2 := mkFIBOStructuredPromptV2 {
  f_scene_description : string;
  f_camera : PyDict;
  f_lighting : PyDict;
  f_composition : PyDict;
  f_style : PyDict
}.

(** [cls(scene_description=..., camera=..., ...)]: pydantic accepts a
    [str] for the description and a dict for each of the four dict
    fields, and raises a validation error otherwise. *)
Definition validate_prompt (sd cam lig comp sty : pyval) : option FIBOStructuredPromptV2 :=
  match sd, cam, lig, comp, sty with
  | PStr d, PDict c, PDict l, PDict co, PDict st =>
      Some (mkFIBOStructuredPromptV2 d c l co st)
  | _, _, _, _, _ => None
  end.

Definition from_scene_parameters (params : SceneParameters) : FIBOStructuredPromptV2 :=
  mkFIBOStructuredPromptV2
    (scene_description params)
    [("angle", PStr (replace_hyphen (angle (camera params))));
     ("shot_type", PStr (shot_type (camera params)))]
    [("type", PStr (replace_hyphen (l_style (lighting params))));
     ("direction", PStr (direction (lighting params)));
     ("intensity", PStr (intensity (lighting params)))]
    [("subject_position", PStr (replace_hyphen (subject_position (composition params))));
     ("background", PStr (background (composition params)));
     ("depth_of_field", PStr (depth_of_field (composition params)))]
    [("color_palette", str_list (color_palette (style params)));
     ("material", opt_str (material (style params)));
     ("mood", PStr (mood (style params)));
     ("aesthetic", PStr (aesthetic (style params)))].

Definition to_api_payload (self : FIBOStructuredPromptV2) (aspect_ratio : string) : pyval :=
  PDict [("structured_prompt",
           PDict [("scene_description", PStr (f_scene_description self));
                  ("camera", PDict (f_camera self));
                  ("lighting", PDict (f_lighting self));
                  ("composition", PDict (f_composition self));
                  ("style", PDict (f_style self))]);
         ("num_results", PInt 1);
         ("aspect_ratio", PStr aspect_ratio);
         ("sync", PBool true)].

(** [d[k]] on a dict: [None] stands for the [KeyError]. *)
Definition py_subscript (d : pyval) (k : string) : option pyval :=
  match d with
  | PDict kvs => assoc_get k kvs
  | _ => None
  end.

(** [None] stands for any exception ([.get] on a non-dict, a missing key,
    a validation error). *)
Definition from_api_payload (payload : pyval) : option FIBOStructuredPromptV2 :=
  match payload with
  | PDict kvs =>
      let structured_prompt :=
        match assoc_get "structured_prompt" kvs with Some v => v | None => payload end in
      match py_subscript structured_prompt "scene_description",
            py_subscript structured_prompt "camera",
            py_subscript structured_prompt "lighting",
            py_subscript structured_prompt "composition",
            py_subscript structured_prompt "style" with
      | Some sd, Some cam, Some lig, Some comp, Some sty => validate_prompt sd cam lig comp sty
      | _, _, _, _, _ => None
      end
  | _ => None
  end.

End FiboTranslator.

(** *** [frame_generator.py] *)
Module FrameGenerator.
Import VideoCompositor.

(** What the FIBO call and the download give for one scene: an image URL
    and whether [download_image] succeeded, a [FIBOError] with its
    message, or another exception with its [str()]. *)
Inductive SceneOutcome :=
| GenOk (url : string) (download_ok : bool)
| GenFIBOError (msg : string)
| GenOtherError (msg : string).

Record FrameGenerationResult := mkFrameGenerationResult {
  fg_success : bool;
  fg_frames : list GeneratedFrame;
  fg_errors : list string
}.

(** [f"{n:02d}"] *)
Definition pad2 (n : Z) : string :=
  if (0 <=? n)%Z && (n <? 10)%Z then "0" ++ Retry.str_of_Z n else Retry.str_of_Z n.

Definition frame_path (output_dir : string) (n : Z) : string :=
  output_dir ++ "/scene_" ++ pad2 n ++ "_frame_00.png".

Definition generate_frames_for_scene (output_dir : string) (scene : Scene) (o : SceneOutcome)
    : FrameGenerationResult :=
  let n := scene_number scene in
  let errors :=
    match o with
    | GenOk _ true => []
    | GenOk _ false => ["Failed to download frame for scene " ++ Retry.str_of_Z n]
    | GenFIBOError msg => ["Scene " ++ Retry.str_of_Z n ++ ": " ++ msg]
    | GenOtherError msg => ["Scene " ++ Retry.str_of_Z n ++ ": Unexpected error - " ++ msg]
    end in
  let frames :=
    match o with
    | GenOk url true => [mkFrame n 0 url (frame_path output_dir n)]
    | _ => []
    end in
  mkFrameGenerationResult (Nat.eqb (length errors) 0) frames errors.

(** The sort key [(f.scene_number, f.frame_index)], compared
    lexicographically. *)
Definition frame_key_ltb (x y : GeneratedFrame) : bool :=
  (frame_scene_number x <? frame_scene_number y)%Z ||
  ((frame_scene_number x =? frame_scene_number y)%Z && (frame_index x <? frame_index y)%Z).

(** [list.sort] is stable: the insertion sort that places each frame
    after every frame whose key is not greater. *)
Fixpoint insert_frame (x : GeneratedFrame) (l : list GeneratedFrame) : list GeneratedFrame :=
  match l with
  | [] => [x]
  | y :: l' => if frame_key_ltb x y then x :: y :: l' else y :: insert_frame x l'
  end.

Definition sort_frames (l : list GeneratedFrame) : list GeneratedFrame :=
  fold_left (fun acc x => insert_frame x acc) l [].

(** The sequential loop over the scenes; [gen i scene] is the outcome of
    the [i]-th call (the client may answer differently from call to call).
    The first component logs the scenes [generate_image] is called for. *)
Fixpoint scenes_loop (gen : nat -> Scene -> SceneOutcome) (output_dir : string) (i : nat)
    (scenes : list Scene) (log : list Z) (all_frames : list GeneratedFrame)
    (all_errors : list string) : list Z * list GeneratedFrame * list string :=
  match scenes with
  | [] => (log, all_frames, all_errors)
  | scene :: rest =>
      let result := generate_frames_for_scene output_dir scene (gen i scene) in
      scenes_loop gen output_dir (S i) rest (log ++ [scene_number scene])%list
        (all_frames ++ fg_frames result)%list (all_errors ++ fg_errors result)%list
  end.

Definition generate_all_frames (gen : nat -> Scene -> SceneOutcome) (output_dir : string)
    (scenes : list Scene) : list Z * FrameGenerationResult :=
  let '(log, all_frames, all_errors) := scenes_loop gen output_dir 0 scenes [] [] [] in
  (log, mkFrameGenerationResult (Nat.eqb (length all_errors) 0)
          (sort_frames all_frames) all_errors).

End FrameGenerator.

(** Notions the claim about [generate_all_frames] is stated with. *)
Module FrameGeneratorSpec.
Import VideoCompositor FrameGenerator.

(** The per-scene results, in scene order. *)
Fixpoint per_scene (gen : nat -> Scene -> SceneOutcome) (output_dir : string) (i : nat)
    (scenes : list Scene) : list FrameGenerationResult :=
  match scenes with
  | [] => []
  | scene :: rest =>
      generate_frames_for_scene output_dir scene (gen i scene) :: per_scene gen output_dir (S i) rest
  end.

Definition outcome_ok (o : SceneOutcome) : bool :=
  match o with GenOk _ true => true | _ => false end.

(** [(a.scene_number, a.frame_index) <= (b.scene_number, b.frame_index)] *)
Definition frame_le (a b : GeneratedFrame) : Prop := frame_key_ltb b a = false.

End FrameGeneratorSpec.

(** *** [main.py]: the job status writes *)
Module JobPipeline.
Import FrameGenerator.

Inductive Stage := Queued | StoryboardStage | FrameGeneration | Compositing | Complete | ErrorStage.

Record JobStatus := mkJobStatus {
  js_stage : Stage;
  js_progress : Z;
  js_message : string;
  js_error : option string
}.

Record JobResult := mkJobResult {
  jr_success : bool;
  jr_video_url : option string;
  jr_duration : option Q;
  jr_error : option string
}.

(** [CompositeResult] of [video_compositor.py]. *)
Record CompositeResult := mkCompositeResult {
  cr_success : bool;
  cr_video_url : string;
  cr_duration : Q;
  cr_error : option string
}.

(** The result of [EnhancedFrameGenerator.generate_all_frames], as far as
    the v2 pipeline reads it (the class is imported from a module that is
    not part of the sources). *)
Record EnhancedFrameResult := mkEnhancedFrameResult {
  ef_success : bool;
  ef_frame_count : nat;
  ef_errors : list string
}.

(** What an awaited call does: return a value or raise an exception
    (with its [str()]). *)
Inductive StepOutcome (A : Type) := Returned (a : A) | Raised (msg : string).
Arguments Returned {A} a.
Arguments Raised {A} msg.

(** The effects of the code on a job: [jobs[job_id] = ...],
    [job_results[job_id] = ...], and the calls of the frame generator and
    of the compositor. *)
Inductive Effect :=
| SetStatus (s : JobStatus)
| SetResult (r : JobResult)
| CallFrames
| CallComposite.

(** [sep.join(l)] *)
Fixpoint py_join (sep : string) (l : list string) : string :=
  match l with
  | [] => ""
  | [x] => x
  | x :: xs => x ++ sep ++ py_join sep xs
  end.

Definition status (stage : Stage) (progress : Z) (message : string) : Effect :=
  SetStatus (mkJobStatus stage progress message None).

(** [except Exception as e]: the error status and result. *)
Definition pipeline_failed (msg : string) : list Effect :=
  [SetStatus (mkJobStatus ErrorStage 0 "Pipeline failed" (Some msg));
   SetResult (mkJobResult false None None (Some msg))].

(** The tail of both pipelines from the compositor call on. *)
Definition composite_effects (comp : StepOutcome CompositeResult) : list Effect :=
  CallComposite ::
  match comp with
  | Raised e => pipeline_failed e
  | Returned c =>
      if negb (cr_success c) then
        [SetStatus (mkJobStatus ErrorStage 0 "Video compositing failed" (cr_error c));
         SetResult (mkJobResult false None None (cr_error c))]
      else
        [status Complete 100 "Video generation complete";
         SetResult (mkJobResult true (Some (cr_video_url c)) (Some (cr_duration c)) None)]
  end.

Definition frame_error_msg (errors : list string) : string :=
  match errors with
  | [] => "Frame generation failed"
  | _ => py_join "; " errors
  end.

Definition frames_failed (error_msg : string) : list Effect :=
  [SetStatus (mkJobStatus ErrorStage 0 "Frame generation failed" (Some error_msg));
   SetResult (mkJobResult false None None (Some error_msg))].

(** [run_video_generation_pipeline] *)
Definition run_video_generation_pipeline (sb : StepOutcome unit)
    (fr : StepOutcome FrameGenerationResult) (comp : StepOutcome CompositeResult)
    : list Effect :=
  status StoryboardStage 10 "Generating storyboard..." ::
  match sb with
  | Raised e => pipeline_failed e
  | Returned _ =>
      status StoryboardStage 25 "Storyboard generated" ::
      status FrameGeneration 30 "Generating frames..." ::
      CallFrames ::
      match fr with
      | Raised e => pipeline_failed e
      | Returned r =>
          if negb (fg_success r) then frames_failed (frame_error_msg (fg_errors r))
          else
            status FrameGeneration 70
              ("Generated " ++ Retry.str_of_Z (Z.of_nat (length (fg_frames r))) ++ " frames") ::
            status Compositing 75 "Compositing video..." ::
            composite_effects comp
      end
  end.

(** [run_video_generation_pipeline_v2]; [conv] is the building of the v1
    storyboard for the compositor, which may raise. *)
Definition run_video_generation_pipeline_v2 (sb : StepOutcome unit)
    (fr : StepOutcome EnhancedFrameResult) (conv : StepOutcome unit)
    (comp : StepOutcome CompositeResult) : list Effect :=
  status StoryboardStage 10 "Generating enhanced storyboard..." ::
  match sb with
  | Raised e => pipeline_failed e
  | Returned _ =>
      status StoryboardStage 25 "Enhanced storyboard generated" ::
      status FrameGeneration 30 "Generating frames with structured prompts..." ::
      CallFrames ::
      match fr with
      | Raised e => pipeline_failed e
      | Returned r =>
          if negb (ef_success r) then frames_failed (frame_error_msg (ef_errors r))
          else
            status FrameGeneration 70
              ("Generated " ++ Retry.str_of_Z (Z.of_nat (ef_frame_count r)) ++ " frames") ::
            status Compositing 75 "Compositing video..." ::
            match conv with
            | Raised e => pipeline_failed e
            | Returned _ => composite_effects comp
            end
      end
  end.

(** [generate_video_endpoint] and [generate_video_v2_endpoint] write the
    queued status before scheduling the pipeline. *)
Definition queued_status : Effect := status Queued 0 "Job queued".

(** [modify_parameter_endpoint] once [apply_parameter_modification] has
    returned [result]: the status written and whether the regeneration
    task is scheduled ([None]: an [HTTPException] is raised). *)
Definition modify_parameter_endpoint (has_storyboard : bool)
    (result : ParameterModification.ModificationResult) : option (list Effect * bool) :=
  if negb has_storyboard then None
  else if negb (ParameterModification.success result) then None
  else
    match ParameterModification.frames_to_regenerate result with
    | [] => Some ([], false)
    | regen =>
        Some ([status FrameGeneration 50
                 ("Regenerating " ++ Retry.str_of_Z (Z.of_nat (length regen)) ++ " frames...")],
              true)
    end.

(** [regenerate_frames_for_modification] *)
Definition regenerate_frames_for_modification (regen : StepOutcome unit) (n : nat)
    : list Effect :=
  match regen with
  | Returned _ =>
      [status Complete 100 ("Regenerated " ++ Retry.str_of_Z (Z.of_nat n) ++ " frames")]
  | Raised e =>
      [SetStatus (mkJobStatus ErrorStage 0 "Frame regeneration failed" (Some e))]
  end.

End JobPipeline.

(** The job lifecycle the claims about [main.py] speak of. *)
Module JobPipelineSpec.
Import JobPipeline.

Definition statuses (l : list Effect) : list JobStatus :=
  flat_map (fun e => match e with SetStatus s => [s] | _ => [] end) l.

Definition stage_rank (s : Stage) : nat :=
  match s with
  | Queued => 0 | StoryboardStage => 1 | FrameGeneration => 2 | Compositing => 3
  | Complete => 4 | ErrorStage => 5
  end.

Definition is_terminal (s : Stage) : bool :=
  match s with Complete | ErrorStage => true | _ => false end.

(** One status record followed by the next: [error] may follow any stage;
    otherwise the stage does not move back (and nothing follows
    [error]), and the progress does not decrease before a terminal stage. *)
Definition forward_step (a b : JobStatus) : bool :=
  match js_stage b with
  | ErrorStage => true
  | _ =>
      match js_stage a with
      | ErrorStage => false
      | _ => Nat.leb (stage_rank (js_stage a)) (stage_rank (js_stage b)) &&
             (is_terminal (js_stage a) || Z.leb (js_progress a) (js_progress b))
      end
  end.

Fixpoint forward_only (l : list JobStatus) : bool :=
  match l with
  | a :: ((b :: _) as l') => forward_step a b && forward_only l'
  | _ => true
  end.

Definition last_stage (l : list JobStatus) : option Stage :=
  match rev l with [] => None | s :: _ => Some (js_stage s) end.

End JobPipelineSpec.

(** *** [video_compositor.py]: [composite_video] *)
Module CompositeVideo.
Import VideoCompositor JobPipeline.




Section Compositing.
(** [a + b] on floats: the value of the double the sum rounds to (a
    finite double is a rational; a sum of durations overflowing to
    infinity is left out). *)
Variable float_add : Q -> Q -> Q.




End Compositing.

End CompositeVideo.

(** Notions the properties of the retry wrapper are stated with. *)
Module RetrySpec.
Import Retry.

Fixpoint sleeps (evs : list Event) : list Q :=
  match evs with
  | [] => []
  | Attempt _ :: evs' => sleeps evs'
  | Sleep d :: evs' => d :: sleeps evs'
  end.

(** The time slept in all. *)
Definition sleep_total (evs : list Event) : Q := fold_right Qplus 0 (sleeps evs).

End RetrySpec.

(** *** [fibo_client.py]: the client *)
Module FiboClient.
Import PyModel Retry.

(** [FIBOTimeoutError(message)] and [FIBOAPIError(message, status_code)]:
    [retryable=status_code != 401]. *)
Definition fibo_timeout_error (message : string) : Exn :=
  FIBOError message "FIBO_TIMEOUT" true.

Definition fibo_api_error (message : string) (status_code : option Z) : Exn :=
  FIBOError message "FIBO_API_ERROR"
    (match status_code with Some c => negb (Z.eqb c 401) | None => true end).

(** The error monad of the request code: a value or the exception raised. *)
Definition bind {A B : Type} (m : Exn + A) (f : A -> Exn + B) : Exn + B :=
  match m with inl e => inl e | inr a => f a end.

Notation "'let*' x ':=' c1 'in' c2" := (bind c1 (fun x => c2))
  (at level 61, x ident, c1 at next level, right associativity).

(** Python's truth value of a JSON value. *)
Definition py_truthy (v : pyval) : bool :=
  match v with
  | PNone => false
  | PBool b => b
  | PInt z => negb (Z.eqb z 0)
  | PFloat q => negb (Qeq_bool q 0)
  | PStr s => negb (String.eqb s "")
  | PList xs => match xs with [] => false | _ => true end
  | PDict kvs => match kvs with [] => false | _ => true end
  | PObj _ _ => true
  end.

(** [len(v)]; a [TypeError] for values without a length. *)
Definition py_len (v : pyval) : Exn + nat :=
  match v with
  | PStr s => inr (String.length s)
  | PList xs => inr (length xs)
  | PDict kvs => inr (length kvs)
  | _ => inl (Retry.OtherError ("object of type '" ++ type_name v ++ "' has no len()"))
  end.

(** [v and len(v) > 0] *)
Definition nonempty_seq (v : pyval) : Exn + bool :=
  if py_truthy v then let* n := py_len v in inr (Nat.ltb 0 n) else inr false.

(** [v.get(k, default)]: a JSON object is a dict (its keys distinct);
    other values have no [get] and raise an [AttributeError]. *)
Definition py_get (v : pyval) (k : string) (default : pyval) : Exn + pyval :=
  match v with
  | PDict kvs => inr (match assoc_get k kvs with Some x => x | None => default end)
  | _ => inl (Retry.OtherError ("'" ++ type_name v ++ "' object has no attribute 'get'"))
  end.

(** [v[0]]: a dict of JSON has string keys, so [0] is a [KeyError]. *)
Definition py_index0 (v : pyval) : Exn + pyval :=
  match v with
  | PList (x :: _) => inr x
  | PList [] => inl (Retry.OtherError "list index out of range")
  | PStr (String c _) => inr (PStr (String c EmptyString))
  | PStr EmptyString => inl (Retry.OtherError "string index out of range")
  | PDict _ => inl (Retry.OtherError "0")
  | _ => inl (Retry.OtherError ("'" ++ type_name v ++ "' object is not subscriptable"))
  end.

Definition ascii_lower (c : Ascii.ascii) : Ascii.ascii :=
  let n := Ascii.nat_of_ascii c in
  if Nat.leb 65 n && Nat.leb n 90 then Ascii.ascii_of_nat (n + 32) else c.

Fixpoint str_lower (s : string) : string :=
  match s with
  | EmptyString => EmptyString
  | String c s' => String (ascii_lower c) (str_lower s')
  end.

(** [v.lower()] (letters outside ASCII are not modelled). *)
Definition py_lower (v : pyval) : Exn + string :=
  match v with
  | PStr s => inr (str_lower s)
  | _ => inl (Retry.OtherError ("'" ++ type_name v ++ "' object has no attribute 'lower'"))
  end.

(** A [str] field of a pydantic model: other values fail validation. *)
Definition validate_str (v : pyval) : Exn + string :=
  match v with
  | PStr s => inr s
  | _ => inl (Retry.OtherError "1 validation error for FIBOGenerationResult")
  end.

(** [", ".join(v)] over a JSON value: a list of strings, the characters
    of a string or the keys of a dict; a [TypeError] otherwise. *)
Definition py_iter_strs (v : pyval) : Exn + list string :=
  match v with
  | PList xs =>
      fold_right (fun x acc =>
                    match x, acc with
                    | PStr s, inr l => inr (s :: l)
                    | PStr _, inl e => inl e
                    | _, _ => inl (Retry.OtherError "sequence item: expected str instance")
                    end) (inr []) xs
  | PStr s => inr (map (fun c => String c EmptyString) (list_ascii_of_string s))
  | PDict kvs => inr (map fst kvs)
  | _ => inl (Retry.OtherError "can only join an iterable")
  end.

(** What one HTTP request gives: a response with its status code, text
    and body ([None] when [response.json()] fails), an
    [httpx.TimeoutException], or an [httpx.RequestError] with its
    [str()]. *)
Inductive HttpOutcome :=
| HResp (status_code : Z) (text : string) (body : option pyval)
| HTimeout
| HRequestError (msg : string).

(** [response.json()] on a body that is not JSON. *)
Definition json_error : Exn := Retry.OtherError "Expecting value: line 1 column 1 (char 0)".

(** The observable effects of a request: the POST, and the sleeps and
    GETs of [poll_status]. *)
Inductive ClientEvent := Post | PollSleep (d : Z) | PollGet.

Definition MAX_POLL_TIME : Z := 60.
Definition POLL_INTERVAL : Z := 2.

Record FIBOGenerationResult := mkFIBOGenerationResult {
  request_id : string;
  gen_image_url : string
}.

Section Client.
(** [repr] of a JSON value, printed by some error messages; its text is
    not modelled. *)
Variable repr : pyval -> string.

(** [f"{v}"]: a string prints as itself, another JSON value as its
    [repr] ([str] and [repr] agree on them). *)
Definition py_format (v : pyval) : string :=
  match v with PStr s => s | _ => repr v end.

(** One answer of the status endpoint inside [poll_status]: [None] to
    keep polling, otherwise what [poll_status] returns or raises. *)
Definition status_response (code : Z) (text : string) (body : option pyval)
    : option (Exn + pyval) :=
  if negb (Z.eqb code 200) then
    Some (inl (fibo_api_error ("Status check failed: " ++ text) (Some code)))
  else
    match body with
    | None => Some (inl json_error)
    | Some data =>
        match (let* st := py_get data "status" (PStr "") in py_lower st) with
        | inl e => Some (inl e)
        | inr status =>
            if String.eqb status "completed" then
              Some (let* result := py_get data "result" (PList []) in
                    let* has := nonempty_seq result in
                    let no_url := inl (fibo_api_error "Completed but no image URL in response" None) in
                    if has then
                      let* r0 := py_index0 result in
                      let* urls := py_get r0 "urls" PNone in
                      let* has_u := nonempty_seq urls in
                      if has_u then py_index0 urls else no_url
                    else no_url)
            else if String.eqb status "failed" then
              Some (let* error_msg := py_get data "error" (PStr "Unknown error") in
                    inl (fibo_api_error ("Image generation failed: " ++ py_format error_msg) None))
            else None
        end
    end.

(** The [while elapsed_time < self.MAX_POLL_TIME] loop of [poll_status];
    [get k] is the outcome of the [k]-th GET. The elapsed time grows by 2
    each round from 0, so the 31 rounds of fuel [poll_status] gives are
    never exhausted before the condition fails. *)
Fixpoint poll_loop (get : nat -> HttpOutcome) (rid : pyval) (fuel : nat) (elapsed : Z)
    (k : nat) : list ClientEvent * (Exn + pyval) :=
  let timeout :=
    inl (fibo_timeout_error ("FIBO request " ++ py_format rid ++ " did not complete within "
                             ++ str_of_Z MAX_POLL_TIME ++ " seconds")) in
  match fuel with
  | O => ([], timeout)
  | S fuel' =>
      if Z.ltb elapsed MAX_POLL_TIME then
        let round := [PollSleep POLL_INTERVAL; PollGet] in
        let continue_ :=
          let '(evs, r) := poll_loop get rid fuel' (elapsed + POLL_INTERVAL) (S k) in
          ((round ++ evs)%list, r) in
        match get k with
        | HTimeout => continue_
        | HRequestError m =>
            (round, inl (FIBOError ("Network error during status check: " ++ m) "FIBO_ERROR" true))
        | HResp code text body =>
            match status_response code text body with
            | None => continue_
            | Some r => (round, r)
            end
        end
      else ([], timeout)
  end.

(** [poll_status(request_id, status_url, client)] *)
Definition poll_status (get : nat -> HttpOutcome) (rid : pyval)
    : list ClientEvent * (Exn + pyval) :=
  poll_loop get rid 31 0 0.

(** The synchronous answer: [Some] result when [data["result"][0]["urls"]]
    holds a URL, [None] to fall back to polling. *)
Definition sync_result (data : pyval) : Exn + option FIBOGenerationResult :=
  let* result := py_get data "result" PNone in
  let* has := nonempty_seq result in
  if has then
    let* r0 := py_index0 result in
    let* urls := py_get r0 "urls" PNone in
    let* has_u := nonempty_seq urls in
    if has_u then
      let* rid := py_get r0 "uuid" (PStr "sync-request") in
      let* url := py_index0 urls in
      let* rid' := validate_str rid in
      let* url' := validate_str url in
      inr (Some (mkFIBOGenerationResult rid' url'))
    else inr None
  else inr None.

(** The body of [generate_image], [generate_structured_image] and
    [generate_with_structured_prompt] ([api] is ["FIBO API"]) and of
    [generate_with_reference] ([api] is ["FIBO translation API"]): one
    call of the decorated coroutine, given the outcome of its POST and of
    the GETs of the polling. *)
Definition request_attempt (api : string) (post : HttpOutcome) (get : nat -> HttpOutcome)
    : list ClientEvent * (Exn + FIBOGenerationResult) :=
  match post with
  | HTimeout => ([Post], inl (fibo_timeout_error ("Request to " ++ api ++ " timed out")))
  | HRequestError m =>
      ([Post], inl (FIBOError ("Network error communicating with " ++ api ++ ": " ++ m)
                      "FIBO_ERROR" true))
  | HResp code text body =>
      if Z.eqb code 401 then ([Post], inl (fibo_api_error "Invalid FIBO API key" (Some 401%Z)))
      else if negb (Z.eqb code 200) && negb (Z.eqb code 202) then
        ([Post], inl (fibo_api_error (api ++ " error: " ++ text) (Some code)))
      else
        match body with
        | None => ([Post], inl json_error)
        | Some data =>
            match sync_result data with
            | inl e => ([Post], inl e)
            | inr (Some r) => ([Post], inr r)
            | inr None =>
                match (let* sid := py_get data "sid" PNone in
                       let* su := py_get data "status_url" PNone in inr (sid, su)) with
                | inl e => ([Post], inl e)
                | inr (sid, su) =>
                    if py_truthy su then
                      let rid := if py_truthy sid then sid else PStr "unknown" in
                      let '(evs, r) := poll_status get rid in
                      (Post :: evs,
                       let* url := r in
                       let* rid' := validate_str rid in
                       let* url' := validate_str url in
                       inr (mkFIBOGenerationResult rid' url'))
                    else
                      ([Post], inl (fibo_api_error ("Invalid response from " ++ api ++ ": "
                                                    ++ repr data) None))
                end
            end
        end
  end.

(** The method as decorated with [@with_retry(max_retries=3,
    base_delay=1.0, max_delay=10.0)]; [posts k] and [gets k] are the
    requests of the [k]-th call. *)
Definition decorated_request (api : string) (posts : nat -> HttpOutcome)
    (gets : nat -> nat -> HttpOutcome) : list Event * Outcome FIBOGenerationResult :=
  with_retry 3 1 10 (fun k =>
    match snd (request_attempt api (posts k) (gets k)) with
    | inl e => Raise e
    | inr r => Ok r
    end).

End Client.

(** [FIBOStructuredPrompt]: the four dicts as [from_scene_prompt]
    builds them. *)
Record FIBOStructuredPrompt := mkFIBOStructuredPrompt {
  sp_scene_description : string;
  sp_camera : list (string * pyval);
  sp_lighting : list (string * pyval);
  sp_composition : list (string * pyval);
  sp_style : list (string * pyval)
}.

Definition camera_angle_map (a : string) : option string :=
  if String.eqb a "close-up" then Some "close_up"
  else if String.eqb a "medium-shot" then Some "medium_shot"
  else if String.eqb a "wide-shot" then Some "wide_shot"
  else if String.eqb a "overhead" then Some "overhead"
  else if String.eqb a "low-angle" then Some "low_angle"
  else None.

Definition lighting_map (l : string) : option string :=
  if String.eqb l "soft" then Some "soft"
  else if String.eqb l "dramatic" then Some "dramatic"
  else if String.eqb l "natural" then Some "natural"
  else if String.eqb l "studio" then Some "studio"
  else if String.eqb l "golden-hour" then Some "golden_hour"
  else None.

Definition position_map (p : string) : option string :=
  if String.eqb p "center" then Some "center"
  else if String.eqb p "rule-of-thirds-left" then Some "rule_of_thirds_left"
  else if String.eqb p "rule-of-thirds-right" then Some "rule_of_thirds_right"
  else None.

(** [m.get(k, default)] on the maps above. *)
Definition get_or (o : option string) (default : string) : string :=
  match o with Some v => v | None => default end.

(** [FIBOStructuredPrompt.from_scene_prompt]; [color_palette or []] and
    [mood or "professional"]. *)
Definition from_scene_prompt (prompt camera_angle lighting_style subject_position : string)
    (color_palette : option (list string)) (mood : option string) : FIBOStructuredPrompt :=
  mkFIBOStructuredPrompt prompt
    [("angle", PStr (get_or (camera_angle_map camera_angle)
                       (FiboTranslator.replace_hyphen camera_angle)));
     ("shot_type", PStr (get_or (camera_angle_map camera_angle) "medium_shot"))]
    [("style", PStr (get_or (lighting_map lighting_style)
                       (FiboTranslator.replace_hyphen lighting_style)));
     ("intensity", PStr "medium")]
    [("subject_position", PStr (get_or (position_map subject_position) "center"));
     ("framing", PStr "standard")]
    [("color_palette", Models.str_list (match color_palette with Some l => l | None => [] end));
     ("mood", PStr (match mood with Some m => if String.eqb m "" then "professional" else m
                                    | None => "professional" end))].

(** [d.get(k, default)] on one of the prompt's dicts. *)
Definition dict_get (d : list (string * pyval)) (k : string) (default : pyval) : pyval :=
  match assoc_get k d with Some v => v | None => default end.

(** The [enhanced_prompt] text [generate_structured_image] sends. *)
Definition structured_prompt_text (repr : pyval -> string) (sp : FIBOStructuredPrompt)
    : Exn + string :=
  let fmt := py_format repr in
  let parts :=
    [sp_scene_description sp;
     "Camera: " ++ fmt (dict_get (sp_camera sp) "angle" (PStr "medium_shot")) ++ " shot";
     "Lighting: " ++ fmt (dict_get (sp_lighting sp) "style" (PStr "natural")) ++ " lighting";
     "Composition: subject "
       ++ fmt (dict_get (sp_composition sp) "subject_position" (PStr "center"))] in
  let mood_part := "Mood: " ++ fmt (dict_get (sp_style sp) "mood" PNone) in
  let parts :=
    if py_truthy (dict_get (sp_style sp) "mood" PNone)
    then (parts ++ [mood_part])%list
    else parts in
  let cp := dict_get (sp_style sp) "color_palette" PNone in
  if py_truthy cp then
    let* colors := py_iter_strs cp in
    let palette_part := "Color palette: " ++ JobPipeline.py_join ", " colors in
    inr (JobPipeline.py_join ". " (parts ++ [palette_part])%list)
  else inr (JobPipeline.py_join ". " parts).

End FiboClient.

(** *** [parameter_modification.py]: [_get_nested_value] *)
Module NestedValue.
Import PyModel ParameterModification.

(** The loop of [_get_nested_value]: the same step as the navigation of
    [_set_nested_value], over every part. *)
Fixpoint get_in (path : string) (cur : pyval) (parts : list string) : PyErr + pyval :=
  match parts with
  | [] => inr cur
  | part :: rest =>
      match get_step path part cur with
      | inl e => inl e
      | inr x => get_in path x rest
      end
  end.

Definition _get_nested_value (obj : pyval) (path : string) : PyErr + pyval :=
  get_in path obj (split_dot path).

End NestedValue.

(** Notions the properties of the global modifications are stated with. *)
Module GlobalModificationSpec.
Import PyModel Models.

(** A validated scene whose [style] object has the given material and
    palette values, every other field as in the scene. *)
Definition scene_with_style (p : SceneParameters) (material palette : pyval) : pyval :=
  PObj "SceneParameters" [
    ("scene_number", PInt (sp_scene_number p));
    ("duration", PFloat (sp_duration p));
    ("scene_description", PStr (scene_description p));
    ("camera", PObj "CameraParams" [
       ("angle", PStr (angle (camera p))); ("shot_type", PStr (shot_type (camera p)))]);
    ("lighting", PObj "LightingParams" [
       ("style", PStr (l_style (lighting p))); ("direction", PStr (direction (lighting p)));
       ("intensity", PStr (intensity (lighting p)))]);
    ("composition", PObj "CompositionParams" [
       ("subject_position", PStr (subject_position (composition p)));
       ("background", PStr (background (composition p)));
       ("depth_of_field", PStr (depth_of_field (composition p)))]);
    ("style", PObj "StyleParams" [
       ("color_palette", palette); ("material", material);
       ("mood", PStr (mood (style p))); ("aesthetic", PStr (aesthetic (style p)))]);
    ("transition", PStr (sp_transition p))].

(** Scene [p] is among the targets: every scene when [apply_to_scenes]
    is empty, otherwise those whose number is listed. *)
Definition targeted (l : list Z) (p : SceneParameters) : bool :=
  match l with
  | [] => true
  | _ => existsb (Z.eqb (sp_scene_number p)) l
  end.

End GlobalModificationSpec.

(** *** [main.py]: the v1 storyboard the v2 pipeline hands the compositor *)
Module V2Conversion.
Import Models.

(** The [Literal] sets of [models.py] that the conversion meets. *)
Definition fibo_prompt_camera_angles : list string :=
  ["close-up"; "medium-shot"; "wide-shot"; "overhead"; "low-angle"].
Definition fibo_prompt_lighting_styles : list string :=
  ["soft"; "dramatic"; "natural"; "studio"; "golden-hour"].
Definition fibo_prompt_positions : list string :=
  ["center"; "rule-of-thirds-left"; "rule-of-thirds-right"].
Definition scene_transitions : list string := ["fade"; "dissolve"; "cut"; "slide"].
Definition aspect_ratios : list string := ["9:16"; "1:1"; "16:9"].

Definition mem (s : string) (l : list string) : bool := existsb (String.eqb s) l.

(** [str.split()] separators: ASCII whitespace and the separators
    [\x1c]-[\x1f]. *)
Definition is_py_space (c : Ascii.ascii) : bool :=
  let n := Ascii.nat_of_ascii c in
  (Nat.leb 9 n && Nat.leb n 13) || (Nat.leb 28 n && Nat.leb n 32).

Fixpoint skip_spaces (s : string) : string :=
  match s with
  | String c s' => if is_py_space c then skip_spaces s' else s
  | EmptyString => EmptyString
  end.

Fixpoint take_word (s : string) : string :=
  match s with
  | String c s' => if is_py_space c then EmptyString else String c (take_word s')
  | EmptyString => EmptyString
  end.

(** [s.replace("-", " ").split()[0]]; [None] is the [IndexError] of a
    blank string. *)
Definition first_word (s : string) : option string :=
  match skip_spaces (FiboTranslator.py_str_replace_char "-"%char " "%char s) with
  | EmptyString => None
  | s' => Some (take_word s')
  end.

(** The [Scene(...)] built for one v2 scene, with its [FIBOPrompt];
    [None] is a validation error or the [IndexError] above. *)
Definition to_v1_scene (scene : SceneParameters) : option VideoCompositor.Scene :=
  let transition := if String.eqb (sp_transition scene) "cross-dissolve" then "dissolve"
                    else sp_transition scene in
  let camera_angle := if negb (String.eqb (angle (camera scene)) "three-quarter")
                      then angle (camera scene) else "medium-shot" in
  match first_word (l_style (lighting scene)) with
  | None => None
  | Some lighting_style =>
      if (1 <=? sp_scene_number scene)%Z && negb (Qle_bool (sp_duration scene) 0)
         && mem transition scene_transitions
         && mem camera_angle fibo_prompt_camera_angles
         && mem lighting_style fibo_prompt_lighting_styles
         && mem (subject_position (composition scene)) fibo_prompt_positions
      then Some (VideoCompositor.mkScene (sp_scene_number scene) (sp_duration scene) transition)
      else None
  end.

Fixpoint convert_scenes (l : list SceneParameters) : option (list VideoCompositor.Scene) :=
  match l with
  | [] => Some []
  | p :: l' =>
      match to_v1_scene p with
      | None => None
      | Some s => match convert_scenes l' with Some r => Some (s :: r) | None => None end
      end
  end.

(** The [v1_storyboard]: the scenes, then [Storyboard(...)] with its
    duration, aspect ratio and scene count checks. *)
Definition to_v1_storyboard (sb : EnhancedStoryboard) : option (list VideoCompositor.Scene) :=
  match convert_scenes (scenes sb) with
  | None => None
  | Some v1 =>
      if (5 <=? total_duration sb)%Z && (total_duration sb <=? 12)%Z
         && mem (aspect_ratio sb) aspect_ratios
         && Nat.leb 3 (length v1) && Nat.leb (length v1) 5
      then Some v1 else None
  end.

(** The [conv] step of [run_video_generation_pipeline_v2]; [msg] is the
    [str()] of the validation error. *)
Definition conversion_step (msg : string) (sb : EnhancedStoryboard)
    : JobPipeline.StepOutcome unit :=
  match to_v1_storyboard sb with
  | Some _ => JobPipeline.Returned tt
  | None => JobPipeline.Raised msg
  end.

End V2Conversion.

(** The [Literal] constraints of the v2 [SceneParameters]. *)
Module V2ConversionSpec.
Import Models V2Conversion.

Definition valid_scene_parameters (p : SceneParameters) : bool :=
  (1 <=? sp_scene_number p)%Z && negb (Qle_bool (sp_duration p) 0)
  && mem (angle (camera p))
       ["close-up"; "medium-shot"; "wide-shot"; "overhead"; "low-angle"; "three-quarter"]
  && mem (l_style (lighting p))
       ["soft-studio"; "dramatic"; "natural-window"; "golden-hour"; "product-spotlight"]
  && mem (subject_position (composition p)) ["center"; "rule-of-thirds-left"; "rule-of-thirds-right"]
  && mem (sp_transition p) ["fade"; "dissolve"; "cut"; "cross-dissolve"].

End V2ConversionSpec.

(** *** [main.py]: the job stores and [get_job_result] *)
Module JobStore.
Import JobPipeline.

(** [jobs[job_id]] and [job_results[job_id]] for one job. *)
Record JobView := mkJobView {
  view_status : option JobStatus;
  view_result : option JobResult
}.

Definition apply_effect (v : JobView) (e : Effect) : JobView :=
  match e with
  | SetStatus s => mkJobView (Some s) (view_result v)
  | SetResult r => mkJobView (view_status v) (Some r)
  | _ => v
  end.

Definition run_view (effects : list Effect) : JobView :=
  fold_left apply_effect effects (mkJobView None None).

(** [get_job_result(job_id)]: the result, or the [HTTPException]'s status
    code and error code. *)
Definition get_job_result (v : JobView) : (Z * string) + JobResult :=
  match view_status v with
  | None => inl (404%Z, "JOB_NOT_FOUND")
  | Some s =>
      match js_stage s with
      | Complete | ErrorStage =>
          match view_result v with
          | None => inl (500%Z, "RESULT_NOT_FOUND")
          | Some r => inr r
          end
      | _ => inl (400%Z, "JOB_NOT_COMPLETE")
      end
  end.

End JobStore.

(** *** [frame_generator.py]: frame counts *)

Module FrameCount.
Import VideoCompositor.

(** [int(x)] on a finite float: truncation toward zero of its value. *)
Definition py_int_of_float (x : Q) : Z := Z.quot (Qnum x) (Zpos (Qden x)).

Section FrameCounts.
(** [duration * fps] multiplies a float by an int: Python converts [fps]
    to a float and rounds the product to a double. [float_mul duration fps]
    is the value of that double (a rational, as every finite double is),
    or [None] when [fps] does not fit in a float or the product is
    infinite: the conversion, like [int()] of an infinite float, raises
    [OverflowError]. *)
Variable float_mul : Q -> Z -> option Q.

(** [calculate_frame_count(duration, fps)]: [max(1, int(duration * fps))],
    [None] for the [OverflowError]. *)
Definition calculate_frame_count (duration : Q) (fps : Z) : option Z :=
  match float_mul duration fps with
  | Some x => Some (Z.max 1 (py_int_of_float x))
  | None => None
  end.

(** The loop of [get_frame_count_for_storyboard]: [total += ...] for each
    scene; an exception leaves the loop. *)
Fixpoint frame_count_loop (scenes : list Scene) (fps : Z) (total : Z) : option Z :=
  match scenes with
  | [] => Some total
  | scene :: rest =>
      match calculate_frame_count (duration scene) fps with
      | Some n => frame_count_loop rest fps (total + n)
      | None => None
      end
  end.

(** [FrameGeneratorService.get_frame_count_for_storyboard] over
    [storyboard.scenes]. *)
Definition get_frame_count_for_storyboard (scenes : list Scene) (fps : Z) : option Z :=
  frame_count_loop scenes fps 0.

End FrameCounts.

End FrameCount.

(** Notions the properties of [poll_status] are stated with. *)
Module FiboClientSpec.
Import PyModel Retry FiboClient.

(** What one round of [poll_status] decides from the answer of its GET:
    [None] to go on polling, otherwise the value returned or the
    exception raised. *)
Definition round_result (repr : pyval -> string) (o : HttpOutcome) : option (Exn + pyval) :=
  match o with
  | HTimeout => None
  | HRequestError m => Some (inl (FIBOError ("Network error during status check: " ++ m) "FIBO_ERROR" true))
  | HResp code text body => status_response repr code text body
  end.

(** The first of [n] rounds from [k] that decides, with its decision. *)
Fixpoint first_decision {A : Type} (f : nat -> option A) (k n : nat) : option (nat * A) :=
  match n with
  | O => None
  | S n' => match f k with Some a => Some (k, a) | None => first_decision f (S k) n' end
  end.

Definition poll_round : list ClientEvent := [PollSleep POLL_INTERVAL; PollGet].

(** The exceptions a request method may raise, as [with_retry] sees them:
    a FIBO error flagged retryable, one of the two [FIBOAPIError]s built
    with status code 401, or an exception the wrapper does not catch. *)
Definition request_error_class (e : Exn) : Prop :=
  (exists m c, e = FIBOError m c true) \/
  e = FIBOError "Invalid FIBO API key" "FIBO_API_ERROR" false \/
  (exists t, e = FIBOError ("Status check failed: " ++ t) "FIBO_API_ERROR" false) \/
  (exists m, e = OtherError m).

(** A computation whose exceptions all fall in [request_error_class]. *)
Definition cls_ok {A : Type} (m : Exn + A) : Prop := forall e, m = inl e -> request_error_class e.

(** An entry of a prompt dict whose value is a string without a hyphen. *)
Definition no_hyphen_str (kv : string * pyval) : Prop :=
  exists s, snd kv = PStr s /\ has_char "-"%char s = false.

End FiboClientSpec.

(** Notions the properties of the job stores are stated with. *)
Module JobStoreSpec.
Import JobPipeline.

(** The results written, in order. *)
Definition results (l : list Effect) : list JobResult :=
  flat_map (fun e => match e with SetResult r => [r] | _ => [] end) l.

End JobStoreSpec.

(** ** Part 2: proofs *)

(** *** Transition timing of [build_ffmpeg_command] *)
Module VideoCompositorProofs.
Import VideoCompositor.

Lemma py_max_Qmax (a b : Q) : py_max a b = Qmax a b.
Proof.
  unfold py_max, Qmax, GenericMinMax.gmax.
  destruct (Qlt_le_dec a b) as [Hlt | Hle].
  - pose proof (proj1 (Qlt_alt a b) Hlt) as E. now rewrite E.
  - destruct (Qcompare a b) eqn:E; try reflexivity.
    exfalso. apply (Qlt_not_le a b); [apply (proj2 (Qlt_alt a b)); exact E | exact Hle].
Qed.

Lemma spec_offset_cumulative (scenes : list Scene) (i : nat) :
  spec_offset scenes i = Qmax 0 (spec_cumulative scenes i - td_at scenes i).
Proof. destruct i; reflexivity. Qed.

Lemma spec_offset_nonneg (scenes : list Scene) (i : nat) : 0 <= spec_offset scenes i.
Proof. rewrite spec_offset_cumulative. apply Q.le_max_l. Qed.

Lemma nth_error_nth_scene (scenes : list Scene) (i : nat) (sc : Scene) :
  nth_error scenes i = Some sc -> nth i scenes default_scene = sc.
Proof. intro H. now apply nth_error_nth. Qed.

(** The loop, started at index [i] with the running duration the spec
    prescribes there, emits [fuel] transitions whose offsets follow the
    spec's recurrence. *)
Lemma xfade_loop_spec (fuel i n : nat) (cum : Q) (scenes : list Scene) :
  (i + fuel < length scenes)%nat ->
  cum = spec_cumulative scenes i ->
  exists xs,
    xfade_loop fuel i n (match i with O => LV 0 | S j => LXF j end) cum scenes = Some xs /\
    length xs = fuel /\
    (forall k x, nth_error xs k = Some x ->
       xf_offset x = spec_offset scenes (i + k) /\
       xf_duration x = td_at scenes (i + k) /\
       xf_in1 x = match (i + k)%nat with O => LV 0 | S j => LXF j end /\
       xf_in2 x = LV (S (i + k))).
Proof.
  revert i cum. induction fuel as [|fuel IH]; intros i cum Hlen Hcum.
  - exists []. split; [reflexivity | split; [reflexivity |]].
    intros k x Hk. destruct k; discriminate.
  - cbn [xfade_loop].
    destruct (nth_error scenes i) as [scene|] eqn:Hi;
      [| apply nth_error_None in Hi; lia].
    destruct (nth_error scenes (S i)) as [next|] eqn:Hi1;
      [| apply nth_error_None in Hi1; lia].
    assert (Hoff : py_max 0 (cum - get_transition_duration (transition scene))
                   = spec_offset scenes i).
    { rewrite py_max_Qmax, spec_offset_cumulative, Hcum. unfold td_at.
      now rewrite (nth_error_nth_scene _ _ _ Hi). }
    destruct (IH (S i) (py_max 0 (cum - get_transition_duration (transition scene))
                        + duration next)) as (xs & Hxs & Hl & Hk).
    { lia. }
    { rewrite Hoff. simpl. unfold dur_at. now rewrite (nth_error_nth_scene _ _ _ Hi1). }
    simpl in Hxs. cbv zeta. rewrite Hxs.
    eexists. split; [reflexivity | split; [simpl; now rewrite Hl |]].
    intros [|k] x Hx.
    + simpl in Hx. injection Hx as <-. simpl. rewrite Nat.add_0_r.
      split; [exact Hoff | split; [| split; reflexivity]].
      unfold td_at. now rewrite (nth_error_nth_scene _ _ _ Hi).
    + simpl in Hx. destruct (Hk k x Hx) as (H1 & H2 & H3 & H4).
      replace (i + S k)%nat with (S i + k)%nat by lia. auto.
Qed.

(** C1: with transitions enabled, [N >= 2] frames and [N] scenes, the
    filter graph holds exactly [N - 1] xfade operations; the [i]-th
    (counting from 0) joins the previous output ([[v0]] or [[xf{i-1}]])
    with [[v{i+1}]], lasts [td_i] (0.1 s for a [cut], 0.5 s otherwise),
    and starts at [max(0, cumulative_i - td_i)] with [cumulative_0] the
    first duration and [cumulative_(i+1) = offset_i + duration_(i+1)];
    every offset is non-negative. *)
Theorem build_ffmpeg_command_xfade_offsets (frames : list GeneratedFrame)
    (scenes : list Scene) (N : nat) :
  length frames = N -> length scenes = N -> (2 <= N)%nat ->
  exists scale xs,
    build_filter_graph frames scenes true = Some (mkGraph scale (Xfades xs)) /\
    length xs = (N - 1)%nat /\
    (forall i x, nth_error xs i = Some x ->
       xf_offset x = Qmax 0 (spec_cumulative scenes i - td_at scenes i) /\
       xf_offset x = spec_offset scenes i /\
       0 <= xf_offset x /\
       xf_duration x = td_at scenes i /\
       xf_in1 x = match i with O => LV 0 | S j => LXF j end /\
       xf_in2 x = LV (S i)).
Proof.
  intros Hf Hs HN. unfold build_filter_graph.
  replace (Nat.ltb 1 (length frames)) with true
    by (symmetry; apply Nat.ltb_lt; lia). simpl.
  destruct scenes as [|scene0 rest] eqn:Hsc; [simpl in Hs; lia|].
  rewrite <- Hsc in *.
  destruct (xfade_loop_spec (length frames - 1) 0 (length frames) (duration scene0)
              scenes) as (xs & Hxs & Hl & Hk).
  { lia. }
  { subst scenes. reflexivity. }
  rewrite Hxs. do 2 eexists. split; [reflexivity | split; [lia |]].
  intros i x Hx. destruct (Hk i x Hx) as (H1 & H2 & H3 & H4). simpl in *.
  rewrite <- spec_offset_cumulative. rewrite H1.
  repeat split; auto using spec_offset_nonneg.
Qed.

Definition c1_frames : list GeneratedFrame :=
  [mkFrame 1 0 "u1" "/tmp/f1.png"; mkFrame 2 0 "u2" "/tmp/f2.png";
   mkFrame 3 0 "u3" "/tmp/f3.png"; mkFrame 4 0 "u4" "/tmp/f4.png"].

Definition c1_scenes : list Scene :=
  [mkScene 1 2 "cut"; mkScene 2 (1 # 20) "fade";
   mkScene 3 3 "slide"; mkScene 4 1 "dissolve"].

Lemma build_ffmpeg_command_xfade_offsets_witness :
  length c1_frames = 4%nat /\ length c1_scenes = 4%nat /\ (2 <= 4)%nat /\
  exists scale xs,
    build_filter_graph c1_frames c1_scenes true = Some (mkGraph scale (Xfades xs)) /\
    length xs = (4 - 1)%nat /\
    (forall i x, nth_error xs i = Some x ->
       xf_offset x = Qmax 0 (spec_cumulative c1_scenes i - td_at c1_scenes i) /\
       xf_offset x = spec_offset c1_scenes i /\
       0 <= xf_offset x /\
       xf_duration x = td_at c1_scenes i /\
       xf_in1 x = match i with O => LV 0 | S j => LXF j end /\
       xf_in2 x = LV (S i)).
Proof.
  split; [reflexivity | split; [reflexivity | split; [lia |]]].
  apply (build_ffmpeg_command_xfade_offsets c1_frames c1_scenes 4);
    [reflexivity | reflexivity | lia].
Defined.

End VideoCompositorProofs.

(** *** The retry wrapper *)
Module RetryProofs.
Import Retry.

Section Loop.
Context {A : Type}.
Variables (max_retries : Z) (base_delay max_delay : Q) (func : nat -> Outcome A).

Abbreviation loop := (retry_loop max_retries base_delay max_delay func).
Abbreviation delay := (backoff_delay base_delay max_delay).

(** A retried failure: the attempt, its back-off sleep, then the rest. *)
Lemma retry_loop_retry (fuel attempt : nat) (last : option Exn) :
  retryable_failure (func attempt) = true ->
  (Z.of_nat attempt < max_retries)%Z -> (attempt < 1024)%nat ->
  exists e, func attempt = Raise e /\
    loop (S fuel) attempt last =
    (Attempt attempt :: Sleep (delay attempt) :: fst (loop fuel (S attempt) (Some e)),
     snd (loop fuel (S attempt) (Some e))).
Proof.
  intros Hr Hlt Hov. cbn [retry_loop].
  destruct (func attempt) as [v|e]; [discriminate|]. exists e. split; [reflexivity|].
  unfold retryable_failure in Hr.
  assert (Hgeb : Z.geb (Z.of_nat attempt) max_retries = false)
    by (rewrite Z.geb_leb; apply Z.leb_gt; lia).
  unfold retry_or_give_up. rewrite Hgeb, (proj2 (Nat.ltb_lt _ _) Hov).
  destruct (fibo_retryable e) as [r|].
  - subst r. simpl. now destruct (loop fuel (S attempt) (Some e)).
  - rewrite Hr. now destruct (loop fuel (S attempt) (Some e)).
Qed.

(** The last attempt gives up on a retryable failure. *)
Lemma retry_loop_give_up (fuel attempt : nat) (last : option Exn) (e : Exn) :
  func attempt = Raise e -> retryable_failure (func attempt) = true ->
  (max_retries <= Z.of_nat attempt)%Z ->
  loop (S fuel) attempt last = ([Attempt attempt], Raise (exhausted max_retries e)).
Proof.
  intros He Hr Hle. cbn [retry_loop]. rewrite He in *. simpl in Hr.
  unfold retry_or_give_up.
  assert (Hgeb : Z.geb (Z.of_nat attempt) max_retries = true)
    by (rewrite Z.geb_leb; apply Z.leb_le; lia).
  destruct (fibo_retryable e) as [r|].
  - subst r. simpl. now rewrite Hgeb.
  - rewrite Hr. now rewrite Hgeb.
Qed.




Lemma count_attempts_app (l1 l2 : list Event) :
  count_attempts (l1 ++ l2)%list = (count_attempts l1 + count_attempts l2)%nat.
Proof.
  induction l1 as [|[] l1 IH]; simpl; [reflexivity | now rewrite IH | exact IH].
Qed.



End Loop.










End RetryProofs.

(** *** [apply_parameter_modification] *)
Module ParameterModificationProofs.
Import PyModel Models ParameterModification ParameterModificationSpec.

(** **** The store and the deep copy *)

Lemma store_write_length (st : Store) (i : nat) (x : StoryboardObj) :
  length (store_write st i x) = length st.
Proof.
  revert i. induction st as [|y st IH]; intros [|i]; simpl; auto.
Qed.

Lemma nth_error_store_write_same (st : Store) (i : nat) (x : StoryboardObj) :
  (i < length st)%nat -> nth_error (store_write st i x) i = Some x.
Proof.
  revert i. induction st as [|y st IH]; intros [|i] Hi; simpl in *; try lia; auto.
  apply IH. lia.
Qed.

Lemma nth_error_store_write_other (st : Store) (i j : nat) (x : StoryboardObj) :
  i <> j -> nth_error (store_write st i x) j = nth_error st j.
Proof.
  revert i j. induction st as [|y st IH]; intros [|i] [|j] Hij; simpl; auto; try lia.
Qed.

(** The copy is a fresh object at the end of the store that receives the
    modified storyboard; the other objects are left as they were. *)
Lemma apply_parameter_modification_store (store : Store) (sb_id : nat)
    (sb : StoryboardObj) (m : ParameterModificationReq) :
  nth_error store sb_id = Some sb ->
  exists store',
    apply_parameter_modification store sb_id m
    = Some (store', length store, snd (modify_copy sb m)) /\
    nth_error store' (length store) = Some (fst (modify_copy sb m)) /\
    (forall j, (j < length store)%nat -> nth_error store' j = nth_error store j).
Proof.
  intros H. unfold apply_parameter_modification. rewrite H.
  destruct (modify_copy sb m) as [sb' res] eqn:E. simpl.
  eexists. split; [reflexivity | split].
  - apply nth_error_store_write_same. rewrite length_app. simpl. lia.
  - intros j Hj. rewrite nth_error_store_write_other by lia.
    rewrite nth_error_app1 by lia. reflexivity.
Qed.

(** **** Reading and writing a validated scene *)

Lemma scene_number_of_scene (p : SceneParameters) :
  py_getattr (scene_to_py p) "scene_number" = inr (PInt (sp_scene_number p)).
Proof. reflexivity. Qed.

Lemma extract_material_of_scene (p : SceneParameters) :
  _extract_preserved_parameters (scene_to_py p) "style.material"
  = inr (other_parameters_than_material p).
Proof. reflexivity. Qed.

Lemma set_material_of_scene (p : SceneParameters) (v : string) :
  _set_nested_value (scene_to_py p) "style.material" (PStr v)
  = inr (scene_to_py (set_material p (Some v))).
Proof. reflexivity. Qed.

Lemma in_targets_single (n k : Z) :
  in_targets (Numbers [k]) (PInt n) = Z.eqb n k.
Proof. simpl. now rewrite orb_false_r. Qed.

Lemma pydict_set_single (k : Z) (snap : list (string * pyval))
    (P : list (pyval * list (string * pyval))) :
  (P = [] \/ exists old, P = [(PInt k, old)]) ->
  pydict_set (PInt k) snap P = inr [(PInt k, snap)].
Proof.
  intros [-> | [old ->]]; [reflexivity|].
  unfold pydict_set. simpl. unfold key_eqb. now rewrite Qeq_bool_refl.
Qed.

(** The scene-level loop for [style.material] on scene [k]. *)
Lemma mod_loop_material (k : Z) (v : string) (l : list SceneParameters) (st : LoopState) :
  (preserved st = [] \/ exists old, preserved st = [(PInt k, old)]) ->
  mod_loop (fun scene => _set_nested_value scene "style.material" (PStr v))
    "style.material" (Numbers [k]) (map scene_to_py l) st
  = (None,
     mkLoopState (rev (map scene_to_py (map (modify_scene k v) l)) ++ done_rev st)
       (mods st ++ map (fun _ => PInt k) (filter (fun p => Z.eqb (sp_scene_number p) k) l))
       (regen st ++ map (fun _ => PInt k) (filter (fun p => Z.eqb (sp_scene_number p) k) l))
       (match last_numbered k l with
        | Some q => [(PInt k, other_parameters_than_material q)]
        | None => preserved st
        end),
     []).
Proof.
  revert st. induction l as [|p l IH]; intros st Hst.
  - destruct st; simpl. now rewrite !app_nil_r.
  - cbn [map mod_loop]. rewrite scene_number_of_scene, in_targets_single.
    unfold modify_scene at 1.
    destruct (Z.eqb (sp_scene_number p) k) eqn:Hk.
    + pose proof Hk as Hk'. apply Z.eqb_eq in Hk'.
      rewrite extract_material_of_scene. rewrite Hk'.
      rewrite pydict_set_single by exact Hst.
      rewrite set_material_of_scene. rewrite scene_number_of_scene.
      simpl sp_scene_number. rewrite Hk'.
      rewrite IH by (simpl; right; eexists; reflexivity). simpl.
      rewrite <- !app_assoc. simpl.
      destruct (last_numbered k l); rewrite Hk; reflexivity.
    + rewrite IH by exact Hst. simpl.
      rewrite <- !app_assoc. simpl. rewrite Hk.
      destruct (last_numbered k l); reflexivity.
Qed.

Lemma last_numbered_some (k : Z) (l : list SceneParameters) (q : SceneParameters) :
  last_numbered k l = Some q -> In q l /\ sp_scene_number q = k.
Proof.
  induction l as [|p l IH]; simpl; [discriminate|].
  destruct (last_numbered k l) as [q'|].
  - intros [= <-]. destruct IH as [H1 H2]; auto.
  - destruct (Z.eqb (sp_scene_number p) k) eqn:E; [|discriminate].
    intros [= <-]. split; [now left | now apply Z.eqb_eq].
Qed.

Lemma last_numbered_none (k : Z) (l : list SceneParameters) (p : SceneParameters) :
  last_numbered k l = None -> In p l -> sp_scene_number p <> k.
Proof.
  induction l as [|p' l IH]; simpl; [tauto|].
  destruct (last_numbered k l) as [q'|]; [discriminate|].
  destruct (Z.eqb (sp_scene_number p') k) eqn:E; [discriminate|].
  intros _ [<- | Hin].
  - now apply Z.eqb_neq.
  - now apply IH.
Qed.

(** C4: changing [style.material] to ["leather"] on scenes [[2]] of a
    validated storyboard yields a fresh copy (every object already in
    the store, the input storyboard included, is unchanged) in which each
    scene numbered 2 has exactly its [style.material] replaced and every
    other scene and storyboard field is as before; the result succeeds,
    and its preserved-parameters entry for scene 2 holds all the other
    parameters of that scene with their values before the change. *)
Theorem apply_parameter_modification_material_isolation (store : Store) (sb_id : nat)
    (sb : EnhancedStoryboard) :
  nth_error store sb_id = Some (storyboard_to_py sb) ->
  exists store' res,
    apply_parameter_modification store sb_id
      (mkModification "style.material" (PStr "leather") [2%Z])
    = Some (store', length store, res) /\
    (forall j, (j < length store)%nat -> nth_error store' j = nth_error store j) /\
    nth_error store' (length store) =
      Some (storyboard_to_py
              (mkEnhancedStoryboard (brand_name sb) (product_name sb) (total_duration sb)
                 (aspect_ratio sb) (map (modify_scene 2 "leather") (scenes sb))
                 (global_material sb) (global_color_palette sb))) /\
    success res = true /\
    modified_scenes res
      = map (fun _ => PInt 2) (filter (fun p => Z.eqb (sp_scene_number p) 2) (scenes sb)) /\
    frames_to_regenerate res = modified_scenes res /\
    ((forall p, In p (scenes sb) -> sp_scene_number p <> 2%Z) ->
       preserved_parameters res = []) /\
    (forall p, In p (scenes sb) -> sp_scene_number p = 2%Z ->
       exists q, In q (scenes sb) /\ sp_scene_number q = 2%Z /\
         preserved_parameters res = [(PInt 2, other_parameters_than_material q)]).
Proof.
  intros H.
  destruct (apply_parameter_modification_store store sb_id (storyboard_to_py sb)
              (mkModification "style.material" (PStr "leather") [2%Z]) H)
    as (store' & Happ & Hcopy & Hold).
  unfold modify_copy in Happ, Hcopy. cbn [parameter_path new_value apply_to_scenes] in Happ, Hcopy.
  change (String.prefix "global_" "style.material") with false in Happ, Hcopy.
  cbv iota beta in Happ, Hcopy.
  change (o_scenes (storyboard_to_py sb)) with (map scene_to_py (scenes sb)) in Happ, Hcopy.
  rewrite mod_loop_material in Happ, Hcopy by (left; reflexivity).
  cbn [done_rev mods regen preserved init_state finish] in Happ, Hcopy.
  simpl in Happ, Hcopy.
  eexists store', _. split; [exact Happ|]. split; [exact Hold|]. split.
  { rewrite Hcopy. rewrite !app_nil_r, rev_involutive. reflexivity. }
  split; [reflexivity|]. split; [reflexivity|]. split; [reflexivity|]. split.
  - intros Hno. destruct (last_numbered 2 (scenes sb)) as [q|] eqn:E; [|reflexivity].
    apply last_numbered_some in E. destruct E as [Hin Hq]. exfalso. exact (Hno q Hin Hq).
  - intros p Hin Hp. destruct (last_numbered 2 (scenes sb)) as [q|] eqn:E.
    + apply last_numbered_some in E. destruct E as [Hq1 Hq2]. exists q. auto.
    + exfalso. exact (last_numbered_none 2 (scenes sb) p E Hin Hp).
Qed.

Definition c4_scene (n : Z) : SceneParameters :=
  mkSceneParameters n 2 "Leather bag on a marble table"
    (mkCamera "close-up" "detail") (mkLighting "soft-studio" "side" "medium")
    (mkComposition "center" "solid" "shallow")
    (mkStyle ["#1A1A1A"; "#C0A060"] (Some "fabric") "luxury" "professional") "fade".

Definition c4_storyboard : EnhancedStoryboard :=
  mkEnhancedStoryboard "Acme" "Tote" 8 "9:16" [c4_scene 1; c4_scene 2; c4_scene 3] None None.

Lemma apply_parameter_modification_material_isolation_witness :
  nth_error [storyboard_to_py c4_storyboard] 0 = Some (storyboard_to_py c4_storyboard) /\
  exists store' res,
    apply_parameter_modification [storyboard_to_py c4_storyboard] 0
      (mkModification "style.material" (PStr "leather") [2%Z])
    = Some (store', 1%nat, res) /\
    success res = true.
Proof.
  split; [reflexivity|].
  destruct (apply_parameter_modification_material_isolation
              [storyboard_to_py c4_storyboard] 0 c4_storyboard eq_refl)
    as (store' & res & H1 & _ & _ & H4 & _).
  exists store', res. split; [exact H1 | exact H4].
Defined.

(** **** Addressing errors and absent targets *)

Lemma extract_of_scene (p : SceneParameters) (path : string) :
  exists snap, _extract_preserved_parameters (scene_to_py p) path = inr snap.
Proof. eexists. reflexivity. Qed.

Lemma in_targets_scene (t : Targets) (p : SceneParameters) :
  in_targets t (PInt (sp_scene_number p)) = true <->
  t = AllScenes \/ exists l, t = Numbers l /\ In (sp_scene_number p) l.
Proof.
  destruct t as [|l]; simpl.
  - split; auto.
  - rewrite existsb_exists. split.
    + intros (z & Hin & Hz). apply Z.eqb_eq in Hz. subst z.
      right. exists l. auto.
    + intros [H | (l' & [= <-] & Hin)]; [discriminate|].
      exists (sp_scene_number p). split; [exact Hin | apply Z.eqb_refl].
Qed.

Lemma split_dot_aux_nonempty (s cur : string) : split_dot_aux s cur <> [].
Proof.
  revert cur. induction s as [|c s IH]; intros cur; simpl; [discriminate|].
  destruct (Ascii.eqb c "."%char); [discriminate | apply IH].
Qed.



Lemma plain_name_not_dict (a : string) :
  plain_name a = true -> String.eqb a "__dict__" = false.
Proof. intros H. destruct (String.eqb_spec a "__dict__"); [subst; discriminate | reflexivity]. Qed.






(** The loop passes over scenes none of which is targeted. *)
Lemma mod_loop_no_target (step : pyval -> PyErr + pyval) (path : string) (t : Targets)
    (l : list SceneParameters) :
  forall st,
  (forall p, In p l -> in_targets t (PInt (sp_scene_number p)) = false) ->
  mod_loop step path t (map scene_to_py l) st
  = (None, mkLoopState (rev (map scene_to_py l) ++ done_rev st)%list (mods st) (regen st)
             (preserved st), []).
Proof.
  induction l as [|p l IH]; intros st H; [destruct st; reflexivity|].
  cbn [map mod_loop]. rewrite scene_number_of_scene.
  rewrite (H p (or_introl eq_refl)).
  rewrite IH by (intros q Hq; exact (H q (or_intror Hq))).
  cbn [done_rev mods regen preserved rev]. rewrite <- app_assoc. reflexivity.
Qed.


Lemma with_scenes_same (sb : EnhancedStoryboard) :
  with_scenes (storyboard_to_py sb) (map scene_to_py (scenes sb)) = storyboard_to_py sb.
Proof. reflexivity. Qed.




(** C10: a scene-level path (not starting with [global_]), existing or
    not, with a non-empty [apply_to_scenes] none of whose numbers is a
    scene of the storyboard, succeeds with empty [modified_scenes],
    [frames_to_regenerate] and [preserved_parameters] and no error, and
    the returned copy equals the input. *)
Theorem apply_parameter_modification_absent_targets (store : Store) (sb_id : nat)
    (sb : EnhancedStoryboard) (m : ParameterModificationReq) :
  nth_error store sb_id = Some (storyboard_to_py sb) ->
  String.prefix "global_" (parameter_path m) = false ->
  apply_to_scenes m <> [] ->
  (forall p, In p (scenes sb) -> ~ In (sp_scene_number p) (apply_to_scenes m)) ->
  exists store',
    apply_parameter_modification store sb_id m
    = Some (store', length store, mkResult true [] [] [] None) /\
    (forall j, (j < length store)%nat -> nth_error store' j = nth_error store j) /\
    nth_error store' (length store) = Some (storyboard_to_py sb).
Proof.
  intros H Hpre Hne Habs.
  destruct (apply_parameter_modification_store store sb_id (storyboard_to_py sb) m H)
    as (store' & Happ & Hcopy & Hold).
  assert (Hmc : modify_copy (storyboard_to_py sb) m
                = (storyboard_to_py sb, mkResult true [] [] [] None)).
  { unfold modify_copy. destruct m as [path v ats].
    cbn [parameter_path new_value apply_to_scenes] in *.
    rewrite Hpre. destruct ats as [|z zs]; [congruence|].
    change (o_scenes (storyboard_to_py sb)) with (map scene_to_py (scenes sb)).
    rewrite mod_loop_no_target.
    - unfold finish. cbn beta iota zeta. cbn [done_rev mods regen preserved init_state].
      rewrite !app_nil_r, rev_involutive. reflexivity.
    - intros p Hp. destruct (in_targets _ _) eqn:E; [|reflexivity].
      apply in_targets_scene in E. destruct E as [E | (l & E & Hin)]; [discriminate|].
      injection E as <-. exfalso. exact (Habs p Hp Hin). }
  rewrite Hmc in Happ, Hcopy. exists store'. auto.
Qed.

Lemma apply_parameter_modification_absent_targets_witness :
  nth_error [storyboard_to_py c4_storyboard] 0 = Some (storyboard_to_py c4_storyboard) /\
  exists store',
    apply_parameter_modification [storyboard_to_py c4_storyboard] 0
      (mkModification "style.finish" (PStr "matte") [7%Z])
    = Some (store', 1%nat, mkResult true [] [] [] None).
Proof.
  split; [reflexivity|].
  destruct (apply_parameter_modification_absent_targets
              [storyboard_to_py c4_storyboard] 0 c4_storyboard
              (mkModification "style.finish" (PStr "matte") [7%Z]) eq_refl eq_refl)
    as (store' & H1 & _).
  - discriminate.
  - intros p Hp. simpl in Hp. simpl.
    destruct Hp as [<- | [<- | [<- | []]]]; simpl; lia.
  - exists store'. exact H1.
Defined.

End ParameterModificationProofs.

Module FiboTranslatorProofs.
Import PyModel Models FiboTranslator.

Lemma replace_hyphen_no_hyphen (s : string) : has_char "-"%char (replace_hyphen s) = false.
Proof.
  unfold replace_hyphen. induction s as [|c s IH]; [reflexivity|].
  cbn [py_str_replace_char has_char]. rewrite IH, orb_false_r.
  destruct (Ascii.eqb c "-"%char) eqn:E; [reflexivity|].
  apply Ascii.eqb_neq in E. apply Ascii.eqb_neq. congruence.
Qed.

Lemma replace_hyphen_fixed (s : string) :
  has_char "-"%char s = false -> replace_hyphen s = s.
Proof.
  unfold replace_hyphen. induction s as [|c s IH]; [reflexivity|].
  cbn [py_str_replace_char has_char]. intros H. apply orb_false_elim in H.
  destruct H as [H1 H2]. rewrite IH by exact H2.
  rewrite Ascii.eqb_sym, H1. reflexivity.
Qed.

(** C5: serialising a structured prompt to the API payload and parsing
    it back gives the same prompt, for every prompt and in particular for
    every translated scene; the hyphen-to-underscore replacement leaves
    no hyphen and changes nothing when applied again, so the normalised
    fields stay normalised through the round trip and through a second
    translation. *)
Theorem fibo_prompt_round_trip :
  (forall (f : FIBOStructuredPromptV2) (aspect_ratio : string),
     from_api_payload (to_api_payload f aspect_ratio) = Some f) /\
  (forall (p : SceneParameters) (aspect_ratio : string),
     from_api_payload (to_api_payload (from_scene_parameters p) aspect_ratio)
     = Some (from_scene_parameters p)) /\
  (forall s, has_char "-"%char (replace_hyphen s) = false /\
             replace_hyphen (replace_hyphen s) = replace_hyphen s) /\
  (forall p : SceneParameters,
     from_scene_parameters
       (mkSceneParameters (sp_scene_number p) (sp_duration p) (scene_description p)
          (mkCamera (replace_hyphen (angle (camera p))) (shot_type (camera p)))
          (mkLighting (replace_hyphen (l_style (lighting p))) (direction (lighting p))
             (intensity (lighting p)))
          (mkComposition (replace_hyphen (subject_position (composition p)))
             (background (composition p)) (depth_of_field (composition p)))
          (style p) (sp_transition p))
     = from_scene_parameters p).
Proof.
  assert (Hrt : forall f a, from_api_payload (to_api_payload f a) = Some f).
  { intros [d c l co st] a. reflexivity. }
  assert (Hid : forall s, replace_hyphen (replace_hyphen s) = replace_hyphen s).
  { intros s. apply replace_hyphen_fixed, replace_hyphen_no_hyphen. }
  split; [exact Hrt|]. split; [intros p a; apply Hrt|].
  split; [intros s; split; [apply replace_hyphen_no_hyphen | apply Hid]|].
  intros p. unfold from_scene_parameters. cbn [angle l_style subject_position camera
    lighting composition shot_type direction intensity background depth_of_field
    scene_description style].
  rewrite !Hid. reflexivity.
Qed.

End FiboTranslatorProofs.

Module FrameGeneratorProofs.
Import VideoCompositor FrameGenerator FrameGeneratorSpec.

Lemma scenes_loop_spec (gen : nat -> Scene -> SceneOutcome) (out : string) (scenes : list Scene) :
  forall i log fs es,
  scenes_loop gen out i scenes log fs es
  = ((log ++ map scene_number scenes)%list,
     (fs ++ flat_map fg_frames (per_scene gen out i scenes))%list,
     (es ++ flat_map fg_errors (per_scene gen out i scenes))%list).
Proof.
  induction scenes as [|s rest IH]; intros i log fs es; cbn [scenes_loop per_scene map flat_map].
  - rewrite !app_nil_r. reflexivity.
  - rewrite IH. rewrite <- !app_assoc. reflexivity.
Qed.

Lemma frame_key_ltb_asym (x y : GeneratedFrame) :
  frame_key_ltb x y = true -> frame_key_ltb y x = false.
Proof.
  unfold frame_key_ltb. intros H.
  destruct (Z.ltb_spec (frame_scene_number x) (frame_scene_number y));
  destruct (Z.ltb_spec (frame_scene_number y) (frame_scene_number x));
  destruct (Z.eqb_spec (frame_scene_number x) (frame_scene_number y));
  destruct (Z.eqb_spec (frame_scene_number y) (frame_scene_number x));
  destruct (Z.ltb_spec (frame_index x) (frame_index y));
  destruct (Z.ltb_spec (frame_index y) (frame_index x));
  simpl in *; try reflexivity; try discriminate; lia.
Qed.

Lemma insert_frame_hd (y x : GeneratedFrame) (l : list GeneratedFrame) :
  HdRel frame_le y l -> frame_le y x -> HdRel frame_le y (insert_frame x l).
Proof.
  destruct l as [|z l]; cbn [insert_frame]; intros Hl Hx.
  - constructor. exact Hx.
  - destruct (frame_key_ltb x z); constructor; [exact Hx|].
    inversion Hl; assumption.
Qed.

Lemma insert_frame_sorted (x : GeneratedFrame) (l : list GeneratedFrame) :
  Sorted frame_le l -> Sorted frame_le (insert_frame x l).
Proof.
  induction l as [|y l IH]; intros H; cbn [insert_frame].
  - repeat constructor.
  - destruct (frame_key_ltb x y) eqn:E.
    + constructor; [exact H|]. constructor. apply frame_key_ltb_asym. exact E.
    + inversion H as [|? ? Hs Hhd]; subst. constructor; [exact (IH Hs)|].
      apply insert_frame_hd; [exact Hhd | exact E].
Qed.

Lemma insert_frame_perm (x : GeneratedFrame) (l : list GeneratedFrame) :
  Permutation (x :: l) (insert_frame x l).
Proof.
  induction l as [|y l IH]; cbn [insert_frame]; [reflexivity|].
  destruct (frame_key_ltb x y); [reflexivity|].
  etransitivity; [apply perm_swap|]. constructor. exact IH.
Qed.

Lemma sort_frames_aux (l acc : list GeneratedFrame) :
  Sorted frame_le acc ->
  Sorted frame_le (fold_left (fun acc x => insert_frame x acc) l acc) /\
  Permutation (acc ++ l)%list (fold_left (fun acc x => insert_frame x acc) l acc).
Proof.
  revert acc. induction l as [|x l IH]; intros acc Hacc; cbn [fold_left].
  - rewrite app_nil_r. split; [exact Hacc | reflexivity].
  - destruct (IH (insert_frame x acc) (insert_frame_sorted x acc Hacc)) as [H1 H2].
    split; [exact H1|]. etransitivity; [|exact H2].
    etransitivity; [apply Permutation_sym, Permutation_middle|].
    change (x :: acc ++ l)%list with ((x :: acc) ++ l)%list.
    apply Permutation_app_tail. apply insert_frame_perm.
Qed.

Lemma per_scene_nth (gen : nat -> Scene -> SceneOutcome) (out : string) (scenes : list Scene) :
  forall i k s, nth_error scenes k = Some s ->
  nth_error (per_scene gen out i scenes) k
  = Some (generate_frames_for_scene out s (gen (i + k)%nat s)).
Proof.
  induction scenes as [|s0 rest IH]; intros i [|k] s H; cbn in H; try discriminate.
  - injection H as <-. rewrite Nat.add_0_r. reflexivity.
  - cbn [per_scene nth_error]. rewrite (IH (S i) k s H). do 3 f_equal. lia.
Qed.

Lemma scene_errors_iff (out : string) (s : Scene) (o : SceneOutcome) :
  fg_errors (generate_frames_for_scene out s o) = [] <-> outcome_ok o = true.
Proof.
  destruct o as [url [|] | msg | msg]; simpl; split; intros H; congruence.
Qed.

Lemma flat_map_errors_nil (gen : nat -> Scene -> SceneOutcome) (out : string) (scenes : list Scene) :
  forall i,
  flat_map fg_errors (per_scene gen out i scenes) = [] <->
  (forall k s, nth_error scenes k = Some s -> outcome_ok (gen (i + k)%nat s) = true).
Proof.
  induction scenes as [|s0 rest IH]; intros i; cbn [per_scene flat_map].
  - split; [intros _ [|k] s H; discriminate | reflexivity].
  - split.
    + intros H. apply app_eq_nil in H. destruct H as [H0 H1].
      apply scene_errors_iff in H0. pose proof (proj1 (IH (S i)) H1) as H2.
      intros [|k] s Hk; cbn in Hk.
      * injection Hk as <-. rewrite Nat.add_0_r. exact H0.
      * rewrite <- Nat.add_succ_comm. exact (H2 k s Hk).
    + intros H.
      assert (H0 : outcome_ok (gen i s0) = true).
      { rewrite <- (Nat.add_0_r i). apply H. reflexivity. }
      assert (H1 : forall k s, nth_error rest k = Some s -> outcome_ok (gen (S i + k)%nat s) = true).
      { intros k s Hk. rewrite Nat.add_succ_comm. apply (H (S k)). exact Hk. }
      rewrite (proj2 (scene_errors_iff out s0 (gen i s0)) H0), (proj2 (IH (S i)) H1).
      reflexivity.
Qed.

(** C6: [generate_all_frames] calls the generator for every scene in
    order whatever the earlier scenes gave, collects the errors of all
    scenes (each failing scene contributes one non-empty message), succeeds
    exactly when no error was collected (that is, when every scene was
    generated and downloaded), and returns all the generated frames
    sorted by [(scene_number, frame_index)]. *)
Theorem generate_all_frames_collects_and_sorts (gen : nat -> Scene -> SceneOutcome)
    (output_dir : string) (scenes : list Scene) (log : list Z) (res : FrameGenerationResult) :
  generate_all_frames gen output_dir scenes = (log, res) ->
  log = map scene_number scenes /\
  fg_errors res = flat_map fg_errors (per_scene gen output_dir 0 scenes) /\
  (forall k s, nth_error scenes k = Some s -> outcome_ok (gen k s) = false ->
     exists e, fg_errors (generate_frames_for_scene output_dir s (gen k s)) = [e] /\
               e <> "" /\ In e (fg_errors res)) /\
  (fg_success res = true <-> fg_errors res = []) /\
  (fg_errors res = [] <-> forall k s, nth_error scenes k = Some s -> outcome_ok (gen k s) = true) /\
  Sorted frame_le (fg_frames res) /\
  Permutation (flat_map fg_frames (per_scene gen output_dir 0 scenes)) (fg_frames res).
Proof.
  unfold generate_all_frames. rewrite scenes_loop_spec. cbn [app]. intros H.
  injection H as <- <-. cbn [fg_success fg_frames fg_errors].
  split; [reflexivity|]. split; [reflexivity|]. split.
  { intros k s Hk Hko.
    assert (Hin : In (generate_frames_for_scene output_dir s (gen k s))
                     (per_scene gen output_dir 0 scenes)).
    { apply nth_error_In with k. rewrite (per_scene_nth gen output_dir scenes 0 k s Hk).
      reflexivity. }
    destruct (gen k s) as [url [|] | msg | msg] eqn:Eo; try discriminate;
      eexists; (split; [reflexivity|]); (split; [simpl; discriminate|]);
      apply in_flat_map; eexists; (split; [exact Hin|]); simpl; left; reflexivity. }
  split.
  { split; intros H.
    - destruct (flat_map fg_errors _); [reflexivity | discriminate].
    - rewrite H. reflexivity. }
  split; [apply (flat_map_errors_nil gen output_dir scenes 0)|].
  destruct (sort_frames_aux (flat_map fg_frames (per_scene gen output_dir 0 scenes)) []
              (Sorted_nil _)) as [H1 H2].
  split; [exact H1 | exact H2].
Qed.

Definition c6_scenes : list Scene :=
  [mkScene 2 3 "fade"; mkScene 1 3 "cut"; mkScene 3 2 "slide"].

Definition c6_gen (i : nat) (s : Scene) : SceneOutcome :=
  match i with
  | 0%nat => GenOk "https://img/2.png" true
  | 1%nat => GenFIBOError "Rate limited"
  | _ => GenOk "https://img/3.png" true
  end.

Lemma generate_all_frames_collects_and_sorts_witness :
  generate_all_frames c6_gen "/tmp/frames" c6_scenes
  = (fst (generate_all_frames c6_gen "/tmp/frames" c6_scenes),
     snd (generate_all_frames c6_gen "/tmp/frames" c6_scenes)) /\
  fst (generate_all_frames c6_gen "/tmp/frames" c6_scenes) = [2%Z; 1%Z; 3%Z].
Proof.
  split; [reflexivity|].
  destruct (generate_all_frames_collects_and_sorts c6_gen "/tmp/frames" c6_scenes
              (fst (generate_all_frames c6_gen "/tmp/frames" c6_scenes))
              (snd (generate_all_frames c6_gen "/tmp/frames" c6_scenes)) eq_refl)
    as [H _].
  exact H.
Defined.

End FrameGeneratorProofs.

Module JobPipelineProofs.
Import VideoCompositor FrameGenerator FrameGeneratorSpec FrameGeneratorProofs
  JobPipeline JobPipelineSpec.

(** **** The error message of a frame generation failure *)

Lemma per_scene_In (gen : nat -> Scene -> SceneOutcome) (out : string) (scenes : list Scene) :
  forall i r, In r (per_scene gen out i scenes) ->
  exists s o, r = generate_frames_for_scene out s o.
Proof.
  induction scenes as [|s rest IH]; intros i r H; cbn [per_scene In] in H; [destruct H|].
  destruct H as [<- | H]; [eauto | exact (IH (S i) r H)].
Qed.

Lemma generate_all_frames_errors_nonempty (gen : nat -> Scene -> SceneOutcome) (out : string)
    (scenes : list Scene) (e : string) :
  In e (fg_errors (snd (generate_all_frames gen out scenes))) -> e <> "".
Proof.
  unfold generate_all_frames. rewrite scenes_loop_spec. cbn [app snd fg_errors].
  intros H. apply in_flat_map in H. destruct H as (r & Hr & He).
  destruct (per_scene_In gen out scenes 0 r Hr) as (s & o & ->).
  destruct o as [url [|] | msg | msg]; cbn in He; [contradiction|..];
    destruct He as [<- | []]; discriminate.
Qed.

Lemma append_nonempty (x y : string) : x <> "" -> x ++ y <> "".
Proof. destruct x; [congruence | discriminate]. Qed.

Lemma py_join_nonempty (sep : string) (l : list string) :
  (forall e, In e l -> e <> "") -> l <> [] -> py_join sep l <> "".
Proof.
  destruct l as [|x l]; [congruence|]. intros H _.
  assert (Hx : x <> "") by (apply H; now left).
  destruct l as [|y l]; [exact Hx|]. apply append_nonempty, Hx.
Qed.

Lemma frame_error_msg_nonempty (errors : list string) :
  (forall e, In e errors -> e <> "") -> frame_error_msg errors <> "".
Proof.
  intros H. destruct errors as [|x l]; [discriminate|].
  apply py_join_nonempty; [exact H | discriminate].
Qed.

(** C7: in the video pipeline, when frame generation returns an
    unsuccessful result, the job is set to [error] with a non-empty error
    message and a [JobResult] with [success = False] and that message is
    recorded; these are the last effects of the run, so the compositor is
    never called and the stage [compositing] is never written. *)
Theorem run_video_generation_pipeline_frame_failure (gen : nat -> Scene -> SceneOutcome)
    (output_dir : string) (scenes : list Scene) (comp : StepOutcome CompositeResult) :
  fg_success (snd (generate_all_frames gen output_dir scenes)) = false ->
  let effects :=
    run_video_generation_pipeline (Returned tt)
      (Returned (snd (generate_all_frames gen output_dir scenes))) comp in
  exists msg,
    msg <> "" /\
    effects =
      [status StoryboardStage 10 "Generating storyboard...";
       status StoryboardStage 25 "Storyboard generated";
       status FrameGeneration 30 "Generating frames...";
       CallFrames;
       SetStatus (mkJobStatus ErrorStage 0 "Frame generation failed" (Some msg));
       SetResult (mkJobResult false None None (Some msg))] /\
    ~ In CallComposite effects /\
    (forall st, In (SetStatus st) effects -> js_stage st <> Compositing).
Proof.
  intros Hfail effects.
  set (r := snd (generate_all_frames gen output_dir scenes)) in *.
  assert (Heff : effects =
      [status StoryboardStage 10 "Generating storyboard...";
       status StoryboardStage 25 "Storyboard generated";
       status FrameGeneration 30 "Generating frames...";
       CallFrames;
       SetStatus (mkJobStatus ErrorStage 0 "Frame generation failed"
                    (Some (frame_error_msg (fg_errors r))));
       SetResult (mkJobResult false None None (Some (frame_error_msg (fg_errors r))))]).
  { unfold effects, run_video_generation_pipeline. rewrite Hfail. reflexivity. }
  exists (frame_error_msg (fg_errors r)). split.
  { apply frame_error_msg_nonempty. intros e He.
    exact (generate_all_frames_errors_nonempty gen output_dir scenes e He). }
  split; [exact Heff|]. rewrite Heff. split.
  - simpl. intuition discriminate.
  - intros st Hst. simpl in Hst.
    repeat destruct Hst as [Hst | Hst]; try discriminate; try contradiction;
      injection Hst as <-; discriminate.
Qed.

Lemma run_video_generation_pipeline_frame_failure_witness :
  fg_success (snd (generate_all_frames c6_gen "/tmp/frames" c6_scenes)) = false /\
  exists msg, msg <> "" /\
    run_video_generation_pipeline (Returned tt)
      (Returned (snd (generate_all_frames c6_gen "/tmp/frames" c6_scenes)))
      (Returned (mkCompositeResult true "/api/videos/j.mp4" 8 None))
    = [status StoryboardStage 10 "Generating storyboard...";
       status StoryboardStage 25 "Storyboard generated";
       status FrameGeneration 30 "Generating frames...";
       CallFrames;
       SetStatus (mkJobStatus ErrorStage 0 "Frame generation failed" (Some msg));
       SetResult (mkJobResult false None None (Some msg))].
Proof.
  assert (Hf : fg_success (snd (generate_all_frames c6_gen "/tmp/frames" c6_scenes)) = false)
    by (vm_compute; reflexivity).
  split; [exact Hf|].
  destruct (run_video_generation_pipeline_frame_failure c6_gen "/tmp/frames" c6_scenes
              (Returned (mkCompositeResult true "/api/videos/j.mp4" 8 None)) Hf)
    as (msg & H1 & H2 & _).
  exists msg. split; [exact H1 | exact H2].
Defined.

(** **** Stage progression *)

(** C8 (counterexample): over the lifetime of a v2 job the status does
    move back: a completed job whose parameter is modified goes from
    [complete] at 100 back to [frame-generation] at 50. *)
Lemma job_lifetime_moves_back :
  let res := ParameterModification.mkResult true [PyModel.PInt 2] [PyModel.PInt 2] [] None in
  let lifetime :=
    (queued_status ::
     run_video_generation_pipeline_v2 (Returned tt) (Returned (mkEnhancedFrameResult true 3 []))
       (Returned tt) (Returned (mkCompositeResult true "/api/videos/j.mp4" 8 None)) ++
     match modify_parameter_endpoint true res with Some (eff, _) => eff | None => [] end ++
     regenerate_frames_for_modification (Returned tt) 1)%list in
  map (fun s => (js_stage s, js_progress s)) (statuses lifetime)
  = [(Queued, 0%Z); (StoryboardStage, 10%Z); (StoryboardStage, 25%Z);
     (FrameGeneration, 30%Z); (FrameGeneration, 70%Z); (Compositing, 75%Z);
     (Complete, 100%Z); (FrameGeneration, 50%Z); (Complete, 100%Z)] /\
  forward_only (statuses lifetime) = false.
Proof. split; vm_compute; reflexivity. Qed.

(** C8 (amended): one run of either video pipeline, from the queued
    status its endpoint writes, only moves forward through
    queued, storyboard, frame-generation, compositing, complete, with
    [error] possible from any stage, progress not decreasing before a
    terminal stage, and ends in [complete] or [error]. The parameter
    modification endpoint re-opens a job: when frames are to be
    regenerated it writes [frame-generation] at 50 whatever the current
    stage, a step back from [complete] or [error]; the regeneration task
    then writes [complete] at 100 or [error] at 0. *)
Theorem job_status_forward_within_a_run :
  (forall sb fr comp,
     let l := statuses (queued_status :: run_video_generation_pipeline sb fr comp) in
     forward_only l = true /\ exists st, last_stage l = Some st /\ is_terminal st = true) /\
  (forall sb fr conv comp,
     let l := statuses (queued_status :: run_video_generation_pipeline_v2 sb fr conv comp) in
     forward_only l = true /\ exists st, last_stage l = Some st /\ is_terminal st = true) /\
  (forall res, ParameterModification.success res = true ->
     ParameterModification.frames_to_regenerate res <> [] ->
     exists msg,
       modify_parameter_endpoint true res = Some ([status FrameGeneration 50 msg], true) /\
       (forall prior, is_terminal (js_stage prior) = true ->
          forward_step prior (mkJobStatus FrameGeneration 50 msg None) = false) /\
       (forall regen n,
          let l := statuses (status FrameGeneration 50 msg ::
                             regenerate_frames_for_modification regen n) in
          forward_only l = true /\ exists st, last_stage l = Some st /\ is_terminal st = true)).
Proof.
  split; [|split].
  - intros sb fr comp.
    destruct sb as [u|e]; [|split; [reflexivity | eexists; split; reflexivity]].
    destruct fr as [r|e]; [|split; [reflexivity | eexists; split; reflexivity]].
    unfold run_video_generation_pipeline.
    destruct (fg_success r); [|split; [reflexivity | eexists; split; reflexivity]].
    unfold composite_effects. destruct comp as [c|e]; [destruct (cr_success c)|];
      split; try reflexivity; eexists; split; reflexivity.
  - intros sb fr conv comp.
    destruct sb as [u|e]; [|split; [reflexivity | eexists; split; reflexivity]].
    destruct fr as [r|e]; [|split; [reflexivity | eexists; split; reflexivity]].
    unfold run_video_generation_pipeline_v2.
    destruct (ef_success r); [|split; [reflexivity | eexists; split; reflexivity]].
    destruct conv as [u'|e]; [|split; [reflexivity | eexists; split; reflexivity]].
    unfold composite_effects. destruct comp as [c|e]; [destruct (cr_success c)|];
      split; try reflexivity; eexists; split; reflexivity.
  - intros res Hs Hr. unfold modify_parameter_endpoint. rewrite Hs. cbn [negb].
    destruct (ParameterModification.frames_to_regenerate res) as [|x xs]; [congruence|].
    eexists. split; [reflexivity|]. split.
    + intros [[] p m e] H; cbn in H; try discriminate; reflexivity.
    + intros [u|e] n; split; try reflexivity; eexists; split; reflexivity.
Qed.

Lemma job_status_forward_within_a_run_witness :
  exists msg,
    modify_parameter_endpoint true
      (ParameterModification.mkResult true [PyModel.PInt 2] [PyModel.PInt 2] [] None)
    = Some ([status FrameGeneration 50 msg], true).
Proof.
  destruct job_status_forward_within_a_run as (_ & _ & H).
  destruct (H (ParameterModification.mkResult true [PyModel.PInt 2] [PyModel.PInt 2] [] None)
              eq_refl ltac:(discriminate)) as (msg & H1 & _).
  exists msg. exact H1.
Defined.

End JobPipelineProofs.

(** ** Further properties of the code *)

(** *** [video_compositor.py]: the filter graph and [composite_video] *)
Module CompositeVideoProofs.
Import VideoCompositor JobPipeline CompositeVideo VideoCompositorProofs.

Lemma xfade_loop_none (fuel i n : nat) (cur : label) (cum : Q) (scenes : list Scene) :
  xfade_loop fuel i n cur cum scenes = None <-> (0 < fuel /\ length scenes <= i + fuel)%nat.
Proof.
  revert i cur cum. induction fuel as [|fuel IH]; intros i cur cum.
  - simpl. split; [discriminate | lia].
  - cbn [xfade_loop].
    destruct (nth_error scenes i) as [scene|] eqn:Hi.
    + destruct (nth_error scenes (S i)) as [next|] eqn:Hi1.
      * assert (S i < length scenes)%nat by (apply nth_error_Some; congruence).
        cbv zeta.
        match goal with |- context [xfade_loop fuel (S i) n ?c ?m scenes] =>
          destruct (xfade_loop fuel (S i) n c m scenes) eqn:E end.
        -- split; [intro Hc; discriminate Hc|]. intros [_ H2].
           destruct fuel as [|fuel'].
           ++ lia.
           ++ assert (Hn : xfade_loop (S fuel') (S i) n (LXF i)
                  (py_max 0 (cum - get_transition_duration (transition scene)) + duration next)
                  scenes = None) by (apply IH; lia). congruence.
        -- split; [|intros _; reflexivity]. intros _. apply IH in E. lia.
      * apply nth_error_None in Hi1. split; [lia | reflexivity].
    + apply nth_error_None in Hi. split; [lia | reflexivity].
Qed.

Lemma scale_loop_length (i : nat) (frames : list GeneratedFrame) (scenes : list Scene) :
  length (scale_loop i frames scenes) = Nat.min (length frames) (length scenes).
Proof.
  revert i scenes. induction frames as [|f fs IH]; intros i [|sc scs]; simpl; auto.
Qed.

Lemma build_filter_graph_none (frames : list GeneratedFrame) (scenes : list Scene)
    (enable_transitions : bool) :
  build_filter_graph frames scenes enable_transitions = None <->
  (enable_transitions = true /\ 2 <= length frames /\ length scenes < length frames)%nat.
Proof.
  unfold build_filter_graph.
  destruct enable_transitions; simpl.
  - destruct (Nat.ltb 1 (length frames)) eqn:E.
    + apply Nat.ltb_lt in E. destruct scenes as [|sc0 scs].
      * simpl. split; [intros _; lia | reflexivity].
      * destruct (xfade_loop _ _ _ _ _ _) eqn:Ex.
        -- split; [intro Hc; discriminate Hc|]. intros (_ & _ & H).
           assert (Hn : xfade_loop (length frames - 1) 0 (length frames) (LV 0)
                         (duration sc0) (sc0 :: scs) = None) by (apply xfade_loop_none; lia).
           congruence.
        -- apply xfade_loop_none in Ex. split; [intros _; lia | reflexivity].
    + apply Nat.ltb_ge in E. split; [discriminate | lia].
  - split; [discriminate | intros [H _]; discriminate].
Qed.

(** X1: Building the FFmpeg filter graph fails with an index error exactly when transitions are enabled, there are at least two frames and there are more frames than scenes. Whenever it succeeds, it emits one scale filter per frame that has a scene, so min(#frames, #scenes) of them. *)
Theorem build_filter_graph_index_error (frames : list GeneratedFrame) (scenes : list Scene)
    (enable_transitions : bool) :
  (build_filter_graph frames scenes enable_transitions = None <->
   (enable_transitions = true /\ 2 <= length frames /\ length scenes < length frames)%nat) /\
  (forall g, build_filter_graph frames scenes enable_transitions = Some g ->
     scale_parts g = scale_loop 0 frames scenes /\
     length (scale_parts g) = Nat.min (length frames) (length scenes)).
Proof.
  split; [apply build_filter_graph_none|].
  intros g. unfold build_filter_graph.
  destruct (enable_transitions && Nat.ltb 1 (length frames)).
  - destruct scenes as [|sc0 scs]; [discriminate|].
    destruct (xfade_loop _ _ _ _ _ _); [|discriminate].
    intros [= <-]. simpl. split; [reflexivity | apply scale_loop_length].
  - intros [= <-]. simpl. split; [reflexivity | apply scale_loop_length].
Qed.

Lemma xfade_loop_chain (fuel i n : nat) (cur : label) (cum : Q) (scenes : list Scene) :
  (i + fuel < length scenes)%nat ->
  exists xs,
    xfade_loop fuel i n cur cum scenes = Some xs /\ length xs = fuel /\
    (forall k x, nth_error xs k = Some x ->
       xf_in1 x = match k with O => cur | S k' => LXF (i + k') end /\
       xf_in2 x = LV (S (i + k)) /\
       xf_out x = (if Nat.ltb (i + k) (n - 2) then LXF (i + k) else LOutv) /\
       xf_name x = get_xfade_transition (transition (nth (i + k) scenes default_scene))).
Proof.
  revert i cur cum. induction fuel as [|fuel IH]; intros i cur cum Hlen.
  - exists []. split; [reflexivity | split; [reflexivity|]].
    intros k x Hk. destruct k; discriminate.
  - cbn [xfade_loop].
    destruct (nth_error scenes i) as [scene|] eqn:Hi;
      [| apply nth_error_None in Hi; lia].
    destruct (nth_error scenes (S i)) as [next|] eqn:Hi1;
      [| apply nth_error_None in Hi1; lia].
    cbv zeta.
    destruct (IH (S i) (LXF i)
                (py_max 0 (cum - get_transition_duration (transition scene)) + duration next))
      as (xs & Hxs & Hl & Hk); [lia|].
    rewrite Hxs. eexists. split; [reflexivity | split; [simpl; now rewrite Hl|]].
    intros [|k] x Hx.
    + simpl in Hx. injection Hx as <-. simpl. rewrite Nat.add_0_r.
      rewrite (nth_error_nth_scene _ _ _ Hi). repeat split; reflexivity.
    + simpl in Hx. destruct (Hk k x Hx) as (H1 & H2 & H3 & H4).
      replace (i + S k)%nat with (S i + k)%nat by lia.
      repeat split; auto. rewrite H1. destruct k; f_equal; lia.
Qed.

(** X2: With transitions enabled and 2 <= #frames <= #scenes, the filter graph is a chain of #frames-1 xfade filters. Filter i reads the previous xfade output (input 0 for i = 0) and input i+1, writes the next label or the final output label, and uses the xfade transition of scene i. *)
Theorem build_filter_graph_xfade_chain (frames : list GeneratedFrame) (scenes : list Scene) :
  (2 <= length frames <= length scenes)%nat ->
  exists xs,
    build_filter_graph frames scenes true = Some (mkGraph (scale_loop 0 frames scenes) (Xfades xs)) /\
    length xs = (length frames - 1)%nat /\
    (forall i x, nth_error xs i = Some x ->
       xf_in1 x = match i with O => LV 0 | S j => LXF j end /\
       xf_in2 x = LV (S i) /\
       xf_out x = (if Nat.ltb i (length frames - 2) then LXF i else LOutv) /\
       xf_name x = get_xfade_transition (transition (nth i scenes default_scene))).
Proof.
  intros Hlen. unfold build_filter_graph.
  replace (Nat.ltb 1 (length frames)) with true by (symmetry; apply Nat.ltb_lt; lia).
  destruct scenes as [|sc0 scs] eqn:Hsc; [simpl in Hlen; lia|]. rewrite <- Hsc in *.
  destruct (xfade_loop_chain (length frames - 1) 0 (length frames) (LV 0) (duration sc0) scenes)
    as (xs & Hxs & Hl & Hk); [lia|].
  simpl. rewrite Hxs. exists xs. split; [reflexivity | split; [exact Hl|]].
  intros i x Hx. destruct (Hk i x Hx) as (H1 & H2 & H3 & H4). simpl in *.
  repeat split; auto.
Qed.




Definition x_frames : list GeneratedFrame :=
  [mkFrame 1 0 "u1" "/out/scene_01_frame_00.png"; mkFrame 2 0 "u2" "/out/scene_02_frame_00.png";
   mkFrame 3 0 "u3" "/out/scene_03_frame_00.png"].

Definition x_scenes : list Scene :=
  [mkScene 1 2 "fade"; mkScene 2 3 "cut"; mkScene 3 2 "slide"].

Definition x_scenes4 : list Scene := (x_scenes ++ [mkScene 4 1 "dissolve"])%list.

Lemma build_filter_graph_xfade_chain_witness :
  (2 <= length x_frames <= length x_scenes4)%nat /\
  exists xs,
    build_filter_graph x_frames x_scenes4 true
      = Some (mkGraph (scale_loop 0 x_frames x_scenes4) (Xfades xs)) /\
    length xs = (length x_frames - 1)%nat /\
    (forall i x, nth_error xs i = Some x ->
       xf_in1 x = match i with O => LV 0 | S j => LXF j end /\
       xf_in2 x = LV (S i) /\
       xf_out x = (if Nat.ltb i (length x_frames - 2) then LXF i else LOutv) /\
       xf_name x = get_xfade_transition (transition (nth i x_scenes4 default_scene))).
Proof.
  split; [simpl; lia|].
  apply build_filter_graph_xfade_chain. simpl; lia.
Defined.

End CompositeVideoProofs.

(** *** [fibo_client.py]: [with_retry] *)
Module RetryExtraProofs.
Import Retry RetrySpec RetryProofs.

Section Loop.
Context {A : Type}.
Variables (max_retries : Z) (base_delay max_delay : Q) (func : nat -> Outcome A).

Lemma retry_loop_stop (fuel attempt : nat) (last : option Exn) :
  retryable_failure (func attempt) = false ->
  retry_loop max_retries base_delay max_delay func (S fuel) attempt last
  = ([Attempt attempt], func attempt).
Proof.
  intros H. cbn [retry_loop]. unfold retryable_failure in H.
  destruct (func attempt) as [v|e]; [reflexivity|].
  destruct (fibo_retryable e) as [[|]|]; [discriminate | reflexivity |].
  now rewrite H.
Qed.

Lemma retry_loop_overflow (fuel attempt : nat) (last : option Exn) :
  retryable_failure (func attempt) = true ->
  (Z.of_nat attempt < max_retries)%Z -> (1024 <= attempt)%nat ->
  retry_loop max_retries base_delay max_delay func (S fuel) attempt last
  = ([Attempt attempt], Raise delay_overflow).
Proof.
  intros Hr Hlt Hov. cbn [retry_loop]. unfold retryable_failure in Hr.
  destruct (func attempt) as [v|e]; [discriminate|].
  assert (Hgeb : Z.geb (Z.of_nat attempt) max_retries = false)
    by (rewrite Z.geb_leb; apply Z.leb_gt; lia).
  assert (Hltb : Nat.ltb attempt 1024 = false) by (apply Nat.ltb_ge; lia).
  unfold retry_or_give_up. rewrite Hgeb, Hltb.
  destruct (fibo_retryable e) as [r|]; [subst r; reflexivity|]. now rewrite Hr.
Qed.

Lemma retry_loop_shape (fuel attempt : nat) (last : option Exn) :
  (Z.of_nat attempt + Z.of_nat fuel = max_retries + 1)%Z -> (0 < fuel)%nat ->
  (attempt <= 1024)%nat ->
  exists k, (attempt <= k)%nat /\ (Z.of_nat k <= max_retries)%Z /\ (k <= 1024)%nat /\
    (forall j, (attempt <= j < k)%nat -> retryable_failure (func j) = true) /\
    ((retryable_failure (func k) = false /\
      retry_loop max_retries base_delay max_delay func fuel attempt last
      = ((flat_map (fun j => [Attempt j; Sleep (backoff_delay base_delay max_delay j)])
                   (seq attempt (k - attempt)) ++ [Attempt k])%list, func k)) \/
     (Z.of_nat k = max_retries /\ exists e, func k = Raise e /\
      retryable_failure (func k) = true /\
      retry_loop max_retries base_delay max_delay func fuel attempt last
      = ((flat_map (fun j => [Attempt j; Sleep (backoff_delay base_delay max_delay j)])
                   (seq attempt (k - attempt)) ++ [Attempt k])%list,
         Raise (exhausted max_retries e))) \/
     (k = 1024%nat /\ (Z.of_nat k < max_retries)%Z /\ retryable_failure (func k) = true /\
      retry_loop max_retries base_delay max_delay func fuel attempt last
      = ((flat_map (fun j => [Attempt j; Sleep (backoff_delay base_delay max_delay j)])
                   (seq attempt (k - attempt)) ++ [Attempt k])%list,
         Raise delay_overflow))).
Proof.
  revert attempt last. induction fuel as [|fuel IH]; intros attempt last Hsum Hpos Hle; [lia|].
  destruct (retryable_failure (func attempt)) eqn:Er.
  - destruct (Z.ltb (Z.of_nat attempt) max_retries) eqn:Elt.
    + apply Z.ltb_lt in Elt.
      destruct (Nat.lt_ge_cases attempt 1024) as [Hov | Hov].
      * destruct (retry_loop_retry max_retries base_delay max_delay func fuel attempt last
                    Er Elt Hov) as (e & He & Heq).
        destruct (IH (S attempt) (Some e)) as (k & Hk1 & Hk2 & Hk0 & Hk3 & Hk4);
          [lia | lia | lia |].
        exists k. split; [lia|]. split; [exact Hk2|]. split; [exact Hk0|]. split.
        -- intros j Hj. destruct (Nat.eq_dec j attempt) as [->|]; [exact Er|]. apply Hk3. lia.
        -- replace (k - attempt)%nat with (S (k - S attempt)) by lia. cbn [seq flat_map].
           rewrite Heq.
           destruct Hk4 as [(H1 & H2) | [(H1 & e' & H2 & H3 & H4) | (H1 & H2 & H3 & H4)]].
           ++ left. split; [exact H1|]. rewrite H2. reflexivity.
           ++ right; left. split; [exact H1|]. exists e'. split; [exact H2|].
              split; [exact H3|]. rewrite H4. reflexivity.
           ++ right; right. split; [exact H1|]. split; [exact H2|]. split; [exact H3|].
              rewrite H4. reflexivity.
      * exists attempt. split; [lia|]. split; [lia|]. split; [lia|].
        split; [intros j Hj; lia|].
        right; right. split; [lia|]. split; [exact Elt|]. split; [exact Er|].
        rewrite Nat.sub_diag. cbn [seq flat_map app].
        apply retry_loop_overflow; [exact Er | exact Elt | exact Hov].
    + apply Z.ltb_ge in Elt.
      assert (Hf : exists e, func attempt = Raise e).
      { unfold retryable_failure in Er. destruct (func attempt) as [v|e]; [discriminate|].
        now exists e. }
      destruct Hf as [e He].
      exists attempt. split; [lia|]. split; [lia|]. split; [lia|].
      split; [intros j Hj; lia|].
      right; left. split; [lia|]. exists e. split; [exact He|]. split; [exact Er|].
      rewrite Nat.sub_diag. cbn [seq flat_map app].
      apply (retry_loop_give_up max_retries base_delay max_delay func fuel attempt last e He Er).
      lia.
  - exists attempt. split; [lia|]. split; [lia|]. split; [lia|].
    split; [intros j Hj; lia|].
    left. split; [exact Er|]. rewrite Nat.sub_diag. cbn [seq flat_map app].
    apply retry_loop_stop. exact Er.
Qed.

End Loop.

(** X4: For max_retries >= 0, the retry wrapper runs attempts 0..k with k <= max_retries and k <= 1024, and every attempt before k fails retryably. Either attempt k's outcome (a success or a non-retryable failure) is returned after the backoff sleeps; or k = max_retries and the retryable failure is wrapped in FIBORetryExhaustedError carrying it; or k = 1024 < max_retries, the failure at attempt 1024 is retryable, and computing its delay raises OverflowError('int too large to convert to float'). *)
Theorem with_retry_shape {A : Type} (func : nat -> Outcome A)
    (max_retries : Z) (base_delay max_delay : Q) :
  (0 <= max_retries)%Z ->
  exists k, (Z.of_nat k <= max_retries)%Z /\ (k <= 1024)%nat /\
    (forall j, (j < k)%nat -> retryable_failure (func j) = true) /\
    ((retryable_failure (func k) = false /\
      with_retry max_retries base_delay max_delay func
      = ((backoff_prefix base_delay max_delay k ++ [Attempt k])%list, func k)) \/
     (Z.of_nat k = max_retries /\ exists e, func k = Raise e /\
      retryable_failure (func k) = true /\
      with_retry max_retries base_delay max_delay func
      = ((backoff_prefix base_delay max_delay k ++ [Attempt k])%list,
         Raise (FIBORetryExhaustedError
                  ("Failed after " ++ str_of_Z max_retries ++ " retries: " ++ exn_message e)
                  (Some e)))) \/
     (k = 1024%nat /\ (Z.of_nat k < max_retries)%Z /\ retryable_failure (func k) = true /\
      with_retry max_retries base_delay max_delay func
      = ((backoff_prefix base_delay max_delay k ++ [Attempt k])%list,
         Raise (OtherError "int too large to convert to float")))).
Proof.
  intros Hm.
  destruct (retry_loop_shape max_retries base_delay max_delay func
              (Z.to_nat (max_retries + 1)) 0 None) as (k & _ & Hk2 & Hk0 & Hk3 & Hk4);
    [lia | lia | lia |].
  rewrite Nat.sub_0_r in Hk4.
  exists k. split; [exact Hk2|]. split; [exact Hk0|]. split; [intros j Hj; apply Hk3; lia|].
  unfold with_retry, backoff_prefix. exact Hk4.
Qed.

(** X5: With a negative max_retries, the wrapper never calls the function. It raises FIBORetryExhaustedError('Failed after <n> retries') with no last error. *)
Theorem with_retry_negative_retries {A : Type} (func : nat -> Outcome A)
    (max_retries : Z) (base_delay max_delay : Q) :
  (max_retries < 0)%Z ->
  with_retry max_retries base_delay max_delay func
  = ([], Raise (FIBORetryExhaustedError
                  ("Failed after " ++ str_of_Z max_retries ++ " retries") None)).
Proof.
  intros Hm. unfold with_retry.
  replace (Z.to_nat (max_retries + 1)) with 0%nat by lia. reflexivity.
Qed.

Lemma py_min_le_r (a b : Q) : py_min a b <= b.
Proof.
  unfold py_min. destruct (Qlt_le_dec b a) as [H|H]; [apply Qle_refl | exact H].
Qed.

Lemma retry_loop_sleeps {A : Type} (max_retries : Z) (base_delay max_delay : Q)
    (func : nat -> Outcome A) (fuel attempt : nat) (last : option Exn) :
  (forall d, In d (sleeps (fst (retry_loop max_retries base_delay max_delay func fuel attempt last)))
     -> d <= max_delay) /\
  (length (sleeps (fst (retry_loop max_retries base_delay max_delay func fuel attempt last)))
     <= Z.to_nat max_retries - attempt)%nat.
Proof.
  revert attempt last. induction fuel as [|fuel IH]; intros attempt last.
  - simpl. split; [intros d []|lia].
  - cbn [retry_loop]. unfold retry_or_give_up.
    destruct (func attempt) as [v|e]; [simpl; split; [intros d []|lia]|].
    destruct (IH (S attempt) (Some e)) as [H1 H2].
    destruct (retry_loop max_retries base_delay max_delay func fuel (S attempt) (Some e))
      as [evs r] eqn:E. simpl in H1, H2.
    destruct (Z.geb (Z.of_nat attempt) max_retries) eqn:Eg.
    + destruct (fibo_retryable e) as [[|]|]; simpl;
        try (destruct (is_httpx e)); simpl; split; try (intros d []); lia.
    + rewrite Z.geb_leb in Eg. apply Z.leb_gt in Eg.
      assert (Hs : (forall d, In d (sleeps (Attempt attempt
                      :: Sleep (backoff_delay base_delay max_delay attempt) :: evs)) -> d <= max_delay)
                   /\ (length (sleeps (Attempt attempt
                      :: Sleep (backoff_delay base_delay max_delay attempt) :: evs))
                      <= Z.to_nat max_retries - attempt)%nat).
      { simpl. split; [intros d [<- | Hd]; [apply py_min_le_r | auto] | lia]. }
      destruct (Nat.ltb attempt 1024);
      destruct (fibo_retryable e) as [[|]|]; simpl;
        try (destruct (is_httpx e)); simpl; try exact Hs; split; try (intros d []); lia.
Qed.

Lemma qsum_le_length (l : list Q) (m : Q) :
  (forall d, In d l -> d <= m) -> fold_right Qplus 0 l <= inject_Z (Z.of_nat (length l)) * m.
Proof.
  induction l as [|x l IH]; intros H; cbn [fold_right length].
  - unfold Qle. simpl. lia.
  - rewrite Nat2Z.inj_succ, <- Z.add_1_l, inject_Z_plus.
    setoid_replace ((inject_Z 1 + inject_Z (Z.of_nat (length l))) * m)
      with (m + inject_Z (Z.of_nat (length l)) * m) by (unfold inject_Z; ring).
    apply Qplus_le_compat; [apply H; now left | apply IH; intros d Hd; apply H; now right].
Qed.

(** X6: Every sleep of the retry wrapper is at most max_delay, and it sleeps at most max_retries times. With max_delay >= 0, the total sleep time is at most max_retries * max_delay. *)
Theorem with_retry_sleep_bound {A : Type} (func : nat -> Outcome A)
    (max_retries : Z) (base_delay max_delay : Q) :
  (forall d, In d (sleeps (fst (with_retry max_retries base_delay max_delay func))) ->
     d <= max_delay) /\
  (length (sleeps (fst (with_retry max_retries base_delay max_delay func)))
     <= Z.to_nat max_retries)%nat /\
  (0 <= max_delay ->
   sleep_total (fst (with_retry max_retries base_delay max_delay func))
   <= inject_Z (Z.of_nat (Z.to_nat max_retries)) * max_delay).
Proof.
  destruct (retry_loop_sleeps max_retries base_delay max_delay func
              (Z.to_nat (max_retries + 1)) 0 None) as [H1 H2].
  rewrite Nat.sub_0_r in H2. unfold with_retry.
  split; [exact H1|]. split; [exact H2|]. intros Hm.
  unfold sleep_total.
  apply (Qle_trans _ _ _ (qsum_le_length _ _ H1)).
  apply Qmult_le_compat_r; [|exact Hm].
  rewrite <- Zle_Qle. lia.
Qed.

Definition x_func (k : nat) : Outcome nat :=
  match k with
  | O => Raise (FIBOError "Request to FIBO API timed out" "FIBO_TIMEOUT" true)
  | S O => Raise (HttpxError "connection reset")
  | _ => Ok 7%nat
  end.

Lemma with_retry_shape_witness :
  (0 <= 3)%Z /\
  exists k, (Z.of_nat k <= 3)%Z /\ (k <= 1024)%nat /\
    (forall j, (j < k)%nat -> retryable_failure (x_func j) = true) /\
    ((retryable_failure (x_func k) = false /\
      with_retry 3 1 10 x_func = ((backoff_prefix 1 10 k ++ [Attempt k])%list, x_func k)) \/
     (Z.of_nat k = 3%Z /\ exists e, x_func k = Raise e /\
      retryable_failure (x_func k) = true /\
      with_retry 3 1 10 x_func
      = ((backoff_prefix 1 10 k ++ [Attempt k])%list,
         Raise (FIBORetryExhaustedError
                  ("Failed after " ++ str_of_Z 3 ++ " retries: " ++ exn_message e) (Some e)))) \/
     (k = 1024%nat /\ (Z.of_nat k < 3)%Z /\ retryable_failure (x_func k) = true /\
      with_retry 3 1 10 x_func
      = ((backoff_prefix 1 10 k ++ [Attempt k])%list,
         Raise (OtherError "int too large to convert to float")))).
Proof.
  split; [lia|]. apply with_retry_shape. lia.
Defined.

Lemma with_retry_negative_retries_witness :
  (-1 < 0)%Z /\
  with_retry (-1) 1 10 x_func
  = ([], Raise (FIBORetryExhaustedError ("Failed after " ++ str_of_Z (-1) ++ " retries") None)).
Proof.
  split; [lia|]. apply with_retry_negative_retries. lia.
Defined.

End RetryExtraProofs.

(** *** [parameter_modification.py]: [_get_nested_value], [_set_nested_value] and the modification branches *)

Module NestedValueProofs.
Import PyModel Models ParameterModification ParameterModificationSpec NestedValue
  ParameterModificationProofs.

Lemma assoc_get_put_same {V : Type} (k : string) (v : V) (l : list (string * V)) :
  assoc_get k (assoc_put k v l) = Some v.
Proof.
  induction l as [|[k' v'] l IH]; cbn [assoc_put assoc_get].
  - now rewrite String.eqb_refl.
  - destruct (String.eqb k k') eqn:E; cbn [assoc_get]; rewrite E; [reflexivity | exact IH].
Qed.

Lemma assoc_get_put_other {V : Type} (k k' : string) (v : V) (l : list (string * V)) :
  k <> k' -> assoc_get k' (assoc_put k v l) = assoc_get k' l.
Proof.
  intros Hne. induction l as [|[k0 v0] l IH]; cbn [assoc_put assoc_get].
  - destruct (String.eqb k' k) eqn:E; [apply String.eqb_eq in E; congruence | reflexivity].
  - destruct (String.eqb k k0) eqn:E; cbn [assoc_get].
    + apply String.eqb_eq in E. subst k0.
      destruct (String.eqb k' k) eqn:E'; [apply String.eqb_eq in E'; congruence | reflexivity].
    + now rewrite IH.
Qed.

Lemma get_step_kind (path part : string) (cur x : pyval) :
  plain_name part = true ->
  get_step path part cur = inr x ->
  (exists kvs, cur = PDict kvs /\ assoc_get part kvs = Some x) \/
  (exists c fs, cur = PObj c fs /\ assoc_get part fs = Some x).
Proof.
  intros Hp. pose proof (plain_name_not_dict part Hp) as Hnd.
  unfold get_step, py_hasattr, py_getattr.
  destruct cur as [| | | | | |kvs|c fs]; intros H; try discriminate H.
  - left. exists kvs. destruct (assoc_get part kvs); [injection H as <-; auto | discriminate].
  - right. exists c, fs. rewrite Hnd in H. cbn [orb] in H.
    destruct (assoc_get part fs); [injection H as <-; auto | discriminate].
Qed.

Ltac plain_step Hp Hk :=
  let Hnd := fresh "Hnd" in
  pose proof (plain_name_not_dict _ Hp) as Hnd;
  unfold get_step, put_back, py_hasattr, py_getattr; rewrite ?Hnd; cbn [orb];
  rewrite ?assoc_get_put_same, ?assoc_get_put_other, ?Hk.

(** A successful step does not depend on the path it reports. *)
Lemma get_step_path (path path' part : string) (cur x : pyval) :
  plain_name part = true ->
  get_step path part cur = inr x -> get_step path' part cur = inr x.
Proof.
  intros Hp H. destruct (get_step_kind _ _ _ _ Hp H) as [(kvs & -> & Hk) | (c & fs & -> & Hk)];
    plain_step Hp Hk; reflexivity.
Qed.

Lemma get_step_put_back (path path' part : string) (cur x child : pyval) :
  plain_name part = true ->
  get_step path part cur = inr x -> get_step path' part (put_back part cur child) = inr child.
Proof.
  intros Hp H. destruct (get_step_kind _ _ _ _ Hp H) as [(kvs & -> & Hk) | (c & fs & -> & Hk)];
    plain_step Hp Hk; now rewrite ?Hnd, ?assoc_get_put_same.
Qed.

Lemma get_step_put_back_other (path path' a b : string) (cur x child : pyval) :
  plain_name a = true -> plain_name b = true ->
  a <> b -> get_step path a cur = inr x ->
  get_step path' b (put_back a cur child) = get_step path' b cur.
Proof.
  intros Ha Hb Hab H.
  pose proof (plain_name_not_dict _ Hb) as Hndb.
  destruct (get_step_kind _ _ _ _ Ha H) as [(kvs & -> & Hk) | (c & fs & -> & Hk)];
    plain_step Ha Hk; rewrite ?Hndb; cbn [orb]; now rewrite ?assoc_get_put_other.
Qed.

Lemma set_final_kind (path a : string) (cur v cur' : pyval) :
  plain_name a = true ->
  set_final path a cur v = inr cur' ->
  (exists kvs, cur = PDict kvs /\ cur' = PDict (assoc_put a v kvs)) \/
  (exists c fs x, cur = PObj c fs /\ assoc_get a fs = Some x /\ cur' = PObj c (assoc_put a v fs)).
Proof.
  intros Hp. pose proof (plain_name_not_dict a Hp) as Hnd.
  unfold set_final, py_hasattr, py_setattr.
  destruct cur as [| | | | | |kvs|c fs]; intros H; try discriminate H.
  - injection H as <-. left. exists kvs. auto.
  - rewrite Hnd in H. cbn [orb] in H.
    destruct (assoc_get a fs) as [x|] eqn:Ex; [|discriminate]. injection H as <-.
    right. exists c, fs, x. auto.
Qed.

Lemma set_in_cons (path part : string) (cur v : pyval) (rest : list string) :
  rest <> [] ->
  set_in path cur (part :: rest) v =
  match get_step path part cur with
  | inl e => inl e
  | inr child =>
      match set_in path child rest v with
      | inl e => inl e
      | inr child' => inr (put_back part cur child')
      end
  end.
Proof. destruct rest; [congruence | reflexivity]. Qed.


Lemma set_in_other (path path' : string) (a b : string) (r1 r2 : list string) (pre : list string) :
  Forall (fun s => plain_name s = true) (pre ++ a :: r1) ->
  Forall (fun s => plain_name s = true) (pre ++ b :: r2) ->
  a <> b ->
  forall cur v cur', set_in path cur (pre ++ a :: r1) v = inr cur' ->
  get_in path' cur' (pre ++ b :: r2) = get_in path' cur (pre ++ b :: r2).
Proof.
  intros Hpl1 Hpl2 Hab. revert Hpl1 Hpl2.
  induction pre as [|p pre IH]; intros Hpl1 Hpl2 cur v cur' H; simpl app in *.
  - inversion Hpl1 as [|? ? Ha _]; subst. inversion Hpl2 as [|? ? Hb _]; subst.
    pose proof (plain_name_not_dict _ Hb) as Hndb.
    destruct r1 as [|c r1].
    + cbn [set_in] in H. cbn [get_in].
      destruct (set_final_kind _ _ _ _ _ Ha H) as [(kvs & -> & ->) | (c & fs & x & -> & Hx & ->)];
        unfold get_step, py_hasattr, py_getattr; rewrite ?Hndb; cbn [orb];
        now rewrite assoc_get_put_other.
    + rewrite set_in_cons in H by discriminate.
      destruct (get_step path a cur) as [e|child] eqn:Hs; [discriminate|].
      destruct (set_in path child (c :: r1) v) as [e|child'] eqn:Hc; [discriminate|].
      injection H as <-. cbn [get_in].
      now rewrite (get_step_put_back_other path path' a b cur child child' Ha Hb Hab Hs).
  - inversion Hpl1 as [|? ? Hp Hpl1']; subst. inversion Hpl2 as [|? ? _ Hpl2']; subst.
    rewrite set_in_cons in H by (destruct pre; discriminate).
    destruct (get_step path p cur) as [e|child] eqn:Hs; [discriminate|].
    destruct (set_in path child (pre ++ a :: r1) v) as [e|child'] eqn:Hc; [discriminate|].
    injection H as <-. cbn [get_in].
    rewrite (get_step_put_back path path' p cur child child' Hp Hs).
    rewrite (get_step_path path path' p cur child Hp Hs).
    exact (IH Hpl1' Hpl2' _ _ _ Hc).
Qed.


(** X8: Take a successful _set_nested_value at one dot path of plain names. Reading any other path of plain names that diverges from it at some segment returns what it returned before the update. *)
Theorem set_nested_value_other_paths (obj : pyval) (path path' : string) (value obj' : pyval)
    (pre r1 r2 : list string) (a b : string) :
  Forall (fun s => plain_name s = true) (split_dot path) ->
  Forall (fun s => plain_name s = true) (split_dot path') ->
  _set_nested_value obj path value = inr obj' ->
  split_dot path = (pre ++ a :: r1)%list -> split_dot path' = (pre ++ b :: r2)%list -> a <> b ->
  _get_nested_value obj' path' = _get_nested_value obj path'.
Proof.
  unfold _set_nested_value, _get_nested_value. intros Hpl1 Hpl2 H Hp Hp' Hab.
  rewrite Hp in H, Hpl1. rewrite Hp' in Hpl2 |- *.
  exact (set_in_other path path' a b r1 r2 pre Hpl1 Hpl2 Hab _ _ _ H).
Qed.

Definition x_scene (n : Z) : SceneParameters :=
  mkSceneParameters n 3 "A bottle on a marble table"
    (mkCamera "close-up" "product_hero")
    (mkLighting "soft-studio" "front" "medium")
    (mkComposition "center" "marble" "shallow")
    (mkStyle ["#FFFFFF"; "#000000"] (Some "glass") "calm" "minimal")
    "fade".


Lemma set_nested_value_other_paths_witness :
  Forall (fun s => plain_name s = true) (split_dot "style.material") /\
  Forall (fun s => plain_name s = true) (split_dot "style.mood") /\
  _set_nested_value (scene_to_py (x_scene 1)) "style.material" (PStr "leather")
    = inr (scene_to_py (set_material (x_scene 1) (Some "leather"))) /\
  split_dot "style.material" = (["style"] ++ "material" :: [])%list /\
  split_dot "style.mood" = (["style"] ++ "mood" :: [])%list /\ "material" <> "mood" /\
  _get_nested_value (scene_to_py (set_material (x_scene 1) (Some "leather"))) "style.mood"
    = _get_nested_value (scene_to_py (x_scene 1)) "style.mood".
Proof.
  assert (H : _set_nested_value (scene_to_py (x_scene 1)) "style.material" (PStr "leather")
              = inr (scene_to_py (set_material (x_scene 1) (Some "leather"))))
    by (vm_compute; reflexivity).
  assert (H1 : split_dot "style.material" = (["style"] ++ "material" :: [])%list)
    by (vm_compute; reflexivity).
  assert (H2 : split_dot "style.mood" = (["style"] ++ "mood" :: [])%list)
    by (vm_compute; reflexivity).
  assert (H3 : "material" <> "mood") by discriminate.
  assert (Hpl1 : Forall (fun s => plain_name s = true) (split_dot "style.material"))
    by (repeat constructor).
  assert (Hpl2 : Forall (fun s => plain_name s = true) (split_dot "style.mood"))
    by (repeat constructor).
  split; [exact Hpl1|]. split; [exact Hpl2|].
  split; [exact H|]. split; [exact H1|]. split; [exact H2|]. split; [exact H3|].
  exact (set_nested_value_other_paths _ _ _ _ _ _ _ _ _ _ Hpl1 Hpl2 H H1 H2 H3).
Defined.

End NestedValueProofs.

Module ModificationBranchProofs.
Import PyModel Models ParameterModification ParameterModificationSpec NestedValue
  GlobalModificationSpec ParameterModificationProofs NestedValueProofs.

Abbreviation in_t t p := (in_targets t (PInt (sp_scene_number p))).

(** The loop when the step succeeds on every targeted scene and keeps its
    number. *)
Lemma mod_loop_ok (step : pyval -> PyErr + pyval) (path : string) (t : Targets)
    (f : SceneParameters -> pyval) (l : list SceneParameters) :
  (forall p, In p l -> in_t t p = true ->
     step (scene_to_py p) = inr (f p) /\
     py_getattr (f p) "scene_number" = inr (PInt (sp_scene_number p))) ->
  forall st, exists pres,
    mod_loop step path t (map scene_to_py l) st =
    (None,
     mkLoopState (rev (map (fun p => if in_t t p then f p else scene_to_py p) l) ++ done_rev st)
       (mods st ++ map (fun p => PInt (sp_scene_number p)) (filter (fun p => in_t t p) l))
       (regen st ++ map (fun p => PInt (sp_scene_number p)) (filter (fun p => in_t t p) l))
       pres,
     []).
Proof.
  intros Hf. induction l as [|p l IH]; intros st.
  - exists (preserved st). destruct st; simpl. now rewrite !app_nil_r.
  - cbn [map mod_loop]. rewrite scene_number_of_scene.
    assert (Hl : forall q, In q l -> in_t t q = true ->
                 step (scene_to_py q) = inr (f q) /\
                 py_getattr (f q) "scene_number" = inr (PInt (sp_scene_number q)))
      by (intros q Hq; apply Hf; now right).
    destruct (in_t t p) eqn:Et.
    + destruct (extract_of_scene p path) as [snap Hsnap]. rewrite Hsnap.
      unfold pydict_set at 1. cbn [py_key].
      destruct (Hf p (or_introl eq_refl) Et) as [Hs Hn]. rewrite Hs, Hn.
      destruct (IH Hl (mkLoopState (f p :: done_rev st) (mods st ++ [PInt (sp_scene_number p)])
                        (regen st ++ [PInt (sp_scene_number p)])
                        (pydict_put (PInt (sp_scene_number p)) (KNum (inject_Z (sp_scene_number p)))
                           snap (preserved st)))) as [pres Hpres].
      exists pres. rewrite Hpres. cbn [done_rev mods regen map filter rev]. rewrite Et.
      cbn [map rev]. rewrite <- !app_assoc. reflexivity.
    + destruct (IH Hl (mkLoopState (scene_to_py p :: done_rev st) (mods st) (regen st)
                        (preserved st))) as [pres Hpres].
      exists pres. rewrite Hpres. cbn [done_rev mods regen map filter rev]. rewrite Et.
      cbn [rev]. rewrite <- !app_assoc. reflexivity.
Qed.

Lemma targets_in_t (l : list Z) (p : SceneParameters) :
  in_t (match l with [] => AllScenes | z :: l0 => Numbers (z :: l0) end) p = targeted l p.
Proof. destruct l; reflexivity. Qed.

Lemma map_targets (l : list Z) (g h : SceneParameters -> pyval) (ps : list SceneParameters) :
  map (fun p => if in_t (match l with [] => AllScenes | z :: l0 => Numbers (z :: l0) end) p then g p else h p) ps
  = map (fun p => if targeted l p then g p else h p) ps.
Proof. apply map_ext. intros p. now rewrite targets_in_t. Qed.

Lemma filter_targets (l : list Z) (ps : list SceneParameters) :
  filter (fun p => in_t (match l with [] => AllScenes | z :: l0 => Numbers (z :: l0) end) p) ps
  = filter (targeted l) ps.
Proof. apply filter_ext. intros p. apply targets_in_t. Qed.

Lemma finish_ok (sb : StoryboardObj) (scs : list pyval) (ms rs : list pyval) pres :
  finish sb (None, mkLoopState (rev scs ++ []) ms rs pres, [])
  = (with_scenes sb scs, mkResult true ms rs pres None).
Proof. unfold finish. cbn [done_rev mods regen preserved]. now rewrite !app_nil_r, rev_involutive. Qed.


(** Along a path of plain names each of which is an attribute,
    [_set_nested_value] succeeds, and on a model instance it only
    replaces the first field of the path. *)
Lemma set_in_exists (path : string) (value : pyval) (parts : list string) :
  forall v, parts <> [] -> Forall (fun s => plain_name s = true) parts ->
  path_exists v parts = true ->
  exists v', set_in path v parts value = inr v'.
Proof.
  induction parts as [|a parts IH]; intros v Hne Hpl Hp; [congruence|].
  inversion Hpl as [|? ? Ha Hpl']; subst.
  pose proof (plain_name_not_dict a Ha) as Hnd.
  cbn [path_exists] in Hp. unfold py_hasattr, py_getattr in Hp.
  destruct v as [| | | | | |kvs|c fs]; try discriminate Hp.
  rewrite Hnd in Hp. cbn [orb] in Hp.
  destruct (assoc_get a fs) as [x|] eqn:Ex; [|discriminate Hp].
  destruct parts as [|b parts].
  - cbn [set_in]. unfold set_final, py_hasattr, py_setattr. rewrite Hnd, Ex.
    eexists. reflexivity.
  - rewrite set_in_cons by discriminate. unfold get_step, py_hasattr, py_getattr.
    rewrite Hnd, Ex. cbn [orb].
    destruct (IH x ltac:(discriminate) Hpl' Hp) as [x' Hx']. rewrite Hx'. eexists. reflexivity.
Qed.

Lemma set_in_obj (path a : string) (c : string) (fs : list (string * pyval))
    (rest : list string) (value v' : pyval) :
  plain_name a = true ->
  set_in path (PObj c fs) (a :: rest) value = inr v' ->
  exists x, v' = PObj c (assoc_put a x fs).
Proof.
  intros Ha. pose proof (plain_name_not_dict a Ha) as Hnd.
  destruct rest as [|b rest].
  - cbn [set_in]. unfold set_final, py_hasattr, py_setattr. rewrite Hnd. cbn [orb].
    destruct (assoc_get a fs); [intros [= <-]; eauto | discriminate].
  - rewrite set_in_cons by discriminate.
    destruct (get_step path a (PObj c fs)) as [e|child]; [discriminate|].
    destruct (set_in path child (b :: rest) value) as [e|child']; [discriminate|].
    intros [= <-]. exists child'. unfold put_back. now rewrite Hnd.
Qed.

Lemma set_nested_value_scene_number (p : SceneParameters) (path : string) (value v' : pyval) :
  Forall (fun s => plain_name s = true) (split_dot path) ->
  hd_error (split_dot path) <> Some "scene_number" ->
  _set_nested_value (scene_to_py p) path value = inr v' ->
  py_getattr v' "scene_number" = inr (PInt (sp_scene_number p)).
Proof.
  unfold _set_nested_value. intros Hpl Hhd H.
  destruct (split_dot path) as [|a rest] eqn:Es; [discriminate H|].
  inversion Hpl as [|? ? Ha _]; subst.
  unfold scene_to_py in H. apply set_in_obj in H; [|exact Ha]. destruct H as [x ->].
  unfold py_getattr. cbn [String.eqb Ascii.eqb Bool.eqb andb].
  rewrite assoc_get_put_other; [reflexivity|].
  intros ->. apply Hhd. reflexivity.
Qed.

(** X9: Modifications with path global_material or global_color_palette always succeed. The copy stored as a new object sets that storyboard-level field and rewrites the style of the targeted scenes (the other scenes are unchanged). The modified scenes and frames to regenerate are both the targeted scene numbers, and the existing objects are untouched. *)
Theorem apply_parameter_modification_global (store : Store) (sb_id : nat)
    (sb : EnhancedStoryboard) (value : pyval) (l : list Z) :
  nth_error store sb_id = Some (storyboard_to_py sb) ->
  (exists store' res,
    apply_parameter_modification store sb_id (mkModification "global_material" value l)
      = Some (store', length store, res) /\
    nth_error store' (length store) =
      Some (mkStoryboardObj (brand_name sb) (product_name sb) (total_duration sb) (aspect_ratio sb)
              (map (fun p => if targeted l p
                             then scene_with_style p value (str_list (color_palette (style p)))
                             else scene_to_py p) (scenes sb))
              value (o_global_color_palette (storyboard_to_py sb))) /\
    (forall j, (j < length store)%nat -> nth_error store' j = nth_error store j) /\
    success res = true /\ error res = None /\
    modified_scenes res = map (fun p => PInt (sp_scene_number p)) (filter (targeted l) (scenes sb)) /\
    frames_to_regenerate res = modified_scenes res) /\
  (exists store' res,
    apply_parameter_modification store sb_id (mkModification "global_color_palette" value l)
      = Some (store', length store, res) /\
    nth_error store' (length store) =
      Some (mkStoryboardObj (brand_name sb) (product_name sb) (total_duration sb) (aspect_ratio sb)
              (map (fun p => if targeted l p
                             then scene_with_style p (opt_str (material (style p))) value
                             else scene_to_py p) (scenes sb))
              (opt_str (global_material sb)) value) /\
    (forall j, (j < length store)%nat -> nth_error store' j = nth_error store j) /\
    success res = true /\ error res = None /\
    modified_scenes res = map (fun p => PInt (sp_scene_number p)) (filter (targeted l) (scenes sb)) /\
    frames_to_regenerate res = modified_scenes res).
Proof.
  intros Hsb. split.
  - destruct (apply_parameter_modification_store store sb_id _ (mkModification "global_material" value l) Hsb)
      as (store' & H1 & H2 & H3).
    destruct (mod_loop_ok (style_step "material" value) "style.material"
                (match l with [] => AllScenes | z :: l0 => Numbers (z :: l0) end)
                (fun p => scene_with_style p value (str_list (color_palette (style p))))
                (scenes sb)) with (st := init_state) as [pres Hpres].
    { intros p _ _. split; reflexivity. }
    unfold modify_copy in H1, H2. cbn [parameter_path new_value apply_to_scenes] in H1, H2.
    change (String.prefix "global_" "global_material") with true in H1, H2.
    change (String.eqb "global_material" "global_material") with true in H1, H2.
    cbv iota in H1, H2. cbn [o_scenes with_global_material storyboard_to_py] in H1, H2.
    rewrite Hpres in H1, H2. cbn [done_rev init_state mods regen] in H1, H2.
    rewrite finish_ok in H1, H2. cbn [snd fst] in H1, H2.
    exists store', (mkResult true
      (map (fun p => PInt (sp_scene_number p))
         (filter (fun p => in_t (match l with [] => AllScenes | z :: l0 => Numbers (z :: l0) end) p) (scenes sb)))
      (map (fun p => PInt (sp_scene_number p))
         (filter (fun p => in_t (match l with [] => AllScenes | z :: l0 => Numbers (z :: l0) end) p) (scenes sb)))
      pres None).
    split; [exact H1|]. split.
    + rewrite H2. f_equal. unfold with_scenes. cbn. f_equal. apply map_targets.
    + split; [exact H3|]. cbn. split; [reflexivity|]. split; [reflexivity|].
      split; [now rewrite filter_targets | reflexivity].
  - destruct (apply_parameter_modification_store store sb_id _ (mkModification "global_color_palette" value l) Hsb)
      as (store' & H1 & H2 & H3).
    destruct (mod_loop_ok (style_step "color_palette" value) "style.color_palette"
                (match l with [] => AllScenes | z :: l0 => Numbers (z :: l0) end)
                (fun p => scene_with_style p (opt_str (material (style p))) value)
                (scenes sb)) with (st := init_state) as [pres Hpres].
    { intros p _ _. split; reflexivity. }
    unfold modify_copy in H1, H2. cbn [parameter_path new_value apply_to_scenes] in H1, H2.
    change (String.prefix "global_" "global_color_palette") with true in H1, H2.
    change (String.eqb "global_color_palette" "global_material") with false in H1, H2.
    change (String.eqb "global_color_palette" "global_color_palette") with true in H1, H2.
    cbv iota in H1, H2. cbn [o_scenes with_global_color_palette storyboard_to_py] in H1, H2.
    rewrite Hpres in H1, H2. cbn [done_rev init_state mods regen] in H1, H2.
    rewrite finish_ok in H1, H2. cbn [snd fst] in H1, H2.
    exists store', (mkResult true
      (map (fun p => PInt (sp_scene_number p))
         (filter (fun p => in_t (match l with [] => AllScenes | z :: l0 => Numbers (z :: l0) end) p) (scenes sb)))
      (map (fun p => PInt (sp_scene_number p))
         (filter (fun p => in_t (match l with [] => AllScenes | z :: l0 => Numbers (z :: l0) end) p) (scenes sb)))
      pres None).
    split; [exact H1|]. split.
    + rewrite H2. f_equal. unfold with_scenes. cbn. f_equal. apply map_targets.
    + split; [exact H3|]. cbn. split; [reflexivity|]. split; [reflexivity|].
      split; [now rewrite filter_targets | reflexivity].
Qed.

(** X10: Take a path that is not global_, whose segments are plain names (no dunder such as __dict__, no pydantic API or method name), that exists on every scene and does not start with scene_number. The modification then succeeds. The new storyboard is the copy in which each targeted scene is _set_nested_value(scene, path, value) and the others are unchanged. The modified scenes and frames to regenerate are the targeted scene numbers. *)
Theorem apply_parameter_modification_scene_path (store : Store) (sb_id : nat)
    (sb : EnhancedStoryboard) (path : string) (value : pyval) (l : list Z) :
  nth_error store sb_id = Some (storyboard_to_py sb) ->
  String.prefix "global_" path = false ->
  Forall (fun s => plain_name s = true) (split_dot path) ->
  (forall p, In p (scenes sb) -> path_exists (scene_to_py p) (split_dot path) = true) ->
  hd_error (split_dot path) <> Some "scene_number" ->
  exists store' res new_scenes,
    apply_parameter_modification store sb_id (mkModification path value l)
      = Some (store', length store, res) /\
    nth_error store' (length store) = Some (with_scenes (storyboard_to_py sb) new_scenes) /\
    (forall j, (j < length store)%nat -> nth_error store' j = nth_error store j) /\
    success res = true /\ error res = None /\
    modified_scenes res = map (fun p => PInt (sp_scene_number p)) (filter (targeted l) (scenes sb)) /\
    frames_to_regenerate res = modified_scenes res /\
    Forall2 (fun p s => if targeted l p then _set_nested_value (scene_to_py p) path value = inr s
                        else s = scene_to_py p) (scenes sb) new_scenes.
Proof.
  intros Hsb Hpre Hpl Hex Hhd.
  destruct (apply_parameter_modification_store store sb_id _ (mkModification path value l) Hsb)
    as (store' & H1 & H2 & H3).
  set (f := fun p => match _set_nested_value (scene_to_py p) path value with
                     | inr s => s | inl _ => scene_to_py p end).
  assert (Hf : forall p, In p (scenes sb) ->
             _set_nested_value (scene_to_py p) path value = inr (f p)).
  { intros p Hp. unfold f.
    destruct (set_in_exists path value (split_dot path) (scene_to_py p)
                (split_dot_aux_nonempty path "") Hpl (Hex p Hp)) as [v' Hv'].
    unfold _set_nested_value. now rewrite Hv'. }
  destruct (mod_loop_ok (fun scene => _set_nested_value scene path value) path
              (match l with [] => AllScenes | z :: l0 => Numbers (z :: l0) end)
              f (scenes sb)) with (st := init_state) as [pres Hpres].
  { intros p Hp _. split; [exact (Hf p Hp)|].
    exact (set_nested_value_scene_number p path value (f p) Hpl Hhd (Hf p Hp)). }
  unfold modify_copy in H1, H2. cbn [parameter_path new_value apply_to_scenes] in H1, H2.
  rewrite Hpre in H1, H2. cbv iota in H1, H2. cbn [o_scenes storyboard_to_py] in H1, H2.
  rewrite Hpres in H1, H2. cbn [done_rev init_state mods regen] in H1, H2.
  rewrite finish_ok in H1, H2. cbn [snd fst] in H1, H2.
  eexists store', _, _. split; [exact H1|]. split; [exact H2|].
  split; [exact H3|]. cbn. split; [reflexivity|]. split; [reflexivity|].
  split; [now rewrite filter_targets|]. split; [reflexivity|].
  rewrite map_targets.
  assert (Hall : forall ps, (forall p, In p ps -> In p (scenes sb)) ->
            Forall2 (fun p s => if targeted l p
                                then _set_nested_value (scene_to_py p) path value = inr s
                                else s = scene_to_py p)
              ps (map (fun p => if targeted l p then f p else scene_to_py p) ps)).
  { induction ps as [|p ps IH]; intros Hin; constructor.
    - destruct (targeted l p); [exact (Hf p (Hin p (or_introl eq_refl))) | reflexivity].
    - apply IH. intros q Hq. apply Hin. now right. }
  apply Hall. auto.
Qed.

Definition x_storyboard : EnhancedStoryboard :=
  mkEnhancedStoryboard "Acme" "Bottle" 9 "16:9" [x_scene 1; x_scene 2; x_scene 3] None None.

Lemma apply_parameter_modification_global_witness :
  nth_error [storyboard_to_py x_storyboard] 0 = Some (storyboard_to_py x_storyboard) /\
  exists store' res,
    apply_parameter_modification [storyboard_to_py x_storyboard] 0
      (mkModification "global_material" (PStr "leather") [2%Z])
    = Some (store', 1%nat, res) /\
    success res = true /\ modified_scenes res = [PInt 2].
Proof.
  split; [reflexivity|].
  destruct (apply_parameter_modification_global [storyboard_to_py x_storyboard] 0 x_storyboard
              (PStr "leather") [2%Z] eq_refl)
    as [(store' & res & H1 & _ & _ & H4 & _ & H6 & _) _].
  exists store', res. split; [exact H1|]. split; [exact H4|]. rewrite H6. reflexivity.
Defined.

Lemma apply_parameter_modification_scene_path_witness :
  nth_error [storyboard_to_py x_storyboard] 0 = Some (storyboard_to_py x_storyboard) /\
  String.prefix "global_" "camera.angle" = false /\
  Forall (fun s => plain_name s = true) (split_dot "camera.angle") /\
  (forall p, In p (scenes x_storyboard) ->
     path_exists (scene_to_py p) (split_dot "camera.angle") = true) /\
  hd_error (split_dot "camera.angle") <> Some "scene_number" /\
  exists store' res,
    apply_parameter_modification [storyboard_to_py x_storyboard] 0
      (mkModification "camera.angle" (PStr "high-angle") [])
    = Some (store', 1%nat, res) /\
    success res = true /\ modified_scenes res = [PInt 1; PInt 2; PInt 3].
Proof.
  assert (H0 : nth_error [storyboard_to_py x_storyboard] 0 = Some (storyboard_to_py x_storyboard))
    by reflexivity.
  assert (Hp : String.prefix "global_" "camera.angle" = false) by reflexivity.
  assert (Hpl : Forall (fun s => plain_name s = true) (split_dot "camera.angle"))
    by (repeat constructor).
  assert (He : forall p, In p (scenes x_storyboard) ->
             path_exists (scene_to_py p) (split_dot "camera.angle") = true).
  { intros p Hin. cbn [scenes x_storyboard In] in Hin.
    destruct Hin as [<- | [<- | [<- | []]]]; vm_compute; reflexivity. }
  assert (Hh : hd_error (split_dot "camera.angle") <> Some "scene_number").
  { vm_compute. intros Hc. discriminate Hc. }
  split; [exact H0|]. split; [exact Hp|]. split; [exact Hpl|]. split; [exact He|].
  split; [exact Hh|].
  destruct (apply_parameter_modification_scene_path [storyboard_to_py x_storyboard] 0 x_storyboard
              "camera.angle" (PStr "high-angle") [] H0 Hp Hpl He Hh)
    as (store' & res & ns & H1 & _ & _ & H4 & _ & H6 & _).
  exists store', res. split; [exact H1|]. split; [exact H4|]. rewrite H6. reflexivity.
Defined.

End ModificationBranchProofs.

(** *** [frame_generator.py]: frames per scene and frame counts *)

Module FrameGeneratorExtraProofs.
Import VideoCompositor FrameGenerator FrameGeneratorSpec FrameGeneratorProofs FrameCount.

(** **** One frame or one error per scene *)

Lemma generate_frames_for_scene_count (out : string) (s : Scene) (o : SceneOutcome) :
  (length (fg_frames (generate_frames_for_scene out s o))
   + length (fg_errors (generate_frames_for_scene out s o)))%nat = 1%nat.
Proof. destruct o as [url [|] | msg | msg]; reflexivity. Qed.

Lemma per_scene_count (gen : nat -> Scene -> SceneOutcome) (out : string) (scenes : list Scene) :
  forall i,
  (length (flat_map fg_frames (per_scene gen out i scenes))
   + length (flat_map fg_errors (per_scene gen out i scenes)))%nat = length scenes.
Proof.
  induction scenes as [|s rest IH]; intros i; [reflexivity|].
  cbn [per_scene flat_map length]. rewrite !length_app.
  pose proof (generate_frames_for_scene_count out s (gen i s)). specialize (IH (S i)). lia.
Qed.

Lemma per_scene_frame_in (gen : nat -> Scene -> SceneOutcome) (out : string) (scenes : list Scene) :
  forall i f, In f (flat_map fg_frames (per_scene gen out i scenes)) ->
  exists k s url, nth_error scenes k = Some s /\ gen (i + k)%nat s = GenOk url true /\
    f = mkFrame (scene_number s) 0 url (frame_path out (scene_number s)).
Proof.
  induction scenes as [|s rest IH]; intros i f H; [destruct H|].
  cbn [per_scene flat_map] in H. apply in_app_or in H. destruct H as [H | H].
  - exists 0%nat, s. rewrite Nat.add_0_r. unfold generate_frames_for_scene in H.
    destruct (gen i s) as [url [|] | msg | msg]; cbn [fg_frames In] in H;
      try destruct H as [<- | []]; try destruct H.
    exists url. auto.
  - destruct (IH (S i) f H) as (k & s' & url & Hk & Hg & ->).
    exists (S k), s', url. split; [exact Hk|]. split; [|reflexivity].
    rewrite <- Hg. f_equal. lia.
Qed.

Lemma sort_frames_perm (l : list GeneratedFrame) : Permutation l (sort_frames l).
Proof. exact (proj2 (sort_frames_aux l [] (Sorted_nil _))). Qed.

(** X11: generate_all_frames yields exactly one frame or one error per scene; on success there is one frame per scene. Every frame has index 0 and is the downloaded key frame of some scene, stored under that scene's frame path. *)
Theorem generate_all_frames_one_per_scene (gen : nat -> Scene -> SceneOutcome)
    (output_dir : string) (scenes : list Scene) :
  (length (fg_frames (snd (generate_all_frames gen output_dir scenes)))
   + length (fg_errors (snd (generate_all_frames gen output_dir scenes))) = length scenes)%nat /\
  (fg_success (snd (generate_all_frames gen output_dir scenes)) = true ->
   length (fg_frames (snd (generate_all_frames gen output_dir scenes))) = length scenes) /\
  (forall f, In f (fg_frames (snd (generate_all_frames gen output_dir scenes))) ->
   exists k s url, nth_error scenes k = Some s /\ gen k s = GenOk url true /\
     f = mkFrame (scene_number s) 0 url (frame_path output_dir (scene_number s))).
Proof.
  unfold generate_all_frames. rewrite scenes_loop_spec. cbn [app snd fg_frames fg_errors fg_success].
  pose proof (per_scene_count gen output_dir scenes 0) as Hc.
  pose proof (sort_frames_perm (flat_map fg_frames (per_scene gen output_dir 0 scenes))) as Hp.
  pose proof (Permutation_length Hp) as Hl.
  split; [lia|]. split.
  - intros Hs. apply Nat.eqb_eq in Hs. lia.
  - intros f Hf. apply (Permutation_in f (Permutation_sym Hp)) in Hf.
    exact (per_scene_frame_in gen output_dir scenes 0 f Hf).
Qed.

(** **** Frame counts *)

Lemma quot_nonneg_bounds (n : Z) (d : positive) :
  (0 <= n)%Z ->
  (Z.quot n (Zpos d) * Zpos d <= n < (Z.quot n (Zpos d) + 1) * Zpos d)%Z.
Proof.
  intros Hn. rewrite Z.quot_div_nonneg by lia.
  pose proof (Z.div_mod n (Zpos d) ltac:(lia)).
  pose proof (Z.mod_pos_bound n (Zpos d) ltac:(lia)). nia.
Qed.

Lemma quot_neg_nonpos (n : Z) (d : positive) : (n < 0)%Z -> (Z.quot n (Zpos d) <= 0)%Z.
Proof.
  intros Hn. replace n with (- (- n))%Z by lia. rewrite Z.quot_opp_l by lia.
  rewrite Z.quot_div_nonneg by lia. pose proof (Z.div_pos (- n) (Zpos d) ltac:(lia) ltac:(lia)). lia.
Qed.

Lemma py_int_of_float_bounds (x : Q) :
  0 <= x -> inject_Z (py_int_of_float x) <= x < inject_Z (py_int_of_float x) + 1.
Proof.
  destruct x as [n d]. unfold py_int_of_float, Qle, Qlt. cbn [Qnum Qden]. intros Hx.
  rewrite Z.mul_1_r in Hx. cbn in Hx.
  pose proof (quot_nonneg_bounds n d ltac:(lia)) as [H1 H2].
  unfold Qplus, inject_Z. cbn [Qnum Qden]. split; nia.
Qed.

Lemma calculate_frame_count_le_max (x : Q) :
  inject_Z (Z.max 1 (py_int_of_float x)) <= Qmax 1 x.
Proof.
  destruct (Z.le_gt_cases (py_int_of_float x) 1) as [Hq | Hq].
  - rewrite Z.max_l by lia. apply Qle_trans with 1; [|apply Q.le_max_l].
    unfold Qle. cbn. lia.
  - rewrite Z.max_r by lia. apply Qle_trans with x; [|apply Q.le_max_r].
    destruct (Qlt_le_dec x 0) as [Hx | Hx].
    + exfalso. destruct x as [n dn]. unfold Qlt in Hx. cbn in Hx.
      unfold py_int_of_float in Hq. cbn [Qnum Qden] in Hq.
      pose proof (quot_neg_nonpos n dn ltac:(lia)). lia.
    + exact (proj1 (py_int_of_float_bounds x Hx)).
Qed.

Lemma py_int_of_float_lt_1 (x : Q) : x < 1 -> (py_int_of_float x <= 0)%Z.
Proof.
  intros Hx. destruct (Qlt_le_dec x 0) as [Hn | Hp].
  - destruct x as [n dn]. unfold Qlt in Hn. cbn in Hn.
    unfold py_int_of_float. cbn [Qnum Qden]. apply quot_neg_nonpos. lia.
  - destruct (py_int_of_float_bounds x Hp) as [H1 _].
    destruct (Z.le_gt_cases (py_int_of_float x) 0) as [H | H]; [exact H | exfalso].
    assert (H2 : inject_Z 1 <= inject_Z (py_int_of_float x)) by (rewrite <- Zle_Qle; lia).
    apply (Qlt_irrefl x). eapply Qlt_le_trans; [exact Hx|].
    exact (Qle_trans _ _ _ H2 H1).
Qed.

(** X12: calculate_frame_count raises (None) exactly when the float product duration*fps overflows. Otherwise, with x the float value of duration*fps, it returns n >= 1: n is the floor of x when x >= 1, and n = 1 when x < 1. *)
Theorem calculate_frame_count_floor (float_mul : Q -> Z -> option Q) (duration : Q) (fps : Z) :
  (float_mul duration fps = None -> calculate_frame_count float_mul duration fps = None) /\
  (forall x, float_mul duration fps = Some x ->
     exists n, calculate_frame_count float_mul duration fps = Some n /\ (1 <= n)%Z /\
       (1 <= x -> inject_Z n <= x < inject_Z n + 1) /\
       (x < 1 -> n = 1%Z)).
Proof.
  unfold calculate_frame_count. split; [intros -> ; reflexivity|].
  intros x ->. exists (Z.max 1 (py_int_of_float x)). split; [reflexivity|].
  split; [lia|]. split.
  - intros Hx.
    assert (H0 : 0 <= x) by (apply Qle_trans with 1; [discriminate | exact Hx]).
    pose proof (py_int_of_float_bounds _ H0) as [H1 H2].
    assert (Hq : (1 <= py_int_of_float x)%Z).
    { destruct (Z.le_gt_cases 1 (py_int_of_float x)) as [Hq | Hq]; [exact Hq | exfalso].
      assert (Hle : inject_Z (py_int_of_float x + 1) <= inject_Z 1)
        by (rewrite <- Zle_Qle; lia).
      rewrite inject_Z_plus in Hle.
      apply (Qlt_irrefl 1). eapply Qle_lt_trans; [exact Hx|].
      eapply Qlt_le_trans; [exact H2 | exact Hle]. }
    rewrite Z.max_r by lia. split; assumption.
  - intros Hx. pose proof (py_int_of_float_lt_1 x Hx). lia.
Qed.

Lemma frame_count_loop_none (float_mul : Q -> Z -> option Q) (scenes : list Scene) (fps : Z) :
  forall total, frame_count_loop float_mul scenes fps total = None <->
  exists s, In s scenes /\ float_mul (duration s) fps = None.
Proof.
  induction scenes as [|s rest IH]; intros total; cbn [frame_count_loop].
  - split; [discriminate | intros (s & [] & _)].
  - unfold calculate_frame_count at 1. destruct (float_mul (duration s) fps) as [x|] eqn:E.
    + rewrite IH. split.
      * intros (s' & Hin & Hs'). exists s'. split; [now right | exact Hs'].
      * intros (s' & [<- | Hin] & Hs'); [congruence | eauto].
    + split; [intros _; exists s; split; [now left | exact E] | reflexivity].
Qed.

Lemma frame_count_loop_some (float_mul : Q -> Z -> option Q) (scenes : list Scene) (fps : Z) :
  forall total n, frame_count_loop float_mul scenes fps total = Some n ->
  (total + Z.of_nat (length scenes) <= n)%Z /\
  exists xs, Forall2 (fun s x => float_mul (duration s) fps = Some x) scenes xs /\
    inject_Z n <= inject_Z total + fold_right Qplus 0 (map (Qmax 1) xs).
Proof.
  induction scenes as [|s rest IH]; intros total n H; cbn [frame_count_loop] in H.
  - injection H as <-. split; [cbn; lia|]. exists []. split; [constructor|].
    cbn. rewrite Qplus_0_r. apply Qle_refl.
  - unfold calculate_frame_count at 1 in H.
    destruct (float_mul (duration s) fps) as [x|] eqn:E; [|discriminate].
    destruct (IH _ _ H) as (Hlen & xs & Hxs & Hle).
    split; [cbn [length]; lia|].
    exists (x :: xs). split; [constructor; assumption|].
    cbn [map fold_right]. eapply Qle_trans; [exact Hle|].
    rewrite inject_Z_plus, <- Qplus_assoc. apply Qplus_le_compat; [apply Qle_refl|].
    apply Qplus_le_compat; [apply calculate_frame_count_le_max | apply Qle_refl].
Qed.

(** X13: get_frame_count_for_storyboard raises (None) exactly when the float product duration*fps of some scene overflows. Otherwise the total n is at least the number of scenes, and at most the sum over scenes of max(1, x) with x the float value of that scene's duration*fps. *)
Theorem get_frame_count_for_storyboard_bounds (float_mul : Q -> Z -> option Q)
    (scenes : list Scene) (fps : Z) :
  (get_frame_count_for_storyboard float_mul scenes fps = None <->
   exists s, In s scenes /\ float_mul (duration s) fps = None) /\
  (forall n, get_frame_count_for_storyboard float_mul scenes fps = Some n ->
   (Z.of_nat (length scenes) <= n)%Z /\
   exists xs, Forall2 (fun s x => float_mul (duration s) fps = Some x) scenes xs /\
     inject_Z n <= fold_right Qplus 0 (map (Qmax 1) xs)).
Proof.
  unfold get_frame_count_for_storyboard. split; [apply frame_count_loop_none|].
  intros n H. destruct (frame_count_loop_some float_mul scenes fps 0 n H) as (H1 & xs & H2 & H3).
  split; [lia|]. exists xs. split; [exact H2|].
  eapply Qle_trans; [exact H3|]. rewrite Qplus_0_l. apply Qle_refl.
Qed.

End FrameGeneratorExtraProofs.

(** *** [main.py]: the job result a pipeline run leaves *)

Module JobStoreProofs.
Import FrameGenerator JobPipeline JobStore JobStoreSpec.

Ltac pipeline_end :=
  unfold results, run_view; cbn -[Retry.str_of_Z];
  eexists _, _; split; [reflexivity|]; split; [reflexivity|]; split; [reflexivity|];
  cbn; first
    [ left; split; [reflexivity|]; split; [reflexivity|]; split; [reflexivity|];
      eexists _, _; split; reflexivity
    | right; repeat split; reflexivity ].

(** X14: Every run of the v1 pipeline writes exactly one job result, and get_job_result then returns it. Either the final stage is complete and the result is a success with a video URL and duration and no error, or the final stage is error and the result is a failure with no URL or duration. *)
Theorem run_video_generation_pipeline_result (sb : StepOutcome unit)
    (fr : StepOutcome FrameGenerationResult) (comp : StepOutcome CompositeResult) :
  exists s r,
    results (run_video_generation_pipeline sb fr comp) = [r] /\
    run_view (queued_status :: run_video_generation_pipeline sb fr comp)
      = mkJobView (Some s) (Some r) /\
    get_job_result (run_view (queued_status :: run_video_generation_pipeline sb fr comp)) = inr r /\
    ((js_stage s = Complete /\ jr_success r = true /\ jr_error r = None /\
      exists url d, jr_video_url r = Some url /\ jr_duration r = Some d) \/
     (js_stage s = ErrorStage /\ jr_success r = false /\ jr_video_url r = None /\
      jr_duration r = None)).
Proof.
  unfold run_video_generation_pipeline, composite_effects.
  destruct sb as [u | e]; [|pipeline_end].
  destruct fr as [r | e]; [|pipeline_end].
  destruct (fg_success r); [|pipeline_end].
  destruct comp as [c | e]; [|pipeline_end].
  destruct (cr_success c); pipeline_end.
Qed.

(** X15: Every run of the v2 pipeline writes exactly one job result, and get_job_result then returns it. Either the final stage is complete and the result is a success with a video URL and duration and no error, or the final stage is error and the result is a failure with no URL or duration. *)
Theorem run_video_generation_pipeline_v2_result (sb : StepOutcome unit)
    (fr : StepOutcome EnhancedFrameResult) (conv : StepOutcome unit)
    (comp : StepOutcome CompositeResult) :
  exists s r,
    results (run_video_generation_pipeline_v2 sb fr conv comp) = [r] /\
    run_view (queued_status :: run_video_generation_pipeline_v2 sb fr conv comp)
      = mkJobView (Some s) (Some r) /\
    get_job_result (run_view (queued_status :: run_video_generation_pipeline_v2 sb fr conv comp))
      = inr r /\
    ((js_stage s = Complete /\ jr_success r = true /\ jr_error r = None /\
      exists url d, jr_video_url r = Some url /\ jr_duration r = Some d) \/
     (js_stage s = ErrorStage /\ jr_success r = false /\ jr_video_url r = None /\
      jr_duration r = None)).
Proof.
  unfold run_video_generation_pipeline_v2, composite_effects.
  destruct sb as [u | e]; [|pipeline_end].
  destruct fr as [r | e]; [|pipeline_end].
  destruct (ef_success r); [|pipeline_end].
  destruct conv as [u' | e]; [|pipeline_end].
  destruct comp as [c | e]; [|pipeline_end].
  destruct (cr_success c); pipeline_end.
Qed.

End JobStoreProofs.

(** *** [main.py]: the v1 storyboard of the v2 pipeline *)
Module V2ConversionProofs.
Import Models V2Conversion V2ConversionSpec JobPipeline JobPipelineSpec JobStoreSpec.

Lemma mem_In (s : string) (l : list string) : mem s l = true -> In s l.
Proof.
  unfold mem. intros H. apply existsb_exists in H. destruct H as (x & Hx & Hs).
  apply String.eqb_eq in Hs. subst. exact Hx.
Qed.

Lemma v1_transition_ok (t : string) :
  mem t ["fade"; "dissolve"; "cut"; "cross-dissolve"] = true ->
  mem (if String.eqb t "cross-dissolve" then "dissolve" else t) scene_transitions = true.
Proof.
  intros H. apply mem_In in H. simpl in H.
  destruct H as [<- | [<- | [<- | [<- | []]]]]; reflexivity.
Qed.

Lemma v1_angle_ok (a : string) :
  mem a ["close-up"; "medium-shot"; "wide-shot"; "overhead"; "low-angle"; "three-quarter"] = true ->
  mem (if negb (String.eqb a "three-quarter") then a else "medium-shot")
    fibo_prompt_camera_angles = true.
Proof.
  intros H. apply mem_In in H. simpl in H.
  destruct H as [<- | [<- | [<- | [<- | [<- | [<- | []]]]]]]; reflexivity.
Qed.

Lemma first_word_golden : first_word "golden-hour" = Some "golden".
Proof. reflexivity. Qed.

Lemma first_word_product : first_word "product-spotlight" = Some "product".
Proof. reflexivity. Qed.

Lemma to_v1_scene_rejected (p : SceneParameters) :
  l_style (lighting p) = "golden-hour" \/ l_style (lighting p) = "product-spotlight" ->
  to_v1_scene p = None.
Proof.
  intros Hl. unfold to_v1_scene. cbv zeta.
  destruct Hl as [-> | ->]; [rewrite first_word_golden | rewrite first_word_product];
    cbn [mem existsb fibo_prompt_lighting_styles String.eqb];
    destruct ((1 <=? sp_scene_number p)%Z && negb (Qle_bool (sp_duration p) 0)
              && mem _ scene_transitions && mem _ fibo_prompt_camera_angles);
    reflexivity.
Qed.

(** X16: For valid v2 scene parameters, the v1 scene built for the compositor fails validation exactly when the lighting style is golden-hour or product-spotlight. Otherwise it keeps the scene number and duration and maps the cross-dissolve transition to dissolve. *)
Theorem to_v1_scene_valid (p : SceneParameters) :
  valid_scene_parameters p = true ->
  to_v1_scene p =
  if String.eqb (l_style (lighting p)) "golden-hour"
     || String.eqb (l_style (lighting p)) "product-spotlight"
  then None
  else Some (VideoCompositor.mkScene (sp_scene_number p) (sp_duration p)
               (if String.eqb (sp_transition p) "cross-dissolve" then "dissolve"
                else sp_transition p)).
Proof.
  unfold valid_scene_parameters. intros H.
  apply andb_prop in H as [H Ht]. apply andb_prop in H as [H Hp].
  apply andb_prop in H as [H Hl]. apply andb_prop in H as [H Ha].
  apply andb_prop in H as [Hn Hd].
  apply mem_In in Hl. simpl in Hl.
  assert (Hrest : forall lw, first_word (l_style (lighting p)) = Some lw ->
            mem lw fibo_prompt_lighting_styles = true ->
            to_v1_scene p = Some (VideoCompositor.mkScene (sp_scene_number p) (sp_duration p)
               (if String.eqb (sp_transition p) "cross-dissolve" then "dissolve"
                else sp_transition p))).
  { intros lw Hw Hm. unfold to_v1_scene. cbv zeta. rewrite Hw.
    rewrite Hn, Hd, (v1_angle_ok _ Ha), (v1_transition_ok _ Ht), Hm.
    unfold fibo_prompt_positions. now rewrite Hp. }
  destruct Hl as [El | [El | [El | [El | [El | []]]]]].
  - rewrite (Hrest "soft"); [now rewrite <- El | now rewrite <- El | reflexivity].
  - rewrite (Hrest "dramatic"); [now rewrite <- El | now rewrite <- El | reflexivity].
  - rewrite (Hrest "natural"); [now rewrite <- El | now rewrite <- El | reflexivity].
  - rewrite (to_v1_scene_rejected p (or_introl (eq_sym El))). now rewrite <- El.
  - rewrite (to_v1_scene_rejected p (or_intror (eq_sym El))). now rewrite <- El.
Qed.

Lemma convert_scenes_none (l : list SceneParameters) (p : SceneParameters) :
  In p l -> to_v1_scene p = None -> convert_scenes l = None.
Proof.
  induction l as [|q l IH]; intros Hin Hp; [destruct Hin|].
  cbn [convert_scenes]. destruct Hin as [-> | Hin].
  - now rewrite Hp.
  - destruct (to_v1_scene q); [|reflexivity]. now rewrite (IH Hin Hp).
Qed.

(** X17: If a v2 storyboard has a scene lit golden-hour or product-spotlight and frame generation succeeds, the v2 pipeline never calls the compositor. It records a single failed result carrying the validation message, and ends in the error stage. *)
Theorem run_video_generation_pipeline_v2_lighting_rejected (sb : EnhancedStoryboard)
    (p : SceneParameters) (msg : string) (r : EnhancedFrameResult)
    (comp : StepOutcome CompositeResult) :
  In p (scenes sb) ->
  l_style (lighting p) = "golden-hour" \/ l_style (lighting p) = "product-spotlight" ->
  ef_success r = true ->
  ~ In CallComposite
      (run_video_generation_pipeline_v2 (Returned tt) (Returned r) (conversion_step msg sb) comp) /\
  results (run_video_generation_pipeline_v2 (Returned tt) (Returned r) (conversion_step msg sb) comp)
    = [mkJobResult false None None (Some msg)] /\
  last_stage (statuses
    (run_video_generation_pipeline_v2 (Returned tt) (Returned r) (conversion_step msg sb) comp))
    = Some ErrorStage.
Proof.
  intros Hin Hl Hs.
  assert (Hc : conversion_step msg sb = Raised msg).
  { unfold conversion_step, to_v1_storyboard.
    now rewrite (convert_scenes_none _ p Hin (to_v1_scene_rejected p Hl)). }
  rewrite Hc. unfold run_video_generation_pipeline_v2. rewrite Hs.
  cbn -[Retry.str_of_Z]. split; [|split; reflexivity].
  intros H. repeat (destruct H as [H | H]; [discriminate H|]). exact H.
Qed.

Definition x_v2_scene (n : Z) (light : string) : SceneParameters :=
  mkSceneParameters n 3 "Sunlit bottle on a terrace"
    (mkCamera "three-quarter" "product_hero")
    (mkLighting light "side" "medium")
    (mkComposition "rule-of-thirds-left" "environment" "shallow")
    (mkStyle ["#F2C14E"] (Some "glass") "warm" "commercial")
    "cross-dissolve".

Definition x_v2_storyboard : EnhancedStoryboard :=
  mkEnhancedStoryboard "Acme" "Bottle" 9 "16:9"
    [x_v2_scene 1 "soft-studio"; x_v2_scene 2 "golden-hour"; x_v2_scene 3 "dramatic"] None None.

Lemma to_v1_scene_valid_witness :
  valid_scene_parameters (x_v2_scene 2 "golden-hour") = true /\
  to_v1_scene (x_v2_scene 2 "golden-hour") = None /\
  valid_scene_parameters (x_v2_scene 1 "soft-studio") = true /\
  to_v1_scene (x_v2_scene 1 "soft-studio") = Some (VideoCompositor.mkScene 1 3 "dissolve").
Proof.
  assert (H1 : valid_scene_parameters (x_v2_scene 2 "golden-hour") = true) by reflexivity.
  assert (H2 : valid_scene_parameters (x_v2_scene 1 "soft-studio") = true) by reflexivity.
  split; [exact H1|]. split; [rewrite (to_v1_scene_valid _ H1); reflexivity|].
  split; [exact H2|]. rewrite (to_v1_scene_valid _ H2). reflexivity.
Defined.

Lemma run_video_generation_pipeline_v2_lighting_rejected_witness :
  ~ In CallComposite
      (run_video_generation_pipeline_v2 (Returned tt) (Returned (mkEnhancedFrameResult true 3 []))
         (conversion_step "lighting_style: Input should be one of the FIBOPrompt literals" x_v2_storyboard)
         (Raised "not reached")).
Proof.
  exact (proj1 (run_video_generation_pipeline_v2_lighting_rejected x_v2_storyboard
                  (x_v2_scene 2 "golden-hour") _ (mkEnhancedFrameResult true 3 []) _
                  (or_intror (or_introl eq_refl)) (or_introl eq_refl) eq_refl)).
Defined.

End V2ConversionProofs.

(** *** [fibo_client.py]: polling and request errors *)
Module FiboClientProofs.
Import PyModel Retry FiboClient FiboClientSpec.

(** **** [poll_status] *)

Lemma first_decision_range {A : Type} (f : nat -> option A) (n : nat) :
  forall k j a, first_decision f k n = Some (j, a) -> (k <= j < k + n)%nat.
Proof.
  induction n as [|n IH]; intros k j a H; cbn [first_decision] in H; [discriminate|].
  destruct (f k) as [b|].
  - injection H as <- _. lia.
  - apply IH in H. lia.
Qed.

Lemma poll_loop_S (repr : pyval -> string) (get : nat -> HttpOutcome) (rid : pyval)
    (fuel : nat) (elapsed : Z) (k : nat) :
  poll_loop repr get rid (S fuel) elapsed k =
  if Z.ltb elapsed MAX_POLL_TIME then
    match round_result repr (get k) with
    | None =>
        let '(evs, r) := poll_loop repr get rid fuel (elapsed + POLL_INTERVAL) (S k) in
        ((poll_round ++ evs)%list, r)
    | Some r => (poll_round, r)
    end
  else
    ([], inl (fibo_timeout_error ("FIBO request " ++ py_format repr rid ++ " did not complete within "
                                  ++ str_of_Z MAX_POLL_TIME ++ " seconds"))).
Proof.
  cbn [poll_loop]. destruct (Z.ltb elapsed MAX_POLL_TIME); [|reflexivity].
  unfold round_result. destruct (get k) as [code text body | | m]; [|reflexivity|reflexivity].
  destruct (status_response repr code text body); reflexivity.
Qed.

Lemma poll_loop_rounds (repr : pyval -> string) (get : nat -> HttpOutcome) (rid : pyval) (n : nat) :
  forall k, (k + n = 30)%nat ->
  poll_loop repr get rid (S n) (2 * Z.of_nat k) k =
  match first_decision (fun j => round_result repr (get j)) k n with
  | Some (j, r) => (concat (repeat poll_round (S (j - k))), r)
  | None =>
      (concat (repeat poll_round n),
       inl (fibo_timeout_error ("FIBO request " ++ py_format repr rid ++ " did not complete within "
                                ++ str_of_Z MAX_POLL_TIME ++ " seconds")))
  end.
Proof.
  induction n as [|n IH]; intros k Hk.
  - rewrite poll_loop_S. replace k with 30%nat by lia. reflexivity.
  - rewrite poll_loop_S.
    replace (Z.ltb (2 * Z.of_nat k) MAX_POLL_TIME) with true
      by (symmetry; apply Z.ltb_lt; unfold MAX_POLL_TIME; lia).
    cbn [first_decision]. destruct (round_result repr (get k)) as [r|] eqn:E.
    + rewrite Nat.sub_diag. reflexivity.
    + replace (2 * Z.of_nat k + POLL_INTERVAL)%Z with (2 * Z.of_nat (S k))%Z
        by (unfold POLL_INTERVAL; lia).
      rewrite (IH (S k)) by lia.
      destruct (first_decision (fun j => round_result repr (get j)) (S k) n) as [[j r]|] eqn:F.
      * apply first_decision_range in F. replace (j - k)%nat with (S (j - S k)) by lia.
        reflexivity.
      * reflexivity.
Qed.

(** X18: poll_status makes at most 30 rounds of (sleep 2 s, GET). It stops at the first round whose GET neither times out nor reports a status other than completed or failed, and returns that round's outcome. If no round stops it, it raises a FIBO timeout error saying the request did not complete within 60 seconds. *)
Theorem poll_status_rounds (repr : pyval -> string) (get : nat -> HttpOutcome) (rid : pyval) :
  poll_status repr get rid =
  match first_decision (fun j => round_result repr (get j)) 0 30 with
  | Some (j, r) => (concat (repeat poll_round (S j)), r)
  | None =>
      (concat (repeat poll_round 30),
       inl (fibo_timeout_error ("FIBO request " ++ py_format repr rid
                                ++ " did not complete within 60 seconds")))
  end /\
  (forall j r, first_decision (fun j => round_result repr (get j)) 0 30 = Some (j, r) ->
   (j < 30)%nat).
Proof.
  split.
  - unfold poll_status. change 0%Z with (2 * Z.of_nat 0)%Z.
    rewrite (poll_loop_rounds repr get rid 30 0) by lia.
    destruct (first_decision _ 0 30) as [[j r]|]; [now rewrite Nat.sub_0_r | reflexivity].
  - intros j r H. apply first_decision_range in H. lia.
Qed.

(** **** The exceptions of a request *)

Definition only_other {A : Type} (m : Exn + A) : Prop :=
  forall e, m = inl e -> exists s, e = OtherError s.

Lemma only_other_bind {A B : Type} (m : Exn + A) (f : A -> Exn + B) :
  only_other m -> (forall a, only_other (f a)) -> only_other (bind m f).
Proof.
  intros Hm Hf e. destruct m as [e'|a]; cbn [bind]; [intros H; injection H as <-; apply Hm; reflexivity | apply Hf].
Qed.

Lemma only_other_inr {A : Type} (a : A) : only_other (inr a : Exn + A).
Proof. intros e H. discriminate H. Qed.

Lemma only_other_py_get (v : pyval) (k : string) (d : pyval) : only_other (py_get v k d).
Proof. intros e. destruct v; cbn [py_get]; intros H; try discriminate H; injection H as <-; eauto. Qed.

Lemma only_other_py_len (v : pyval) : only_other (py_len v).
Proof. intros e. destruct v; cbn [py_len]; intros H; try discriminate H; injection H as <-; eauto. Qed.

Lemma only_other_nonempty_seq (v : pyval) : only_other (nonempty_seq v).
Proof.
  unfold nonempty_seq. destruct (py_truthy v); [|apply only_other_inr].
  apply only_other_bind; [apply only_other_py_len | intros; apply only_other_inr].
Qed.

Lemma only_other_py_index0 (v : pyval) : only_other (py_index0 v).
Proof.
  intros e. destruct v as [| | | |[|c s]|[|x xs]| |]; cbn [py_index0]; intros H;
    try discriminate H; injection H as <-; eauto.
Qed.

Lemma only_other_py_lower (v : pyval) : only_other (py_lower v).
Proof. intros e. destruct v; cbn [py_lower]; intros H; try discriminate H; injection H as <-; eauto. Qed.

Lemma only_other_validate_str (v : pyval) : only_other (validate_str v).
Proof. intros e. destruct v; cbn [validate_str]; intros H; try discriminate H; injection H as <-; eauto. Qed.

Create HintDb only_other.

#[local] Hint Resolve only_other_inr only_other_py_get only_other_py_len only_other_nonempty_seq
  only_other_py_index0 only_other_py_lower only_other_validate_str : only_other.

Ltac only_other_tac :=
  repeat match goal with
         | |- only_other (bind _ _) => apply only_other_bind; [|intros ?]
         | |- only_other (if ?b then _ else _) => destruct b
         | |- only_other (let '(_, _) := ?p in _) => destruct p
         | |- only_other _ => solve [auto with only_other]
         end.

Lemma only_other_sync_result (data : pyval) : only_other (sync_result data).
Proof. unfold sync_result. only_other_tac. Qed.

Lemma class_of_other (e : Exn) : (exists s, e = OtherError s) -> request_error_class e.
Proof. intros [s ->]. right; right; right. eauto. Qed.

Lemma class_of_api_none (m : string) : request_error_class (fibo_api_error m None).
Proof. left. exists m, "FIBO_API_ERROR". reflexivity. Qed.

Lemma class_of_api_code (m : string) (c : Z) :
  c <> 401%Z -> request_error_class (fibo_api_error m (Some c)).
Proof.
  intros Hc. left. exists m, "FIBO_API_ERROR". unfold fibo_api_error.
  now rewrite (proj2 (Z.eqb_neq c 401) Hc).
Qed.

Lemma class_of_status_response (repr : pyval -> string) (code : Z) (text : string)
    (body : option pyval) (e : Exn) :
  status_response repr code text body = Some (inl e) -> request_error_class e.
Proof.
  unfold status_response. destruct (Z.eqb code 200) eqn:E200; cbn [negb].
  - destruct body as [data|]; [|intros [= <-]; apply class_of_other; unfold json_error; eauto].
    destruct (bind (py_get data "status" (PStr "")) py_lower) as [e'|st] eqn:Est.
    + intros [= <-]. apply class_of_other.
      exact (only_other_bind _ _ (only_other_py_get data "status" (PStr "")) only_other_py_lower e' Est).
    + destruct (String.eqb st "completed").
      * intros [= H]. revert H.
        match goal with |- ?t = inl e -> _ =>
          assert (Ht : forall e', t = inl e' -> request_error_class e') end.
        { intros e'. unfold bind.
          destruct (py_get data "result" (PList [])) as [x|result] eqn:E1.
          { intros [= <-]. apply class_of_other. exact (only_other_py_get _ _ _ _ E1). }
          destruct (nonempty_seq result) as [x|has] eqn:E2.
          { intros [= <-]. apply class_of_other. exact (only_other_nonempty_seq _ _ E2). }
          destruct has; [|intros [= <-]; apply class_of_api_none].
          destruct (py_index0 result) as [x|r0] eqn:E3.
          { intros [= <-]. apply class_of_other. exact (only_other_py_index0 _ _ E3). }
          destruct (py_get r0 "urls" PNone) as [x|urls] eqn:E4.
          { intros [= <-]. apply class_of_other. exact (only_other_py_get _ _ _ _ E4). }
          destruct (nonempty_seq urls) as [x|has_u] eqn:E5.
          { intros [= <-]. apply class_of_other. exact (only_other_nonempty_seq _ _ E5). }
          destruct has_u; [|intros [= <-]; apply class_of_api_none].
          intros H. apply class_of_other. exact (only_other_py_index0 _ _ H). }
        exact (Ht e).
      * destruct (String.eqb st "failed"); [|discriminate].
        intros [= H]. unfold bind in H.
        destruct (py_get data "error" (PStr "Unknown error")) as [x|em] eqn:E1.
        -- injection H as <-. apply class_of_other. exact (only_other_py_get _ _ _ _ E1).
        -- injection H as <-. apply class_of_api_none.
  - intros [= <-]. destruct (Z.eq_dec code 401) as [-> | Hc].
    + right; right; left. eexists. reflexivity.
    + apply class_of_api_code. exact Hc.
Qed.

Lemma class_of_round (repr : pyval -> string) (o : HttpOutcome) (e : Exn) :
  round_result repr o = Some (inl e) -> request_error_class e.
Proof.
  destruct o as [code text body | | m]; cbn [round_result].
  - apply class_of_status_response.
  - discriminate.
  - intros [= <-]. left. eauto.
Qed.

Lemma class_of_poll (repr : pyval -> string) (get : nat -> HttpOutcome) (rid : pyval) (e : Exn) :
  snd (poll_status repr get rid) = inl e -> request_error_class e.
Proof.
  unfold poll_status. change 0%Z with (2 * Z.of_nat 0)%Z.
  rewrite (poll_loop_rounds repr get rid 30 0) by lia.
  destruct (first_decision (fun j => round_result repr (get j)) 0 30) as [[j r]|] eqn:F.
  - cbn [snd]. intros ->.
    assert (Hd : forall k n j, first_decision (fun j => round_result repr (get j)) k n
                                = Some (j, inl e) -> round_result repr (get j) = Some (inl e)).
    { intros k n. revert k. induction n as [|n IH]; intros k j' H; cbn [first_decision] in H;
        [discriminate|].
      destruct (round_result repr (get k)) eqn:Ek; [injection H as <- <-; exact Ek | exact (IH _ _ H)]. }
    exact (class_of_round repr (get j) e (Hd 0%nat 30%nat j F)).
  - cbn [snd]. intros [= <-]. left. do 2 eexists. reflexivity.
Qed.


Lemma cls_ok_of_other {A : Type} (m : Exn + A) : only_other m -> cls_ok m.
Proof. intros H e He. apply class_of_other. exact (H e He). Qed.

Lemma cls_ok_bind {A B : Type} (m : Exn + A) (f : A -> Exn + B) :
  cls_ok m -> (forall a, cls_ok (f a)) -> cls_ok (bind m f).
Proof.
  intros Hm Hf e. destruct m as [e'|a]; cbn [bind];
    [intros H; injection H as <-; apply Hm; reflexivity | apply Hf].
Qed.

(** X19: Every exception raised by one call of a FIBO generation method falls into one of four kinds: a retryable FIBOError, the non-retryable 'Invalid FIBO API key' error, a non-retryable 'Status check failed' error from polling, or an error that is not a FIBOError. *)
Theorem request_attempt_errors (repr : pyval -> string) (api : string) (post : HttpOutcome)
    (get : nat -> HttpOutcome) (e : Exn) :
  snd (request_attempt repr api post get) = inl e ->
  (exists m c, e = FIBOError m c true) \/
  e = FIBOError "Invalid FIBO API key" "FIBO_API_ERROR" false \/
  (exists t, e = FIBOError ("Status check failed: " ++ t) "FIBO_API_ERROR" false) \/
  (exists m, e = OtherError m).
Proof.
  change (snd (request_attempt repr api post get) = inl e -> request_error_class e).
  revert e. change (cls_ok (snd (request_attempt repr api post get))).
  unfold request_attempt. destruct post as [code text body | | m].
  - destruct (Z.eqb code 401) eqn:E401.
    { intros e [= <-]. right; left. reflexivity. }
    destruct (negb (Z.eqb code 200) && negb (Z.eqb code 202)).
    { intros e [= <-]. apply class_of_api_code. now apply Z.eqb_neq. }
    destruct body as [data|].
    2: { intros e [= <-]. apply class_of_other. unfold json_error. eauto. }
    destruct (sync_result data) as [e'|[r|]] eqn:Es.
    { intros e [= <-]. apply class_of_other. exact (only_other_sync_result data e' Es). }
    { intros e H. discriminate H. }
    match goal with |- cls_ok (snd (match ?x with inl _ => _ | inr _ => _ end)) =>
      destruct x as [e'|[sid su]] eqn:Eb end.
    { intros e [= <-]. apply class_of_other. revert Eb.
      match goal with |- ?x = _ -> _ => assert (Ho : only_other x) by only_other_tac end.
      apply Ho. }
    destruct (py_truthy su).
    2: { intros e [= <-]. apply class_of_api_none. }
    cbv zeta. destruct (poll_status repr get _) as [evs r] eqn:Ep. cbn [snd].
    apply cls_ok_bind.
    { intros e' He'. apply (class_of_poll repr get (if py_truthy sid then sid else PStr "unknown") e'). rewrite Ep. exact He'. }
    intros a. apply cls_ok_of_other. only_other_tac.
  - intros e [= <-]. left. do 2 eexists. reflexivity.
  - intros e [= <-]. left. do 2 eexists. reflexivity.
Qed.

Definition x_status_body : pyval := PDict [("sid", PStr "r1"); ("status_url", PStr "https://x/status")].
Definition x_failed_body : pyval := PDict [("status", PStr "failed"); ("error", PStr "quota")].

Lemma request_attempt_errors_witness :
  snd (request_attempt (fun _ => "") "FIBO API" (HResp 202 "" (Some x_status_body))
         (fun _ => HResp 200 "" (Some x_failed_body)))
    = inl (FIBOError "Image generation failed: quota" "FIBO_API_ERROR" true) /\
  ((exists m c, FIBOError "Image generation failed: quota" "FIBO_API_ERROR" true = FIBOError m c true) \/
   FIBOError "Image generation failed: quota" "FIBO_API_ERROR" true
     = FIBOError "Invalid FIBO API key" "FIBO_API_ERROR" false \/
   (exists t, FIBOError "Image generation failed: quota" "FIBO_API_ERROR" true
                = FIBOError ("Status check failed: " ++ t) "FIBO_API_ERROR" false) \/
   (exists m, FIBOError "Image generation failed: quota" "FIBO_API_ERROR" true = OtherError m)).
Proof.
  split; [vm_compute; reflexivity|].
  apply (request_attempt_errors (fun _ => "") "FIBO API" (HResp 202 "" (Some x_status_body))
           (fun _ => HResp 200 "" (Some x_failed_body))).
  vm_compute. reflexivity.
Defined.

(** X20: If the first POST of a decorated FIBO request is answered 401, the request makes exactly one attempt, with no sleep, and raises 'Invalid FIBO API key' as a non-retryable FIBO_API_ERROR. *)
Theorem decorated_request_unauthorized (repr : pyval -> string) (api : string)
    (posts : nat -> HttpOutcome) (gets : nat -> nat -> HttpOutcome) (text : string)
    (body : option pyval) :
  posts 0%nat = HResp 401 text body ->
  decorated_request repr api posts gets
    = ([Attempt 0], Raise (FIBOError "Invalid FIBO API key" "FIBO_API_ERROR" false)).
Proof.
  intros H. unfold decorated_request, with_retry.
  change (Z.to_nat (3 + 1)) with 4%nat. cbn [retry_loop]. rewrite H. reflexivity.
Qed.

Lemma decorated_request_unauthorized_witness :
  decorated_request (fun _ => "") "FIBO API" (fun _ => HResp 401 "unauthorized" None)
    (fun _ _ => HTimeout)
    = ([Attempt 0], Raise (FIBOError "Invalid FIBO API key" "FIBO_API_ERROR" false)).
Proof. apply (decorated_request_unauthorized _ _ _ _ "unauthorized" None). reflexivity. Defined.

(** X21: If all four POSTs of a decorated FIBO request time out, it makes attempts 0 to 3 with sleeps of 1, 2 and 4 seconds between them. It then raises FIBORetryExhaustedError('Failed after 3 retries: Request to <api> timed out') carrying the last timeout error. *)
Theorem decorated_request_timeouts (repr : pyval -> string) (api : string)
    (posts : nat -> HttpOutcome) (gets : nat -> nat -> HttpOutcome) :
  (forall k, (k <= 3)%nat -> posts k = HTimeout) ->
  decorated_request repr api posts gets
    = ([Attempt 0; Sleep 1; Attempt 1; Sleep 2; Attempt 2; Sleep 4; Attempt 3],
       Raise (FIBORetryExhaustedError ("Failed after 3 retries: Request to " ++ api ++ " timed out")
                (Some (fibo_timeout_error ("Request to " ++ api ++ " timed out"))))).
Proof.
  intros H. unfold decorated_request, with_retry.
  change (Z.to_nat (3 + 1)) with 4%nat. cbn [retry_loop]. rewrite !H by lia. reflexivity.
Qed.

Lemma decorated_request_timeouts_witness :
  (forall k, (k <= 3)%nat -> (fun _ : nat => HTimeout) k = HTimeout) /\
  decorated_request (fun _ => "") "FIBO API" (fun _ => HTimeout) (fun _ _ => HTimeout)
    = ([Attempt 0; Sleep 1; Attempt 1; Sleep 2; Attempt 2; Sleep 4; Attempt 3],
       Raise (FIBORetryExhaustedError ("Failed after 3 retries: Request to " ++ "FIBO API" ++ " timed out")
                (Some (fibo_timeout_error ("Request to " ++ "FIBO API" ++ " timed out"))))).
Proof.
  split; [reflexivity|].
  apply (decorated_request_timeouts (fun _ => "") "FIBO API" (fun _ => HTimeout) (fun _ _ => HTimeout)).
  reflexivity.
Defined.


(** **** The structured prompt of a scene *)


Lemma get_or_no_hyphen (o : option string) (d : string) :
  (forall v, o = Some v -> has_char "-"%char v = false) -> has_char "-"%char d = false ->
  has_char "-"%char (get_or o d) = false.
Proof. destruct o; cbn [get_or]; auto. Qed.

Ltac map_values m :=
  intros v; unfold m;
  repeat match goal with |- context [if String.eqb ?a ?b then _ else _] =>
           destruct (String.eqb a b) end;
  intros H; try discriminate H; injection H as <-; reflexivity.

Lemma camera_angle_map_no_hyphen (a v : string) :
  camera_angle_map a = Some v -> has_char "-"%char v = false.
Proof. revert v. map_values camera_angle_map. Qed.

Lemma lighting_map_no_hyphen (a v : string) :
  lighting_map a = Some v -> has_char "-"%char v = false.
Proof. revert v. map_values lighting_map. Qed.

Lemma position_map_no_hyphen (a v : string) :
  position_map a = Some v -> has_char "-"%char v = false.
Proof. revert v. map_values position_map. Qed.

Lemma py_iter_strs_str_list (l : list string) : py_iter_strs (Models.str_list l) = inr l.
Proof.
  unfold Models.str_list, py_iter_strs. induction l as [|s l IH]; [reflexivity|].
  cbn [map fold_right]. now rewrite IH.
Qed.

(** X22: from_scene_prompt puts only hyphen-free strings in the camera, lighting and composition dicts. The style dict always has a non-empty mood string, and its color palette is the given list, or [] when there is none. *)
Theorem from_scene_prompt_values (prompt camera_angle lighting_style subject_position : string)
    (color_palette : option (list string)) (mood : option string) :
  let sp := from_scene_prompt prompt camera_angle lighting_style subject_position
              color_palette mood in
  Forall no_hyphen_str (sp_camera sp ++ sp_lighting sp ++ sp_composition sp) /\
  (exists m, dict_get (sp_style sp) "mood" PNone = PStr m /\ m <> "") /\
  dict_get (sp_style sp) "color_palette" PNone
    = Models.str_list (match color_palette with Some l => l | None => [] end).
Proof.
  cbn zeta. unfold from_scene_prompt. cbn [sp_camera sp_lighting sp_composition sp_style].
  split; [|split].
  - repeat constructor; eexists; (split; [reflexivity|]);
      try reflexivity; apply get_or_no_hyphen;
      first [ apply camera_angle_map_no_hyphen | apply lighting_map_no_hyphen
            | apply position_map_no_hyphen | reflexivity
            | apply FiboTranslatorProofs.replace_hyphen_no_hyphen ].
  - unfold dict_get. cbn [assoc_get String.eqb Ascii.eqb Bool.eqb andb].
    destruct mood as [m|].
    + destruct (String.eqb m "") eqn:E.
      * exists "professional". split; [reflexivity|discriminate].
      * exists m. split; [reflexivity|]. intros ->. discriminate E.
    + exists "professional". split; [reflexivity|discriminate].
  - reflexivity.
Qed.

(** X23: For a prompt built by from_scene_prompt, the text prompt of generate_structured_image never fails. It always joins the description and the camera, lighting, composition and mood parts with '. ', and adds a color palette part exactly when the palette is non-empty. *)
Theorem structured_prompt_text_from_scene_prompt (repr : pyval -> string)
    (prompt camera_angle lighting_style subject_position : string)
    (color_palette : option (list string)) (mood : option string) :
  structured_prompt_text repr
    (from_scene_prompt prompt camera_angle lighting_style subject_position color_palette mood)
  = inr (JobPipeline.py_join ". "
      (app [prompt;
        "Camera: " ++ get_or (camera_angle_map camera_angle)
                      (FiboTranslator.replace_hyphen camera_angle) ++ " shot";
        "Lighting: " ++ get_or (lighting_map lighting_style)
                      (FiboTranslator.replace_hyphen lighting_style) ++ " lighting";
        "Composition: subject " ++ get_or (position_map subject_position) "center";
        "Mood: " ++ match mood with
                    | Some m => if String.eqb m "" then "professional" else m
                    | None => "professional" end]
       (match color_palette with
          | Some (c :: cs) => ["Color palette: " ++ JobPipeline.py_join ", " (c :: cs)]
          | _ => []
          end))).
Proof.
  unfold structured_prompt_text, from_scene_prompt, dict_get.
  cbn [sp_scene_description sp_camera sp_lighting sp_composition sp_style assoc_get
       String.eqb Ascii.eqb Bool.eqb andb py_format].
  assert (Hm : py_truthy (PStr (match mood with
                                | Some m => if String.eqb m "" then "professional" else m
                                | None => "professional" end)) = true).
  { destruct mood as [m|]; [|reflexivity].
    destruct (String.eqb m "") eqn:E; [reflexivity|]. cbn [py_truthy]. now rewrite E. }
  rewrite Hm. cbn [app].
  destruct color_palette as [[|c cs]|]; try reflexivity.
  rewrite py_iter_strs_str_list. reflexivity.
Qed.

End FiboClientProofs.

(** *** [main.py]: [get_job_result] while a pipeline runs *)
Module JobResultPollingProofs.
Import FrameGenerator JobPipeline JobStore JobStoreSpec.

Ltac prefix_cases n :=
  repeat (destruct n as [|n];
          [cbn -[Retry.str_of_Z];
           first [left; reflexivity | right; split; reflexivity] |]);
  cbn -[Retry.str_of_Z] in *; lia.

(** X24: While a v1 pipeline run is in progress, get_job_result answers 400 JOB_NOT_COMPLETE. The exception is the moment after the final status is written and before the result is stored: there it answers 500 RESULT_NOT_FOUND. *)
Theorem run_video_generation_pipeline_result_polling (sb : StepOutcome unit)
    (fr : StepOutcome FrameGenerationResult) (comp : StepOutcome CompositeResult) (n : nat) :
  (n < length (run_video_generation_pipeline sb fr comp))%nat ->
  get_job_result (run_view (queued_status :: firstn n (run_video_generation_pipeline sb fr comp)))
    = inl (400%Z, "JOB_NOT_COMPLETE") \/
  (S n = length (run_video_generation_pipeline sb fr comp) /\
   get_job_result (run_view (queued_status :: firstn n (run_video_generation_pipeline sb fr comp)))
    = inl (500%Z, "RESULT_NOT_FOUND")).
Proof.
  unfold run_video_generation_pipeline, composite_effects.
  destruct sb as [u | e]; [|prefix_cases n].
  destruct fr as [r | e]; [|prefix_cases n].
  destruct (fg_success r); [|prefix_cases n].
  destruct comp as [c | e]; [|prefix_cases n].
  destruct (cr_success c); prefix_cases n.
Qed.

Lemma run_video_generation_pipeline_result_polling_witness :
  (8 < length (run_video_generation_pipeline (Returned tt)
                 (Returned (mkFrameGenerationResult true [] []))
                 (Returned (mkCompositeResult true "/videos/j.mp4" 10 None))))%nat /\
  (get_job_result (run_view (queued_status :: firstn 8 (run_video_generation_pipeline (Returned tt)
       (Returned (mkFrameGenerationResult true [] []))
       (Returned (mkCompositeResult true "/videos/j.mp4" 10 None)))))
    = inl (400%Z, "JOB_NOT_COMPLETE") \/
   (9%nat = length (run_video_generation_pipeline (Returned tt)
                 (Returned (mkFrameGenerationResult true [] []))
                 (Returned (mkCompositeResult true "/videos/j.mp4" 10 None))) /\
    get_job_result (run_view (queued_status :: firstn 8 (run_video_generation_pipeline (Returned tt)
       (Returned (mkFrameGenerationResult true [] []))
       (Returned (mkCompositeResult true "/videos/j.mp4" 10 None)))))
    = inl (500%Z, "RESULT_NOT_FOUND"))).
Proof.
  split; [cbn; lia|].
  apply run_video_generation_pipeline_result_polling. cbn; lia.
Defined.

(** X25: While a v2 pipeline run is in progress, get_job_result answers 400 JOB_NOT_COMPLETE. The exception is the moment after the final status is written and before the result is stored: there it answers 500 RESULT_NOT_FOUND. *)
Theorem run_video_generation_pipeline_v2_result_polling (sb : StepOutcome unit)
    (fr : StepOutcome EnhancedFrameResult) (conv : StepOutcome unit)
    (comp : StepOutcome CompositeResult) (n : nat) :
  (n < length (run_video_generation_pipeline_v2 sb fr conv comp))%nat ->
  get_job_result (run_view (queued_status :: firstn n (run_video_generation_pipeline_v2 sb fr conv comp)))
    = inl (400%Z, "JOB_NOT_COMPLETE") \/
  (S n = length (run_video_generation_pipeline_v2 sb fr conv comp) /\
   get_job_result (run_view (queued_status :: firstn n (run_video_generation_pipeline_v2 sb fr conv comp)))
    = inl (500%Z, "RESULT_NOT_FOUND")).
Proof.
  unfold run_video_generation_pipeline_v2, composite_effects.
  destruct sb as [u | e]; [|prefix_cases n].
  destruct fr as [r | e]; [|prefix_cases n].
  destruct (ef_success r); [|prefix_cases n].
  destruct conv as [u' | e]; [|prefix_cases n].
  destruct comp as [c | e]; [|prefix_cases n].
  destruct (cr_success c); prefix_cases n.
Qed.

Lemma run_video_generation_pipeline_v2_result_polling_witness :
  (3 < length (run_video_generation_pipeline_v2 (Returned tt)
                 (Returned (mkEnhancedFrameResult false 0 ["scene 1: timeout"]))
                 (Returned tt) (Raised "unused")))%nat /\
  (get_job_result (run_view (queued_status :: firstn 3 (run_video_generation_pipeline_v2 (Returned tt)
       (Returned (mkEnhancedFrameResult false 0 ["scene 1: timeout"]))
       (Returned tt) (Raised "unused"))))
    = inl (400%Z, "JOB_NOT_COMPLETE") \/
   (4%nat = length (run_video_generation_pipeline_v2 (Returned tt)
                 (Returned (mkEnhancedFrameResult false 0 ["scene 1: timeout"]))
                 (Returned tt) (Raised "unused")) /\
    get_job_result (run_view (queued_status :: firstn 3 (run_video_generation_pipeline_v2 (Returned tt)
       (Returned (mkEnhancedFrameResult false 0 ["scene 1: timeout"]))
       (Returned tt) (Raised "unused"))))
    = inl (500%Z, "RESULT_NOT_FOUND"))).
Proof.
  split; [cbn; lia|].
  apply run_video_generation_pipeline_v2_result_polling. cbn; lia.
Defined.

End JobResultPollingProofs.
